(** * Mini SQL Engine: the statement execution pipeline

    A shallow embedding of the Python package [mini_sql_engine]: the typed
    data model (Column, Schema, Row, Table), the storage registry, the
    plan operations, the query processor and the execution engine, followed
    by the properties of the pipeline.

    Conventions of the embedding.
    - Python values are the tagged union [Value]; [int] is unbounded ([Z]),
      [float] is an IEEE binary64 number ([spec_float]), [str] is a
      [string] of ASCII characters.
    - A raised exception is a value [Exc] (class and message); a function
      that may raise returns a [result].
    - Code that mutates an object threads that object explicitly: a
      computation of type [M S A] receives the object of type [S] and
      returns it, as it is when the computation returns or raises.
    - A [dict] is an association list in insertion order with unique keys.
    - The names that an [except] clause lists are looked up in the globals
      of the module that contains the clause, when the clause is reached. *)

From Stdlib Require Import ZArith List String Ascii Bool Lia SpecFloat.
From Stdlib Require Import DecimalString.
Import ListNotations.

Local Open Scope Z_scope.
Local Open Scope string_scope.

(** ** Python strings *)

Module PyStr.

Definition in_range (lo hi : nat) (c : ascii) : bool :=
  (lo <=? nat_of_ascii c)%nat && (nat_of_ascii c <=? hi)%nat.

Definition isupper_char := in_range 65 90.
Definition islower_char := in_range 97 122.
Definition isdigit_char := in_range 48 57.

Definition isalnum_char (c : ascii) : bool :=
  isupper_char c || islower_char c || isdigit_char c.

(** [str.isspace] on one ASCII character. *)
Definition isspace_char (c : ascii) : bool :=
  in_range 9 13 c || in_range 28 32 c.

Definition lower_char (c : ascii) : ascii :=
  if isupper_char c then ascii_of_nat (nat_of_ascii c + 32) else c.

Definition upper_char (c : ascii) : ascii :=
  if islower_char c then ascii_of_nat (nat_of_ascii c - 32) else c.

Fixpoint map (f : ascii -> ascii) (s : string) : string :=
  match s with
  | EmptyString => EmptyString
  | String c r => String (f c) (map f r)
  end.

Definition lower : string -> string := map lower_char.
Definition upper : string -> string := map upper_char.

Fixpoint all (p : ascii -> bool) (s : string) : bool :=
  match s with
  | EmptyString => true
  | String c r => p c && all p r
  end.

(** [s.isalnum()]: at least one character, all alphanumeric. *)
Definition isalnum (s : string) : bool :=
  match s with
  | EmptyString => false
  | _ => all isalnum_char s
  end.

(** [s.replace(c, '')] for a one-character [c]. *)
Fixpoint remove (c : ascii) (s : string) : string :=
  match s with
  | EmptyString => EmptyString
  | String d r => if Ascii.eqb c d then remove c r else String d (remove c r)
  end.

Fixpoint lstrip (s : string) : string :=
  match s with
  | EmptyString => EmptyString
  | String c r => if isspace_char c then lstrip r else s
  end.

Fixpoint rev_onto (s acc : string) : string :=
  match s with
  | EmptyString => acc
  | String c r => rev_onto r (String c acc)
  end.

Definition rev (s : string) : string := rev_onto s EmptyString.

Definition strip (s : string) : string := rev (lstrip (rev (lstrip s))).

Definition len (s : string) : Z := Z.of_nat (String.length s).

(** [str(n)] for an [int]. *)
Definition of_Z (n : Z) : string := NilZero.string_of_int (Z.to_int n).

(** [sep.join(l)]. *)
Fixpoint join (sep : string) (l : list string) : string :=
  match l with
  | [] => ""
  | [x] => x
  | x :: r => x ++ sep ++ join sep r
  end.

(** [x in l] for a tuple or set of strings. *)
Definition mem (x : string) (l : list string) : bool :=
  existsb (String.eqb x) l.

(** [len(set(l))]: the number of distinct strings of [l]. *)
Definition distinct (l : list string) : nat :=
  List.length (nodup string_dec l).

End PyStr.

(** ** Values *)

Inductive Value : Type :=
| VNone
| VBool (b : bool)
| VInt (n : Z)
| VFloat (f : spec_float)
| VStr (s : string).

(** The conversions between text and numbers of the Python runtime that
    the engine calls: [int(s)] and [float(s)] on a [str] ([None] when they
    raise [ValueError]), and [repr] of a [float] and of a [str]. They are
    part of the interpreter, not of the package, and the development is
    parametric in them. *)
Class PyBuiltins : Type := {
  int_of_str : string -> option Z;
  float_of_str : string -> option spec_float;
  repr_float : spec_float -> string;
  repr_str : string -> string
}.

(** ** Exceptions *)

Inductive ExcClass : Type :=
| Exception
| ValueError | TypeError | NameError | OverflowError | KeyError | IndexError
| SQLEngineError
| ParseError | ValidationError | TableNotFoundError | ColumnNotFoundError
| StorageError | ProcessingError | ExecutionError
| DataTypeError | SchemaError | ConstraintError.

Definition ExcClass_eqb (a b : ExcClass) : bool :=
  match a, b with
  | Exception, Exception | ValueError, ValueError | TypeError, TypeError
  | NameError, NameError | OverflowError, OverflowError | KeyError, KeyError
  | IndexError, IndexError | SQLEngineError, SQLEngineError
  | ParseError, ParseError | ValidationError, ValidationError
  | TableNotFoundError, TableNotFoundError
  | ColumnNotFoundError, ColumnNotFoundError
  | StorageError, StorageError | ProcessingError, ProcessingError
  | ExecutionError, ExecutionError | DataTypeError, DataTypeError
  | SchemaError, SchemaError | ConstraintError, ConstraintError => true
  | _, _ => false
  end.

(** The base class of each exception class (exceptions.py for the engine's
    own classes). *)
Definition base (c : ExcClass) : option ExcClass :=
  match c with
  | Exception => None
  | ValueError | TypeError | NameError | OverflowError | KeyError
  | IndexError | SQLEngineError => Some Exception
  | ParseError | ValidationError | TableNotFoundError | ColumnNotFoundError
  | StorageError | ProcessingError | ExecutionError => Some SQLEngineError
  | DataTypeError | SchemaError | ConstraintError => Some ValidationError
  end.

Fixpoint issubclass_fuel (fuel : nat) (c k : ExcClass) : bool :=
  ExcClass_eqb c k ||
  match fuel with
  | O => false
  | S fuel' =>
      match base c with
      | Some b => issubclass_fuel fuel' b k
      | None => false
      end
  end.

(** The hierarchy is three levels deep. *)
Definition issubclass : ExcClass -> ExcClass -> bool := issubclass_fuel 3.

Record Exc : Type := mkExc {
  exc_class : ExcClass;
  exc_message : string
}.

Inductive result (A : Type) : Type :=
| Ok (a : A)
| Raise (e : Exc).

Arguments Ok {A} a.
Arguments Raise {A} e.

Definition raise {A : Type} (c : ExcClass) (msg : string) : result A :=
  Raise (mkExc c msg).

Definition bind {A B : Type} (r : result A) (k : A -> result B) : result B :=
  match r with
  | Ok a => k a
  | Raise e => Raise e
  end.

Notation "x <- r ;; k" := (bind r (fun x => k))
  (at level 61, r at next level, right associativity).

(** *** Module globals and [except] clauses *)

Definition namespace : Type := list (string * ExcClass).

Definition builtins : namespace :=
  [("Exception", Exception); ("ValueError", ValueError);
   ("TypeError", TypeError); ("NameError", NameError);
   ("OverflowError", OverflowError); ("KeyError", KeyError);
   ("IndexError", IndexError)].

Fixpoint ns_find (ns : namespace) (name : string) : option ExcClass :=
  match ns with
  | [] => None
  | (n, c) :: r => if String.eqb n name then Some c else ns_find r name
  end.

(** Loading a global name: the module's globals, then the builtins, and
    [NameError] when neither binds it. *)
Definition load_name (globals : namespace) (name : string) : result ExcClass :=
  match ns_find globals name with
  | Some c => Ok c
  | None =>
      match ns_find builtins name with
      | Some c => Ok c
      | None => raise NameError ("name '" ++ name ++ "' is not defined")
      end
  end.

(** Evaluating the expression of [except (N1, ..., Nk):], left to right. *)
Fixpoint load_names (globals : namespace) (names : list string)
  : result (list ExcClass) :=
  match names with
  | [] => Ok []
  | n :: r =>
      c <- load_name globals n ;;
      cs <- load_names globals r ;;
      Ok (c :: cs)
  end.

Definition isinstance (e : Exc) (classes : list ExcClass) : bool :=
  existsb (issubclass (exc_class e)) classes.

(** One [except] clause: the names it lists and its body. *)
Definition clause (A : Type) : Type := (list string * (Exc -> result A))%type.

(** The search for a handler of [e] among the clauses of one [try]
    statement. The expression of a clause is evaluated when the clause is
    reached; when that raises, the search stops and the new exception
    leaves the [try] statement. Without a matching clause [e] goes on. *)
Fixpoint handle {A : Type} (globals : namespace) (clauses : list (clause A))
    (e : Exc) : result A :=
  match clauses with
  | [] => Raise e
  | (names, body) :: rest =>
      match load_names globals names with
      | Raise ne => Raise ne
      | Ok classes =>
          if isinstance e classes then body e else handle globals rest e
      end
  end.

Definition try_except {A : Type} (globals : namespace) (r : result A)
    (clauses : list (clause A)) : result A :=
  match r with
  | Ok a => Ok a
  | Raise e => handle globals clauses e
  end.

(** The clause body [raise]: the exception goes on unchanged. *)
Definition reraise {A : Type} : Exc -> result A := fun e => Raise e.

(** The clause body [raise C(f"...{e}")]. *)
Definition wrap {A : Type} (c : ExcClass) (prefix : string) : Exc -> result A :=
  fun e => raise c (prefix ++ exc_message e).

(** ** The Python runtime on values *)

Module Py.

Definition type_name (v : Value) : string :=
  match v with
  | VNone => "NoneType"
  | VBool _ => "bool"
  | VInt _ => "int"
  | VFloat _ => "float"
  | VStr _ => "str"
  end.

Definition Z_of_bool (b : bool) : Z := if b then 1 else 0.

(** [float(n)] for an [int]: round to nearest, ties to even. The result
    is [S754_infinity] exactly when Python raises [OverflowError]. *)
Definition float_of_Z (n : Z) : spec_float := binary_normalize 53 1024 n 0 false.

(** [f.is_integer()]. *)
Definition float_is_integer (f : spec_float) : bool :=
  match f with
  | S754_zero _ => true
  | S754_infinity _ | S754_nan => false
  | S754_finite _ m e =>
      match e with
      | Zneg p => Z.eqb (Z.modulo (Zpos m) (Z.pow 2 (Zpos p))) 0
      | _ => true
      end
  end.

(** [int(f)] for a [float]: truncation toward zero. *)
Definition int_of_float (f : spec_float) : result Z :=
  match f with
  | S754_zero _ => Ok 0
  | S754_infinity _ => raise OverflowError "cannot convert float infinity to integer"
  | S754_nan => raise ValueError "cannot convert float NaN to integer"
  | S754_finite s m e =>
      Ok (cond_Zopp s
            (match e with
             | Zneg p => Z.div (Zpos m) (Z.pow 2 (Zpos p))
             | _ => Zpos m * Z.pow 2 e
             end))
  end.

(** [str(v)], which is also [format(v, '')] in an f-string. *)
Definition str `{PyBuiltins} (v : Value) : string :=
  match v with
  | VNone => "None"
  | VBool b => if b then "True" else "False"
  | VInt n => PyStr.of_Z n
  | VFloat f => repr_float f
  | VStr s => s
  end.

Definition repr `{PyBuiltins} (v : Value) : string :=
  match v with
  | VStr s => repr_str s
  | _ => str v
  end.

(** [int(v)]. *)
Definition int `{PyBuiltins} (v : Value) : result Z :=
  match v with
  | VNone =>
      raise TypeError
        "int() argument must be a string, a bytes-like object or a real number, not 'NoneType'"
  | VBool b => Ok (Z_of_bool b)
  | VInt n => Ok n
  | VFloat f => int_of_float f
  | VStr s =>
      match int_of_str s with
      | Some n => Ok n
      | None =>
          raise ValueError ("invalid literal for int() with base 10: " ++ repr_str s)
      end
  end.

(** [float(v)]. *)
Definition float `{PyBuiltins} (v : Value) : result spec_float :=
  match v with
  | VNone =>
      raise TypeError "float() argument must be a string or a real number, not 'NoneType'"
  | VBool b => Ok (float_of_Z (Z_of_bool b))
  | VInt n =>
      match float_of_Z n with
      | S754_infinity _ => raise OverflowError "int too large to convert to float"
      | f => Ok f
      end
  | VFloat f => Ok f
  | VStr s =>
      match float_of_str s with
      | Some f => Ok f
      | None => raise ValueError ("could not convert string to float: " ++ repr_str s)
      end
  end.

(** [bool(v)]: the truth value. *)
Definition truth (v : Value) : bool :=
  match v with
  | VNone => false
  | VBool b => b
  | VInt n => negb (Z.eqb n 0)
  | VFloat (S754_zero _) => false
  | VFloat _ => true
  | VStr s => negb (String.eqb s "")
  end.

(** Numbers: [bool] is a subclass of [int], and [int] and [float]
    compare by their exact values. *)
Inductive num : Type :=
| NInt (n : Z)
| NFloat (f : spec_float).

Definition as_num (v : Value) : option num :=
  match v with
  | VBool b => Some (NInt (Z_of_bool b))
  | VInt n => Some (NInt n)
  | VFloat f => Some (NFloat f)
  | VNone | VStr _ => None
  end.

(** The exact comparison of an [int] with a [float]; [None] for NaN. *)
Definition compare_Z_float (n : Z) (f : spec_float) : option comparison :=
  match f with
  | S754_nan => None
  | S754_infinity s => Some (if s then Gt else Lt)
  | S754_zero _ => Some (Z.compare n 0)
  | S754_finite s m e =>
      let v := cond_Zopp s (Zpos m) in
      Some (match e with
            | Zneg p => Z.compare (n * Z.pow 2 (Zpos p)) v
            | _ => Z.compare n (v * Z.pow 2 e)
            end)
  end.

Definition compare_num (a b : num) : option comparison :=
  match a, b with
  | NInt x, NInt y => Some (Z.compare x y)
  | NFloat x, NFloat y => SFcompare x y
  | NInt x, NFloat y => compare_Z_float x y
  | NFloat x, NInt y => option_map CompOpp (compare_Z_float y x)
  end.

(** The two operands of a comparison, by kind. *)
Inductive operands : Type :=
| Numbers (a b : num)
| Strings (a b : string)
| Nones
| Mixed.

Definition classify (a b : Value) : operands :=
  match a, b with
  | VStr x, VStr y => Strings x y
  | VNone, VNone => Nones
  | _, _ =>
      match as_num a, as_num b with
      | Some x, Some y => Numbers x y
      | _, _ => Mixed
      end
  end.

(** [a == b]: never raises; operands of unrelated types are unequal. *)
Definition eq (a b : Value) : bool :=
  match classify a b with
  | Numbers x y =>
      match compare_num x y with Some Eq => true | _ => false end
  | Strings x y => String.eqb x y
  | Nones => true
  | Mixed => false
  end.

(** [a != b]. *)
Definition ne (a b : Value) : bool := negb (eq a b).

(** An ordering comparison [a op b]: [TypeError] when the operands are
    not both numbers or both strings. [holds] says which outcomes of the
    three-way comparison satisfy the operator; NaN satisfies none. *)
Definition order (sym : string) (holds : comparison -> bool) (a b : Value)
  : result bool :=
  match classify a b with
  | Numbers x y =>
      Ok (match compare_num x y with Some c => holds c | None => false end)
  | Strings x y => Ok (holds (String.compare x y))
  | Nones | Mixed =>
      raise TypeError
        ("'" ++ sym ++ "' not supported between instances of '"
             ++ type_name a ++ "' and '" ++ type_name b ++ "'")
  end.

Definition gt := order ">" (fun c => match c with Gt => true | _ => false end).
Definition lt := order "<" (fun c => match c with Lt => true | _ => false end).
Definition ge := order ">=" (fun c => match c with Lt => false | _ => true end).
Definition le := order "<=" (fun c => match c with Gt => false | _ => true end).

End Py.

(** ** Dictionaries: association lists in insertion order *)

Module Dict.

Definition t (V : Type) : Type := list (string * V).

Fixpoint get {V : Type} (k : string) (d : t V) : option V :=
  match d with
  | [] => None
  | (k', v) :: r => if String.eqb k' k then Some v else get k r
  end.

Definition mem {V : Type} (k : string) (d : t V) : bool :=
  match get k d with Some _ => true | None => false end.

(** [d[k] = v]: replaces the value of an existing key in place, and
    appends a new key. *)
Fixpoint set {V : Type} (k : string) (v : V) (d : t V) : t V :=
  match d with
  | [] => [(k, v)]
  | (k', v') :: r =>
      if String.eqb k' k then (k', v) :: r else (k', v') :: set k v r
  end.

Definition keys {V : Type} (d : t V) : list string := List.map fst d.
Definition values {V : Type} (d : t V) : list V := List.map snd d.

(** [del d[k]]: the entry of [k] goes (a key has one entry), the other
    keys keep their order. *)
Fixpoint del {V : Type} (k : string) (d : t V) : t V :=
  match d with
  | [] => []
  | (k', v) :: r => if String.eqb k' k then del k r else (k', v) :: del k r
  end.

End Dict.

(** ** Computations on a mutable object *)

(** [M S A]: a method of an object of type [S] that returns an [A] or
    raises; the object comes back as it is at that moment. *)
Definition M (S A : Type) : Type := S -> result A * S.

Definition ret {S A : Type} (a : A) : M S A := fun s => (Ok a, s).

Definition throw {S A : Type} (c : ExcClass) (msg : string) : M S A :=
  fun s => (raise c msg, s).

Definition bindM {S A B : Type} (m : M S A) (k : A -> M S B) : M S B :=
  fun s =>
    match m s with
    | (Ok a, s') => k a s'
    | (Raise e, s') => (Raise e, s')
    end.

Notation "x <~ m ;; k" := (bindM m (fun x => k))
  (at level 61, m at next level, right associativity).

(** A computation that only reads, or a pure result. *)
Definition pure {S A : Type} (f : S -> result A) : M S A := fun s => (f s, s).

Definition modify {S : Type} (f : S -> S) : M S unit := fun s => (Ok tt, f s).

(** A [try] statement around a computation. *)
Definition try_exceptM {S A : Type} (globals : namespace) (m : M S A)
    (clauses : list (clause A)) : M S A :=
  fun s => let (r, s') := m s in (try_except globals r clauses, s').

Definition get {S : Type} : M S S := fun s => (Ok s, s).

Definition lift {S A : Type} (r : result A) : M S A := fun s => (r, s).

(** [len(l)] as a Python [int]. *)
Definition len {A : Type} (l : list A) : Z := Z.of_nat (List.length l).

(** [enumerate(l)]. *)
Definition enumerate {A : Type} (l : list A) : list (nat * A) :=
  combine (seq 0 (List.length l)) l.

(** Running a function that may raise over a list, left to right. *)
Fixpoint mapM {A B : Type} (f : A -> result B) (l : list A) : result (list B) :=
  match l with
  | [] => Ok []
  | a :: r =>
      b <- f a ;;
      bs <- mapM f r ;;
      Ok (b :: bs)
  end.

(** ** models/column.py *)

Module Column.

Record t : Type := mk {
  name : string;
  data_type : string;
  nullable : bool;
  max_length : option Z
}.

(** column.py imports no exception class. *)
Definition globals : namespace := [].

Definition valid_types : list string := ["INT"; "VARCHAR"; "FLOAT"; "BOOLEAN"].

(** [Column(name, data_type, nullable, max_length)]: the dataclass
    constructor followed by [__post_init__]. The text of a set inside
    the second message follows the order of the source. *)
Definition init (name data_type : string) (nullable : bool)
    (max_length : option Z) : result t :=
  if String.eqb name "" then raise ValueError "Column name cannot be empty"
  else if negb (PyStr.mem data_type valid_types) then
    raise ValueError
      ("Invalid data type: " ++ data_type
         ++ ". Must be one of {'INT', 'VARCHAR', 'FLOAT', 'BOOLEAN'}")
  else
    let max_length :=
      match max_length with
      | None => if String.eqb data_type "VARCHAR" then Some 255 else None
      | Some n => Some n
      end in
    match max_length with
    | Some n =>
        if Z.leb n 0 then raise ValueError "max_length must be positive"
        else Ok (mk name data_type nullable max_length)
    | None => Ok (mk name data_type nullable max_length)
    end.

(** [self.max_length or 255]. *)
Definition max_length_or_255 (self : t) : Z :=
  match max_length self with
  | None => 255
  | Some n => if Z.eqb n 0 then 255 else n
  end.

Definition validate_value (self : t) (value : Value) : bool :=
  match value with
  | VNone => nullable self
  | _ =>
      if String.eqb (data_type self) "INT" then
        match value with VInt _ => true | _ => false end
      else if String.eqb (data_type self) "FLOAT" then
        match value with VInt _ | VFloat _ => true | _ => false end
      else if String.eqb (data_type self) "VARCHAR" then
        match value with
        | VStr s => Z.leb (PyStr.len s) (max_length_or_255 self)
        | _ => false
        end
      else if String.eqb (data_type self) "BOOLEAN" then
        match value with VBool _ => true | _ => false end
      else false
  end.

(** The body of the [try] statement of [convert_value], for a value that
    is not [None]. *)
Definition convert_value_try `{PyBuiltins} (self : t) (value : Value)
  : result Value :=
  if String.eqb (data_type self) "INT" then
    match value with
    | VFloat f =>
        if negb (Py.float_is_integer f) then
          raise ValueError
            ("Cannot convert non-integer float " ++ Py.str value ++ " to INT")
        else n <- Py.int value ;; Ok (VInt n)
    | _ => n <- Py.int value ;; Ok (VInt n)
    end
  else if String.eqb (data_type self) "FLOAT" then
    f <- Py.float value ;; Ok (VFloat f)
  else if String.eqb (data_type self) "VARCHAR" then
    let str_value := Py.str value in
    if Z.gtb (PyStr.len str_value) (max_length_or_255 self) then
      raise ValueError ("String too long for column " ++ name self)
    else Ok (VStr str_value)
  else if String.eqb (data_type self) "BOOLEAN" then
    match value with
    | VBool b => Ok value
    | VStr s => Ok (VBool (PyStr.mem (PyStr.lower s) ["true"; "1"; "yes"; "on"]))
    | _ => Ok (VBool (Py.truth value))
    end
  else Ok value.

Definition convert_value `{PyBuiltins} (self : t) (value : Value)
  : result Value :=
  match value with
  | VNone =>
      if negb (nullable self) then
        raise ValueError ("Column " ++ name self ++ " cannot be null")
      else Ok VNone
  | _ =>
      try_except globals (convert_value_try self value)
        [(["ValueError"; "TypeError"],
          wrap ValueError
            ("Cannot convert value " ++ Py.str value ++ " to "
               ++ data_type self ++ " for column " ++ name self ++ ": "))]
  end.

End Column.

(** ** models/schema.py *)

Module Schema.

Record t : Type := mk {
  columns : list Column.t;
  _column_index : Dict.t nat
}.

(** [from ..exceptions import ValidationError]. *)
Definition globals : namespace := [("ValidationError", ValidationError)].

(** [{col.name.lower(): i for i, col in enumerate(columns)}]. *)
Definition build_index (columns : list Column.t) : Dict.t nat :=
  fold_left
    (fun d ic => Dict.set (PyStr.lower (Column.name (snd ic))) (fst ic) d)
    (enumerate columns) [].

Definition init (columns : list Column.t) : result t :=
  match columns with
  | [] => raise ValueError "Schema must have at least one column"
  | _ =>
      let column_names := List.map (fun col => PyStr.lower (Column.name col)) columns in
      if negb (Nat.eqb (List.length column_names) (PyStr.distinct column_names)) then
        raise ValueError "Duplicate column names are not allowed"
      else Ok (mk columns (build_index columns))
  end.

Definition get_column_names (self : t) : list string :=
  List.map Column.name (columns self).

Definition get_column_index (self : t) (name : string) : result nat :=
  match Dict.get (PyStr.lower name) (_column_index self) with
  | None => raise ValidationError ("Column '" ++ name ++ "' not found in schema")
  | Some index => Ok index
  end.

Definition validate_row (self : t) (values : list Value) : bool :=
  if negb (Z.eqb (len values) (len (columns self))) then false
  else
    forallb (fun vc => Column.validate_value (snd vc) (fst vc))
      (combine values (columns self)).

Definition convert_row `{PyBuiltins} (self : t) (values : list Value)
  : result (list Value) :=
  if negb (Z.eqb (len values) (len (columns self))) then
    raise ValidationError
      ("Expected " ++ PyStr.of_Z (len (columns self)) ++ " values, got "
         ++ PyStr.of_Z (len values))
  else
    mapM (fun vc => Column.convert_value (snd vc) (fst vc))
      (combine values (columns self)).

Definition validate_and_convert_row `{PyBuiltins} (self : t)
    (values : list Value) : result (list Value) :=
  try_except globals
    (converted <- convert_row self values ;;
     if negb (validate_row self converted) then
       raise ValidationError "Row validation failed after conversion"
     else Ok converted)
    [(["Exception"], wrap ValidationError "Row validation failed: ")].

(** The description of a column: a dict with the keys [name],
    [data_type], [nullable] and [max_length]. [from_dict] reads the last
    two with [dict.get], so they may be absent. *)
Record column_dict : Type := mk_column_dict {
  d_name : string;
  d_data_type : string;
  d_nullable : option bool;
  d_max_length : option (option Z)
}.

(** The description of a schema: a dict with the key [columns]. *)
Record schema_dict : Type := mk_schema_dict {
  d_columns : list column_dict
}.

Definition to_dict (self : t) : schema_dict :=
  mk_schema_dict
    (List.map
       (fun col =>
          mk_column_dict (Column.name col) (Column.data_type col)
            (Some (Column.nullable col)) (Some (Column.max_length col)))
       (columns self)).

Definition from_dict (data : schema_dict) : result t :=
  columns <-
    mapM
      (fun col_data =>
         Column.init (d_name col_data) (d_data_type col_data)
           (match d_nullable col_data with Some b => b | None => true end)
           (match d_max_length col_data with Some m => m | None => None end))
      (d_columns data) ;;
  init columns.

Definition get_column_by_name (self : t) (name : string) : result Column.t :=
  match Dict.get (PyStr.lower name) (_column_index self) with
  | None => raise ValidationError ("Column '" ++ name ++ "' not found in schema")
  | Some index =>
      match nth_error (columns self) index with
      | Some column => Ok column
      | None => raise IndexError "list index out of range"
      end
  end.

(** [len(schema)]. *)
Definition __len__ (self : t) : Z := len (columns self).

End Schema.

(** ** models/row.py *)

Module Row.

Record t : Type := mk { values : list Value }.

(** [Row(values)] stores a copy of the list. *)
Definition init (values : list Value) : t := mk values.

Definition to_list (self : t) : list Value := values self.

(** [l[i]] for a Python [int] index: a negative index counts from the
    end. *)
Definition index (values : list Value) (i : Z) : result Value :=
  let n := len values in
  let j := if Z.ltb i 0 then i + n else i in
  if Z.ltb j 0 || Z.leb n j then raise IndexError "list index out of range"
  else
    match nth_error values (Z.to_nat j) with
    | Some v => Ok v
    | None => raise IndexError "list index out of range"
    end.

(** [l[i] = v] for an index within bounds. *)
Fixpoint replace (values : list Value) (i : nat) (v : Value) : list Value :=
  match values, i with
  | [], _ => []
  | _ :: r, O => v :: r
  | x :: r, S i' => x :: replace r i' v
  end.

Definition out_of_range (self : t) (column_index : Z) : bool :=
  Z.ltb column_index 0 || Z.leb (len (values self)) column_index.

Definition get_value (self : t) (column_index : Z) : result Value :=
  if out_of_range self column_index then
    raise IndexError ("Column index " ++ PyStr.of_Z column_index ++ " out of range")
  else index (values self) column_index.

Definition get_value_by_name (self : t) (column_name : string) (schema : Schema.t)
  : result Value :=
  column_index <- Schema.get_column_index schema column_name ;;
  get_value self (Z.of_nat column_index).

Definition set_value (column_index : Z) (value : Value) : M t unit :=
  self <~ get ;;
  if out_of_range self column_index then
    throw IndexError ("Column index " ++ PyStr.of_Z column_index ++ " out of range")
  else modify (fun self => mk (replace (values self) (Z.to_nat column_index) value)).

Definition set_value_by_name (column_name : string) (value : Value)
    (schema : Schema.t) : M t unit :=
  column_index <~ lift (Schema.get_column_index schema column_name) ;;
  set_value (Z.of_nat column_index) value.

(** [{col.name: val for col, val in zip(schema.columns, self.values)}]. *)
Definition to_dict (self : t) (schema : Schema.t) : result (Dict.t Value) :=
  if negb (Z.eqb (len (values self)) (len (Schema.columns schema))) then
    raise ValueError "Row values count doesn't match schema columns count"
  else
    Ok (fold_left (fun d cv => Dict.set (Column.name (fst cv)) (snd cv) d)
          (combine (Schema.columns schema) (values self)) []).

Definition project (self : t) (column_indices : list Z) : result t :=
  projected_values <- mapM (index (values self)) column_indices ;;
  Ok (init projected_values).

Definition project_by_names (self : t) (column_names : list string)
    (schema : Schema.t) : result t :=
  column_indices <- mapM (Schema.get_column_index schema) column_names ;;
  project self (List.map Z.of_nat column_indices).

Definition copy (self : t) : t := init (values self).

End Row.

(** ** models/table.py *)

Module Table.

Record t : Type := mk {
  name : string;
  schema : Schema.t;
  rows : list Row.t;
  row_count : Z
}.

Definition globals : namespace := [("ValidationError", ValidationError)].

Definition init (name : string) (schema : Schema.t) : result t :=
  if String.eqb name "" then raise ValueError "Table name cannot be empty"
  else Ok (mk name schema [] 0).

(** [self.rows.append(row)]. *)
Definition append_row (row : Row.t) (self : t) : t :=
  mk (name self) (schema self) (rows self ++ [row])%list (row_count self).

(** [self.row_count += 1]. *)
Definition incr_row_count (self : t) : t :=
  mk (name self) (schema self) (rows self) (row_count self + 1).

Definition insert `{PyBuiltins} (row : Row.t) : M t unit :=
  self <~ get ;;
  if negb (Z.eqb (len (Row.values row)) (len (Schema.columns (schema self)))) then
    throw ValidationError
      ("Row has " ++ PyStr.of_Z (len (Row.values row))
         ++ " values but table '" ++ name self ++ "' expects "
         ++ PyStr.of_Z (len (Schema.columns (schema self))) ++ " columns")
  else
    validated_values <~
      lift (Schema.validate_and_convert_row (schema self) (Row.values row)) ;;
    let validated_row := Row.init validated_values in
    _ <~ modify (append_row validated_row) ;;
    modify incr_row_count.

Definition insert_values `{PyBuiltins} (values : list Value) : M t unit :=
  let row := Row.init values in
  insert row.

(** [scan] is a generator over [self.rows]; its callers consume it at
    once, into a list. *)
Definition scan (self : t) : list Row.t := rows self.

Definition get_column_names (self : t) : list string :=
  Schema.get_column_names (schema self).

Definition get_row (self : t) (index : Z) : result Row.t :=
  if Z.ltb index 0 || Z.leb (len (rows self)) index then
    raise IndexError ("Row index " ++ PyStr.of_Z index ++ " out of range")
  else
    match nth_error (rows self) (Z.to_nat index) with
    | Some row => Ok row
    | None => raise IndexError "list index out of range"
    end.

Definition validate_row (self : t) (row : Row.t) : bool :=
  if negb (Z.eqb (len (Row.values row)) (len (Schema.columns (schema self)))) then false
  else Schema.validate_row (schema self) (Row.values row).

Definition get_column_index (self : t) (column_name : string) : result nat :=
  Schema.get_column_index (schema self) column_name.

Definition project_columns (self : t) (column_names : list string)
  : result (list nat) :=
  mapM (Schema.get_column_index (schema self)) column_names.


(** The description of a table: a dict with the keys [name], [schema],
    [rows] and [row_count]. *)
Record table_dict : Type := mk_table_dict {
  d_name : string;
  d_schema : Schema.schema_dict;
  d_rows : list (list Value);
  d_row_count : Z
}.

Definition to_dict (self : t) : table_dict :=
  mk_table_dict (name self) (Schema.to_dict (schema self))
    (List.map Row.to_list (rows self)) (row_count self).

(** The loop [for row_data in data['rows']: table.insert_values(row_data)]. *)
Fixpoint insert_each `{PyBuiltins} (rows : list (list Value)) : M t unit :=
  match rows with
  | [] => ret tt
  | row_data :: rest =>
      _ <~ insert_values row_data ;;
      insert_each rest
  end.

Definition from_dict `{PyBuiltins} (data : table_dict) : result t :=
  schema <- Schema.from_dict (d_schema data) ;;
  table <- init (d_name data) schema ;;
  match insert_each (d_rows data) table with
  | (Ok _, table) => Ok table
  | (Raise e, _) => Raise e
  end.

(** [len(table)]. *)
Definition __len__ (self : t) : Z := len (rows self).

End Table.

(** ** ast_nodes.py *)

Definition is_None (v : Value) : bool :=
  match v with VNone => true | _ => false end.

Module WhereClause.

Record t : Type := mk {
  column : string;
  operator : string;
  value : Value
}.

(** ast_nodes.py imports no exception class. *)
Definition globals : namespace := [].

Definition VALID_OPERATORS : list string :=
  ["="; ">"; "<"; ">="; "<="; "!="; "<>"].

(** [WhereClause(column, operator, value)]. The text of a set inside the
    second message follows the order of the source. *)
Definition init (column operator : string) (value : Value) : result t :=
  if String.eqb column "" then raise ValueError "Column name cannot be empty"
  else if negb (PyStr.mem operator VALID_OPERATORS) then
    raise ValueError
      ("Invalid operator '" ++ operator
         ++ "'. Must be one of {'=', '>', '<', '>=', '<=', '!=', '<>'}")
  else Ok (mk column operator value).

(** The body of the [try] statement of [evaluate]: [Some b] when a
    branch returns [b], [None] when no branch is taken. *)
Definition evaluate_try (self : t) (row_value : Value) : result (option bool) :=
  if String.eqb (operator self) "=" then
    Ok (Some (Py.eq row_value (value self)))
  else if PyStr.mem (operator self) ["!="; "<>"] then
    Ok (Some (Py.ne row_value (value self)))
  else if String.eqb (operator self) ">" then
    b <- Py.gt row_value (value self) ;; Ok (Some b)
  else if String.eqb (operator self) "<" then
    b <- Py.lt row_value (value self) ;; Ok (Some b)
  else if String.eqb (operator self) ">=" then
    b <- Py.ge row_value (value self) ;; Ok (Some b)
  else if String.eqb (operator self) "<=" then
    b <- Py.le row_value (value self) ;; Ok (Some b)
  else Ok None.

Definition evaluate (self : t) (row_value : Value) : result bool :=
  if is_None row_value || is_None (value self) then
    if PyStr.mem (operator self) ["="; "!="; "<>"] then
      Ok (if String.eqb (operator self) "=" then
            Bool.eqb (is_None row_value) (is_None (value self))
          else negb (Bool.eqb (is_None row_value) (is_None (value self))))
    else Ok false
  else
    r <- try_except globals (evaluate_try self row_value)
           [(["TypeError"], fun _ => Ok (Some false))] ;;
    match r with
    | Some b => Ok b
    | None => Ok false
    end.

End WhereClause.

Inductive ASTNode : Type :=
| CreateTableNode (table_name : string) (columns : list Column.t)
| InsertNode (table_name : string) (values : list Value)
| SelectNode (table_name : string) (columns : list string)
    (where_clause : option WhereClause.t).

(** [type(ast).__name__]. *)
Definition ASTNode_class_name (ast : ASTNode) : string :=
  match ast with
  | CreateTableNode _ _ => "CreateTableNode"
  | InsertNode _ _ => "InsertNode"
  | SelectNode _ _ _ => "SelectNode"
  end.

(** ** storage_manager.py *)

Module StorageManager.

(** The registry: [self.tables], keyed by the lower-cased table name.
    The data directory of the persistence layer is left out. *)
Record t : Type := mk { tables : Dict.t Table.t }.

(** [from .exceptions import TableNotFoundError, StorageError,
    ValidationError]. *)
Definition globals : namespace :=
  [("TableNotFoundError", TableNotFoundError);
   ("StorageError", StorageError);
   ("ValidationError", ValidationError)].

(** A method call on the table object that the registry holds under
    [key]: the object is mutated in place. *)
Definition on_table {A : Type} (key : string) (m : M Table.t A) : M t A :=
  fun self =>
    match Dict.get key (tables self) with
    | Some table =>
        let (r, table') := m table in
        (r, mk (Dict.set key table' (tables self)))
    | None => (raise KeyError (key), self)
    end.

(** [not name or not name.strip()]. *)
Definition blank (name : string) : bool :=
  String.eqb name "" || String.eqb (PyStr.strip name) "".

Definition create_table (name : string) (schema : Schema.t) : M t unit :=
  if blank name then throw ValidationError "Table name cannot be empty"
  else if negb (PyStr.isalnum (PyStr.remove "-" (PyStr.remove "_" name))) then
    throw ValidationError
      ("Invalid table name: '" ++ name
         ++ "'. Table names must contain only letters, numbers, underscores, and hyphens")
  else if Z.eqb (len (Schema.columns schema)) 0 then
    (* [not schema] is [len(schema) == 0] *)
    throw ValidationError "Schema cannot be None"
  else
    match Schema.columns schema with
    | [] => throw ValidationError "Schema must have at least one column"
    | _ =>
        let table_name_lower := PyStr.lower name in
        self <~ get ;;
        if Dict.mem table_name_lower (tables self) then
          throw StorageError ("Table '" ++ name ++ "' already exists")
        else
          try_exceptM globals
            (table <~ lift (Table.init name schema) ;;
             modify (fun self => mk (Dict.set table_name_lower table (tables self))))
            [(["Exception"],
              wrap StorageError ("Failed to create table '" ++ name ++ "': "))]
    end.

Definition get_table (name : string) : M t Table.t :=
  if blank name then throw ValidationError "Table name cannot be empty"
  else
    let table_name_lower := PyStr.lower name in
    self <~ get ;;
    match Dict.get table_name_lower (tables self) with
    | None =>
        let available_tables := Dict.keys (tables self) in
        match available_tables with
        | _ :: _ =>
            throw TableNotFoundError
              ("Table '" ++ name ++ "' does not exist. Available tables: "
                 ++ PyStr.join ", " available_tables)
        | [] =>
            throw TableNotFoundError
              ("Table '" ++ name
                 ++ "' does not exist. No tables have been created yet")
        end
    | Some table => ret table
    end.

Definition table_exists (name : string) (self : t) : bool :=
  Dict.mem (PyStr.lower name) (tables self).

Definition insert_values `{PyBuiltins} (table_name : string)
    (values : list Value) : M t unit :=
  match values with
  | [] => throw ValidationError "Cannot insert empty values"
  | _ =>
      try_exceptM globals
        (table <~ get_table table_name ;;
         on_table (PyStr.lower table_name) (Table.insert_values values))
        [(["ValidationError"; "TableNotFoundError"], reraise);
         (["Exception"],
          wrap StorageError
            ("Failed to insert values into table '" ++ table_name ++ "': "))]
  end.

Definition scan_table (table_name : string) : M t (list Row.t) :=
  table <~ get_table table_name ;;
  ret (Table.scan table).

Definition drop_table (name : string) : M t unit :=
  let table_name_lower := PyStr.lower name in
  self <~ get ;;
  if negb (Dict.mem table_name_lower (tables self)) then
    throw TableNotFoundError ("Table '" ++ name ++ "' does not exist")
  else modify (fun self => mk (Dict.del table_name_lower (tables self))).

Definition list_tables (self : t) : list string :=
  List.map Table.name (Dict.values (tables self)).

Definition insert_row `{PyBuiltins} (table_name : string) (row : Row.t)
  : M t unit :=
  table <~ get_table table_name ;;
  on_table (PyStr.lower table_name) (Table.insert row).

Definition get_table_schema (table_name : string) : M t Schema.t :=
  table <~ get_table table_name ;;
  ret (Table.schema table).



Definition clear_all_tables : M t unit := modify (fun _ => mk []).

End StorageManager.

(** ** query_processor.py: plans and operations *)

Inductive Operation : Type :=
| CreateTableOperation (table_name : string) (schema : Schema.t)
| InsertOperation (table_name : string) (values : list Value)
| ScanOperation (table_name : string)
| ProjectOperation (columns : list string)
| FilterOperation (where_clause : WhereClause.t).

(** [op.__class__.__name__]. *)
Definition class_name (op : Operation) : string :=
  match op with
  | CreateTableOperation _ _ => "CreateTableOperation"
  | InsertOperation _ _ => "InsertOperation"
  | ScanOperation _ => "ScanOperation"
  | ProjectOperation _ => "ProjectOperation"
  | FilterOperation _ => "FilterOperation"
  end.

Module ExecutionPlan.

Record t : Type := mk { operations : list Operation }.

Definition init : t := mk [].

Definition add_operation (operation : Operation) (self : t) : t :=
  mk (operations self ++ [operation])%list.

Definition get_operations (self : t) : list Operation := operations self.

End ExecutionPlan.

(** [from .exceptions import ProcessingError, ValidationError]: the
    globals of query_processor.py. *)
Definition query_processor_globals : namespace :=
  [("ProcessingError", ProcessingError); ("ValidationError", ValidationError)].

(** [l[i]]. *)
Definition getitem {A : Type} (l : list A) (i : nat) : result A :=
  match nth_error l i with
  | Some a => Ok a
  | None => raise IndexError "list index out of range"
  end.

(** What [Operation.execute] returns: a status text or a list of rows. *)
Inductive op_value : Type :=
| Text (s : string)
| Rows (rows : list Row.t).

Module CreateTableOperation.

Definition execute (table_name : string) (schema : Schema.t)
  : M StorageManager.t string :=
  _ <~ StorageManager.create_table table_name schema ;;
  ret ("Table '" ++ table_name ++ "' created successfully.").

End CreateTableOperation.

Module InsertOperation.

Definition execute `{PyBuiltins} (table_name : string) (values : list Value)
  : M StorageManager.t string :=
  table <~ StorageManager.get_table table_name ;;
  _ <~ StorageManager.insert_values table_name values ;;
  ret ("1 row inserted into table '" ++ Table.name table ++ "'.").

End InsertOperation.

Module ScanOperation.

Definition execute (table_name : string) : M StorageManager.t (list Row.t) :=
  StorageManager.scan_table table_name.

End ScanOperation.

Module ProjectOperation.

(** The loop that finds the column indices. *)
Fixpoint column_indices (schema : Schema.t) (table_name : string)
    (columns : list string) : result (list nat) :=
  match columns with
  | [] => Ok []
  | col_name :: rest =>
      col_index <-
        try_except query_processor_globals
          (Schema.get_column_index schema col_name)
          [(["ValueError"; "ValidationError"],
            fun _ =>
              raise ColumnNotFoundError
                ("Column '" ++ col_name ++ "' not found in table '"
                   ++ table_name ++ "'"))] ;;
      indices <- column_indices schema table_name rest ;;
      Ok (col_index :: indices)
  end.

Definition is_star (columns : list string) : bool :=
  match columns with
  | [c] => String.eqb c "*"
  | _ => false
  end.

Definition execute (columns : list string) (input_rows : option (list Row.t))
    (table_name : option string) : M StorageManager.t (list Row.t) :=
  match input_rows with
  | None => throw ValueError "ProjectOperation requires input rows"
  | Some [] => ret []
  | Some input_rows =>
      match table_name with
      | None =>
          throw ValueError "ProjectOperation requires table_name to determine schema"
      | Some table_name =>
          table <~ StorageManager.get_table table_name ;;
          let schema := Table.schema table in
          if is_star columns then ret input_rows
          else
            column_indices <~ lift (column_indices schema table_name columns) ;;
            lift
              (mapM
                 (fun row =>
                    projected_values <-
                      mapM (getitem (Row.values row)) column_indices ;;
                    Ok (Row.init projected_values))
                 input_rows)
      end
  end.

End ProjectOperation.

Module FilterOperation.

(** The loop that keeps the rows that satisfy the condition. *)
Fixpoint filter_rows (where_clause : WhereClause.t) (column_index : nat)
    (input_rows : list Row.t) : result (list Row.t) :=
  match input_rows with
  | [] => Ok []
  | row :: rest =>
      row_value <- getitem (Row.values row) column_index ;;
      keep <- WhereClause.evaluate where_clause row_value ;;
      filtered <- filter_rows where_clause column_index rest ;;
      Ok (if keep then row :: filtered else filtered)
  end.

Definition execute (where_clause : WhereClause.t)
    (input_rows : option (list Row.t)) (table_name : option string)
  : M StorageManager.t (list Row.t) :=
  match input_rows with
  | None => throw ValueError "FilterOperation requires input rows"
  | Some [] => ret []
  | Some input_rows =>
      match table_name with
      | None =>
          throw ValueError "FilterOperation requires table_name to determine schema"
      | Some table_name =>
          table <~ StorageManager.get_table table_name ;;
          let schema := Table.schema table in
          column_index <~
            lift
              (try_except query_processor_globals
                 (Schema.get_column_index schema (WhereClause.column where_clause))
                 [(["ValueError"; "ValidationError"],
                   fun _ =>
                     raise ColumnNotFoundError
                       ("Column '" ++ WhereClause.column where_clause
                          ++ "' not found in table '" ++ table_name ++ "'"))]) ;;
          lift (filter_rows where_clause column_index input_rows)
      end
  end.

End FilterOperation.

(** [operation.execute(storage)]: the call with the storage manager alone,
    so [input_rows] and [table_name] are their defaults, [None]. *)
Definition Operation_execute `{PyBuiltins} (op : Operation)
  : M StorageManager.t op_value :=
  match op with
  | CreateTableOperation table_name schema =>
      s <~ CreateTableOperation.execute table_name schema ;; ret (Text s)
  | InsertOperation table_name values =>
      s <~ InsertOperation.execute table_name values ;; ret (Text s)
  | ScanOperation table_name =>
      rows <~ ScanOperation.execute table_name ;; ret (Rows rows)
  | ProjectOperation columns =>
      rows <~ ProjectOperation.execute columns None None ;; ret (Rows rows)
  | FilterOperation where_clause =>
      rows <~ FilterOperation.execute where_clause None None ;; ret (Rows rows)
  end.

(** ** query_processor.py: the query processor *)

Module QueryProcessor.

Definition globals : namespace := query_processor_globals.

Definition visit_create_table (table_name : string) (columns : list Column.t)
  : result ExecutionPlan.t :=
  try_except globals
    (if String.eqb table_name "" then
       raise ProcessingError "Table name cannot be empty"
     else
       match columns with
       | [] => raise ProcessingError "Table must have at least one column"
       | _ =>
           schema <- Schema.init columns ;;
           let plan := ExecutionPlan.init in
           let plan :=
             ExecutionPlan.add_operation (CreateTableOperation table_name schema) plan in
           Ok plan
       end)
    [(["ProcessingError"], reraise);
     (["Exception"],
      wrap ProcessingError
        ("Failed to process CREATE TABLE for '" ++ table_name ++ "': "))].

Definition visit_insert (table_name : string) (values : list Value)
  : result ExecutionPlan.t :=
  try_except globals
    (if String.eqb table_name "" then
       raise ProcessingError "Table name cannot be empty"
     else
       match values with
       | [] => raise ProcessingError "INSERT must have at least one value"
       | _ =>
           let plan := ExecutionPlan.init in
           let plan :=
             ExecutionPlan.add_operation (InsertOperation table_name values) plan in
           Ok plan
       end)
    [(["ProcessingError"], reraise);
     (["Exception"],
      wrap ProcessingError
        ("Failed to process INSERT for table '" ++ table_name ++ "': "))].

Definition visit_select (table_name : string) (columns : list string)
    (where_clause : option WhereClause.t) : result ExecutionPlan.t :=
  try_except globals
    (if String.eqb table_name "" then
       raise ProcessingError "Table name cannot be empty"
     else
       match columns with
       | [] => raise ProcessingError "SELECT must specify at least one column"
       | _ =>
           let plan := ExecutionPlan.init in
           let plan := ExecutionPlan.add_operation (ScanOperation table_name) plan in
           let plan :=
             match where_clause with
             | Some w => ExecutionPlan.add_operation (FilterOperation w) plan
             | None => plan
             end in
           let plan := ExecutionPlan.add_operation (ProjectOperation columns) plan in
           Ok plan
       end)
    [(["ProcessingError"], reraise);
     (["Exception"],
      wrap ProcessingError
        ("Failed to process SELECT for table '" ++ table_name ++ "': "))].

(** [ast.accept(self)]: each node calls the visit method of its kind. *)
Definition accept (ast : ASTNode) : result ExecutionPlan.t :=
  match ast with
  | CreateTableNode table_name columns => visit_create_table table_name columns
  | InsertNode table_name values => visit_insert table_name values
  | SelectNode table_name columns where_clause =>
      visit_select table_name columns where_clause
  end.

Definition process (ast : ASTNode) : result ExecutionPlan.t :=
  try_except globals (accept ast)
    [(["ValidationError"; "TableNotFoundError"; "ColumnNotFoundError"], reraise);
     (["Exception"],
      wrap ProcessingError
        ("Failed to process " ++ ASTNode_class_name ast ++ ": "))].

End QueryProcessor.

(** ** execution_engine.py *)

Module QueryResult.

Record t : Type := mk {
  columns : list string;
  rows : list Row.t;
  message : option string
}.

(** [QueryResult(message=text)]: columns and rows default to empty. *)
Definition of_message (text : string) : t := mk [] [] (Some text).

(** [QueryResult(columns=columns, rows=rows)]. *)
Definition of_data (columns : list string) (rows : list Row.t) : t :=
  mk columns rows None.

(** [bool(self.columns or self.rows)]. *)
Definition is_data_result (self : t) : bool :=
  match columns self, rows self with
  | [], [] => false
  | _, _ => true
  end.

(** [bool(self.message)]. *)
Definition is_message_result (self : t) : bool :=
  match message self with
  | None => false
  | Some text => negb (String.eqb text "")
  end.

End QueryResult.

(** [repr(row)]: [f"Row({self.values})"]. *)
Definition Row_repr `{PyBuiltins} (row : Row.t) : string :=
  "Row([" ++ PyStr.join ", " (List.map Py.repr (Row.values row)) ++ "])".

(** [str(rows)] for a list of rows. *)
Definition rows_str `{PyBuiltins} (rows : list Row.t) : string :=
  "[" ++ PyStr.join ", " (List.map Row_repr rows) ++ "]".

Module ExecutionEngine.

(** [from .exceptions import ExecutionError, StorageError,
    ValidationError, TableNotFoundError, ColumnNotFoundError]: the
    exception classes among the globals of execution_engine.py. *)
Definition globals : namespace :=
  [("ExecutionError", ExecutionError);
   ("StorageError", StorageError);
   ("ValidationError", ValidationError);
   ("TableNotFoundError", TableNotFoundError);
   ("ColumnNotFoundError", ColumnNotFoundError)].

Definition is_ScanOperation (op : Operation) : bool :=
  String.eqb (class_name op) "ScanOperation".

Definition execute_operation `{PyBuiltins} (operation : Operation)
  : M StorageManager.t QueryResult.t :=
  try_exceptM globals
    (result <~ Operation_execute operation ;;
     match result with
     | Text s => ret (QueryResult.of_message s)
     | Rows rows =>
         (* a list is not an [Iterator]: the last branch *)
         ret (QueryResult.of_message (rows_str rows))
     end)
    [(["StorageError"; "ValidationError"; "TableNotFoundError";
       "ColumnNotFoundError"; "ProcessingError"], reraise);
     (["Exception"],
      wrap ExecutionError ("Failed to execute " ++ class_name operation ++ ": "))].

(** The operations that the first loop of [_execute_select_operations]
    finds: the last one of each class. *)
Record found : Type := mk_found {
  scan_op : option string;
  filter_op : option WhereClause.t;
  project_op : option (list string)
}.

Definition find_step (f : found) (op : Operation) : found :=
  match op with
  | ScanOperation table_name =>
      mk_found (Some table_name) (filter_op f) (project_op f)
  | FilterOperation where_clause =>
      mk_found (scan_op f) (Some where_clause) (project_op f)
  | ProjectOperation columns =>
      mk_found (scan_op f) (filter_op f) (Some columns)
  | _ => f
  end.

Definition find (operations : list Operation) : found :=
  fold_left find_step operations (mk_found None None None).

Definition _execute_select_operations (operations : list Operation)
  : M StorageManager.t QueryResult.t :=
  try_exceptM globals
    (let f := find operations in
     match scan_op f with
     | None => throw ExecutionError "No ScanOperation found in SELECT query"
     | Some table_name =>
         match project_op f with
         | None => throw ExecutionError "No ProjectOperation found in SELECT query"
         | Some columns =>
             rows <~ ScanOperation.execute table_name ;;
             rows <~
               match filter_op f with
               | Some where_clause =>
                   FilterOperation.execute where_clause (Some rows) (Some table_name)
               | None => ret rows
               end ;;
             projected_rows <~
               ProjectOperation.execute columns (Some rows) (Some table_name) ;;
             column_names <~
               (if ProjectOperation.is_star columns then
                  table <~ StorageManager.get_table table_name ;;
                  ret (Table.get_column_names table)
                else ret columns) ;;
             ret (QueryResult.of_data column_names projected_rows)
         end
     end)
    [(["StorageError"; "ValidationError"; "TableNotFoundError";
       "ColumnNotFoundError"], reraise);
     (["Exception"], wrap ExecutionError "Failed to execute SELECT operations: ")].

(** The loop [for operation in operations: result = ...]. *)
Fixpoint execute_each `{PyBuiltins} (operations : list Operation)
    (result : option QueryResult.t) : M StorageManager.t (option QueryResult.t) :=
  match operations with
  | [] => ret result
  | operation :: rest =>
      r <~ execute_operation operation ;;
      execute_each rest (Some r)
  end.

(** The test that sends a plan to [_execute_select_operations]. *)
Definition is_select (operations : list Operation) : bool :=
  Z.leb 2 (len operations) && existsb is_ScanOperation operations.

(** The branch for DDL and DML plans: the operations in sequence, and
    the result of the last one. *)
Definition execute_sequential `{PyBuiltins} (operations : list Operation)
  : M StorageManager.t QueryResult.t :=
  result <~ execute_each operations None ;;
  match result with
  | Some r => ret r
  | None => ret (QueryResult.of_message "Operation completed successfully.")
  end.

(** The body of the [try] statement of [execute]. *)
Definition execute_try `{PyBuiltins} (plan : ExecutionPlan.t)
  : M StorageManager.t QueryResult.t :=
  let operations := ExecutionPlan.get_operations plan in
  match operations with
  | [] => ret (QueryResult.of_message "No operations to execute.")
  | _ =>
      if is_select operations then _execute_select_operations operations
      else execute_sequential operations
  end.

Definition execute `{PyBuiltins} (plan : ExecutionPlan.t)
  : M StorageManager.t QueryResult.t :=
  try_exceptM globals (execute_try plan)
    [(["StorageError"; "ValidationError"; "TableNotFoundError";
       "ColumnNotFoundError"; "ProcessingError"], reraise);
     (["Exception"], wrap ExecutionError "Failed to execute query plan: ")].

End ExecutionEngine.

(** ** parser.py: INSERT statements, from their tokens *)

Module SQLParser.

Definition globals : namespace := [("ParseError", ParseError)].

(** The literals [1e308] and [2**63 - 1]. *)
Definition float_1e308 : spec_float := Py.float_of_Z (10 ^ 308).
Definition int_max : Z := 2 ^ 63 - 1.

(** ['.' in token]. *)
Fixpoint has_dot (token : string) : bool :=
  match token with
  | EmptyString => false
  | String c r => Ascii.eqb c "."%char || has_dot r
  end.

(** The body of the [try] statement: [Some v] when it returns [v]. *)
Definition number_try `{PyBuiltins} (token : string) : result (option Value) :=
  if has_dot token then
    value <- Py.float (VStr token) ;;
    match SFcompare (SFabs value) float_1e308 with
    | Some Gt => raise ParseError ("Float value too large: " ++ token)
    | _ => Ok (Some (VFloat value))
    end
  else
    value <- Py.int (VStr token) ;;
    if Z.gtb (Z.abs value) int_max then
      raise ParseError ("Integer value too large: " ++ token)
    else Ok (Some (VInt value)).

Definition _parse_single_value `{PyBuiltins} (tokens : list string)
  : result Value :=
  match tokens with
  | [token] =>
      if String.eqb (PyStr.upper token) "NULL" then Ok VNone
      else if PyStr.mem (PyStr.upper token) ["TRUE"; "FALSE"] then
        Ok (VBool (String.eqb (PyStr.upper token) "TRUE"))
      else
        r <- try_except globals (number_try token)
               [(["ValueError"], fun _ => Ok None);
                (["OverflowError"],
                 fun _ => raise ParseError ("Numeric value out of range: " ++ token))] ;;
        match r with
        | Some v => Ok v
        | None => Ok (VStr token)
        end
  | _ =>
      raise ParseError
        ("Invalid value: '" ++ PyStr.join " " tokens
           ++ "'. Each value must be a single token")
  end.

(** The loop of [_parse_values]: the values read so far and the tokens
    of the value being read. *)
Fixpoint values_loop `{PyBuiltins} (tokens : list string) (values : list Value)
    (current_value_tokens : list string) : result (list Value * list string) :=
  match tokens with
  | [] => Ok (values, current_value_tokens)
  | token :: rest =>
      if String.eqb token "," then
        match current_value_tokens with
        | _ :: _ =>
            v <- _parse_single_value current_value_tokens ;;
            values_loop rest (values ++ [v])%list []
        | [] => raise ParseError "Invalid value list: empty value after comma"
        end
      else values_loop rest values (current_value_tokens ++ [token])%list
  end.

Definition _parse_values `{PyBuiltins} (tokens : list string)
  : result (list Value) :=
  match tokens with
  | [] => raise ParseError "No values found in INSERT statement"
  | _ =>
      state <- values_loop tokens [] [] ;;
      let (values, current_value_tokens) := state in
      values <-
        match current_value_tokens with
        | _ :: _ =>
            v <- _parse_single_value current_value_tokens ;;
            Ok (values ++ [v])%list
        | [] =>
            if String.eqb (List.last tokens "") "," then
              raise ParseError "Invalid value list: trailing comma"
            else Ok values
        end ;;
      match values with
      | [] => raise ParseError "No valid values found in INSERT statement"
      | _ => Ok values
      end
  end.

(** [InsertNode(table_name, values)]: the constructor with its checks. *)
Definition InsertNode_init (table_name : string) (values : list Value)
  : result ASTNode :=
  if String.eqb table_name "" then raise ValueError "Table name cannot be empty"
  else
    match values with
    | [] => raise ValueError "INSERT must have at least one value"
    | _ => Ok (InsertNode table_name values)
    end.

(** The loop that finds the parenthesis that closes the one at index 4:
    [tokens] are the tokens from index [i] on. *)
Fixpoint closing_paren (tokens : list string) (i : nat) (paren_count : Z)
  : option nat :=
  match tokens with
  | [] => None
  | token :: rest =>
      if String.eqb token "(" then closing_paren rest (S i) (paren_count + 1)
      else if String.eqb token ")" then
        if Z.eqb (paren_count - 1) 0 then Some i
        else closing_paren rest (S i) (paren_count - 1)
      else closing_paren rest (S i) paren_count
  end.

(** [tokens[i]] for an index below [len(tokens)]. *)
Definition token_at (tokens : list string) (i : nat) : string :=
  nth i tokens "".

Definition _parse_insert `{PyBuiltins} (tokens : list string) : result ASTNode :=
  try_except globals
    (if Z.ltb (len tokens) 6 then
       raise ParseError
         "Invalid INSERT syntax. Expected: INSERT INTO table_name VALUES (value1, value2, ...)"
     else if negb (String.eqb (PyStr.upper (token_at tokens 1)) "INTO") then
       raise ParseError "Expected 'INTO' after 'INSERT'"
     else
       let table_name := token_at tokens 2 in
       if String.eqb table_name ""
          || negb (PyStr.isalnum (PyStr.remove "-" (PyStr.remove "_" table_name)))
       then
         raise ParseError
           ("Invalid table name: '" ++ table_name
              ++ "'. Table names must contain only letters, numbers, underscores, and hyphens")
       else if negb (String.eqb (PyStr.upper (token_at tokens 3)) "VALUES") then
         raise ParseError "Expected 'VALUES' after table name in INSERT statement"
       else if negb (String.eqb (token_at tokens 4) "(") then
         raise ParseError "Expected '(' after 'VALUES'"
       else
         match closing_paren (skipn 4 tokens) 4 0 with
         | None => raise ParseError "Missing closing ')' in INSERT VALUES statement"
         | Some paren_end =>
             let value_tokens := firstn (paren_end - 5) (skipn 5 tokens) in
             values <- _parse_values value_tokens ;;
             InsertNode_init table_name values
         end)
    [(["ParseError"], reraise);
     (["Exception"], wrap ParseError "Error parsing INSERT statement: ")].

(** [not name or not name.replace('_', '').replace('-', '').isalnum()]. *)
Definition bad_name (name : string) : bool :=
  String.eqb name ""
  || negb (PyStr.isalnum (PyStr.remove "-" (PyStr.remove "_" name))).

(** [''.join(tokens)]. *)
Definition concat_tokens (tokens : list string) : string :=
  PyStr.join "" tokens.

(** [[name for name in names if names.count(name) > 1]]. *)
Definition duplicates (names : list string) : list string :=
  List.filter (fun name => Nat.ltb 1 (count_occ string_dec names name)) names.

(** The text of [', '.join(set(names))]. The order in which Python lists
    the elements of a set is not fixed; the first occurrences are taken in
    their order. *)
Definition join_set (names : list string) : string :=
  PyStr.join ", " (List.rev (nodup string_dec (List.rev names))).

Definition _parse_single_column `{PyBuiltins} (tokens : list string)
  : result Column.t :=
  if Z.ltb (len tokens) 2 then
    raise ParseError
      ("Invalid column definition: '" ++ PyStr.join " " tokens
         ++ "'. Expected: column_name data_type")
  else
    let column_name := token_at tokens 0 in
    let data_type := PyStr.upper (token_at tokens 1) in
    if bad_name column_name then
      raise ParseError
        ("Invalid column name: '" ++ column_name
           ++ "'. Column names must contain only letters, numbers, underscores, and hyphens")
    else if negb (PyStr.mem data_type ["INT"; "VARCHAR"; "FLOAT"; "BOOLEAN"]) then
      raise ParseError
        ("Invalid data type: '" ++ data_type
           ++ "'. Supported types are: BOOLEAN, FLOAT, INT, VARCHAR")
    else
      max_length <-
        (if String.eqb data_type "VARCHAR" && Z.gtb (len tokens) 2 then
           if Z.leb 5 (len tokens) && String.eqb (token_at tokens 2) "("
              && String.eqb (token_at tokens 4) ")"
           then
             try_except globals
               (max_length <- Py.int (VStr (token_at tokens 3)) ;;
                if Z.leb max_length 0 then
                  raise ParseError
                    ("VARCHAR length must be positive, got: " ++ PyStr.of_Z max_length)
                else if Z.gtb max_length 65535 then
                  raise ParseError
                    ("VARCHAR length too large (max 65535), got: "
                       ++ PyStr.of_Z max_length)
                else Ok (Some max_length))
               [(["ValueError"],
                 fun _ =>
                   raise ParseError
                     ("Invalid VARCHAR length: '" ++ token_at tokens 3
                        ++ "'. Must be a positive integer"))]
           else
             raise ParseError
               "Invalid VARCHAR length specification. Expected: VARCHAR ( length )"
         else Ok None) ;;
      Column.init column_name data_type true max_length.

(** The loop of [_parse_column_definitions]. *)
Fixpoint columns_loop `{PyBuiltins} (tokens : list string)
    (columns : list Column.t) (current_column : list string)
  : result (list Column.t * list string) :=
  match tokens with
  | [] => Ok (columns, current_column)
  | token :: rest =>
      if String.eqb token "," then
        match current_column with
        | _ :: _ =>
            c <- _parse_single_column current_column ;;
            columns_loop rest (columns ++ [c])%list []
        | [] => raise ParseError "Invalid column definition: empty column after comma"
        end
      else columns_loop rest columns (current_column ++ [token])%list
  end.

Definition _parse_column_definitions `{PyBuiltins} (tokens : list string)
  : result (list Column.t) :=
  match tokens with
  | [] => raise ParseError "No column definitions found in CREATE TABLE statement"
  | _ =>
      state <- columns_loop tokens [] [] ;;
      let (columns, current_column) := state in
      columns <-
        match current_column with
        | _ :: _ =>
            c <- _parse_single_column current_column ;;
            Ok (columns ++ [c])%list
        | [] =>
            if String.eqb (List.last tokens "") "," then
              raise ParseError
                "Invalid column definition: trailing comma in column list"
            else Ok columns
        end ;;
      match columns with
      | [] =>
          raise ParseError
            "No valid column definitions found in CREATE TABLE statement"
      | _ =>
          let column_names :=
            List.map (fun col => PyStr.lower (Column.name col)) columns in
          if negb (Nat.eqb (List.length column_names) (PyStr.distinct column_names))
          then
            raise ParseError
              ("Duplicate column names found: " ++ join_set (duplicates column_names))
          else Ok columns
      end
  end.

(** [CreateTableNode(table_name, columns)]: the constructor with its
    checks. *)
Definition CreateTableNode_init (table_name : string) (columns : list Column.t)
  : result ASTNode :=
  if String.eqb table_name "" then raise ValueError "Table name cannot be empty"
  else
    match columns with
    | [] => raise ValueError "Table must have at least one column"
    | _ => Ok (CreateTableNode table_name columns)
    end.

Definition _parse_create_table `{PyBuiltins} (tokens : list string)
  : result ASTNode :=
  try_except globals
    (if Z.ltb (len tokens) 4 then
       raise ParseError
         "Invalid CREATE TABLE syntax. Expected: CREATE TABLE table_name (column_definitions)"
     else if negb (String.eqb (PyStr.upper (token_at tokens 1)) "TABLE") then
       raise ParseError "Expected 'TABLE' after 'CREATE'"
     else
       let table_name := token_at tokens 2 in
       if bad_name table_name then
         raise ParseError
           ("Invalid table name: '" ++ table_name
              ++ "'. Table names must contain only letters, numbers, underscores, and hyphens")
       else if Z.ltb (len tokens) 5 || negb (String.eqb (token_at tokens 3) "(") then
         raise ParseError "Expected '(' after table name in CREATE TABLE statement"
       else
         match closing_paren (skipn 3 tokens) 3 0 with
         | None => raise ParseError "Missing closing ')' in CREATE TABLE statement"
         | Some paren_end =>
             let column_tokens := firstn (paren_end - 4) (skipn 4 tokens) in
             columns <- _parse_column_definitions column_tokens ;;
             CreateTableNode_init table_name columns
         end)
    [(["ParseError"], reraise);
     (["Exception"], wrap ParseError "Error parsing CREATE TABLE statement: ")].

(** The loop of [_parse_select_columns]. *)
Fixpoint select_columns_loop (tokens : list string) (columns : list string)
    (current_column : list string) : result (list string * list string) :=
  match tokens with
  | [] => Ok (columns, current_column)
  | token :: rest =>
      if String.eqb token "," then
        match current_column with
        | _ :: _ =>
            let column_name := concat_tokens current_column in
            if String.eqb (PyStr.strip column_name) "" then
              raise ParseError "Invalid column list: empty column name"
            else select_columns_loop rest (columns ++ [column_name])%list []
        | [] => raise ParseError "Invalid column list: empty column after comma"
        end
      else select_columns_loop rest columns (current_column ++ [token])%list
  end.

(** The loop that validates the column names, in order. *)
Fixpoint check_column_names (columns : list string) : result unit :=
  match columns with
  | [] => Ok tt
  | col :: rest =>
      if negb (PyStr.isalnum (PyStr.remove "-" (PyStr.remove "_" col))) then
        raise ParseError
          ("Invalid column name: '" ++ col
             ++ "'. Column names must contain only letters, numbers, underscores, and hyphens")
      else check_column_names rest
  end.

Definition _parse_select_columns (tokens : list string) : result (list string) :=
  match tokens with
  | [] => raise ParseError "No columns specified in SELECT statement"
  | _ =>
      if Z.eqb (len tokens) 1 && String.eqb (token_at tokens 0) "*" then Ok ["*"]
      else
        state <- select_columns_loop tokens [] [] ;;
        let (columns, current_column) := state in
        columns <-
          match current_column with
          | _ :: _ =>
              let column_name := concat_tokens current_column in
              if String.eqb (PyStr.strip column_name) "" then
                raise ParseError "Invalid column list: empty column name"
              else Ok (columns ++ [column_name])%list
          | [] =>
              if String.eqb (List.last tokens "") "," then
                raise ParseError "Invalid column list: trailing comma"
              else Ok columns
          end ;;
        _ <- check_column_names columns ;;
        let column_names_lower := List.map PyStr.lower columns in
        if negb (Nat.eqb (List.length column_names_lower)
                   (PyStr.distinct column_names_lower))
        then
          raise ParseError
            ("Duplicate column names in SELECT: "
               ++ join_set (duplicates column_names_lower))
        else Ok columns
  end.

Definition _parse_where_clause `{PyBuiltins} (tokens : list string)
  : result WhereClause.t :=
  if Z.ltb (len tokens) 3 then
    raise ParseError "Invalid WHERE clause syntax. Expected: column operator value"
  else
    let column := token_at tokens 0 in
    let operator := token_at tokens 1 in
    let value_token := token_at tokens 2 in
    if negb (PyStr.isalnum (PyStr.remove "-" (PyStr.remove "_" column))) then
      raise ParseError
        ("Invalid column name in WHERE clause: '" ++ column
           ++ "'. Column names must contain only letters, numbers, underscores, and hyphens")
    else if negb (PyStr.mem operator ["="; "!="; "<>"; ">"; "<"; ">="; "<="]) then
      raise ParseError
        ("Invalid operator in WHERE clause: '" ++ operator
           ++ "'. Supported operators are: !=, <, <=, <>, =, >, >=")
    else
      value <-
        try_except globals (_parse_single_value [value_token])
          [(["ParseError"], wrap ParseError "Invalid value in WHERE clause: ")] ;;
      if Z.gtb (len tokens) 3 then
        raise ParseError
          ("Complex WHERE clauses not yet supported. Found extra tokens: "
             ++ PyStr.join " " (skipn 3 tokens))
      else WhereClause.init column operator value.

(** The first index from [i] on whose token, in upper case, is
    [keyword]: [tokens] are the tokens from index [i] on. *)
Fixpoint find_keyword (keyword : string) (tokens : list string) (i : nat)
  : option nat :=
  match tokens with
  | [] => None
  | token :: rest =>
      if String.eqb (PyStr.upper token) keyword then Some i
      else find_keyword keyword rest (S i)
  end.

(** [SelectNode(table_name, columns, where_clause)]: the constructor with
    its checks. *)
Definition SelectNode_init (table_name : string) (columns : list string)
    (where_clause : option WhereClause.t) : result ASTNode :=
  if String.eqb table_name "" then raise ValueError "Table name cannot be empty"
  else
    match columns with
    | [] => raise ValueError "SELECT must specify at least one column"
    | _ => Ok (SelectNode table_name columns where_clause)
    end.

Definition _parse_select `{PyBuiltins} (tokens : list string) : result ASTNode :=
  try_except globals
    (if Z.ltb (len tokens) 4 then
       raise ParseError
         "Invalid SELECT syntax. Expected: SELECT columns FROM table_name [WHERE condition]"
     else
       match find_keyword "FROM" tokens 0 with
       | None => raise ParseError "Missing 'FROM' clause in SELECT statement"
       | Some from_index =>
           if Nat.eqb from_index 1 then
             raise ParseError "Missing column list in SELECT statement"
           else
             let column_tokens := firstn (from_index - 1) (skipn 1 tokens) in
             columns <- _parse_select_columns column_tokens ;;
             if Nat.leb (List.length tokens) (from_index + 1) then
               raise ParseError "Missing table name after 'FROM'"
             else
               let table_name := token_at tokens (from_index + 1) in
               if bad_name table_name then
                 raise ParseError
                   ("Invalid table name: '" ++ table_name
                      ++ "'. Table names must contain only letters, numbers, underscores, and hyphens")
               else
                 where_clause <-
                   match find_keyword "WHERE" (skipn (from_index + 2) tokens)
                           (from_index + 2) with
                   | None => Ok None
                   | Some where_index =>
                       if Nat.leb (List.length tokens) (where_index + 1) then
                         raise ParseError "Missing condition after 'WHERE'"
                       else
                         w <- _parse_where_clause (skipn (where_index + 1) tokens) ;;
                         Ok (Some w)
                   end ;;
                 SelectNode_init table_name columns where_clause
       end)
    [(["ParseError"], reraise);
     (["Exception"], wrap ParseError "Error parsing SELECT statement: ")].

(** [parse]: [tokenize] stands for [_tokenize], which splits the text
    with a regular expression. *)
Definition parse `{PyBuiltins} (tokenize : string -> list string) (sql : string)
  : result ASTNode :=
  if String.eqb sql "" || String.eqb (PyStr.strip sql) "" then
    raise ParseError "Empty SQL command"
  else
    try_except globals
      (let tokens := tokenize sql in
       match tokens with
       | [] => raise ParseError "No tokens found in SQL command"
       | _ =>
           let command := PyStr.upper (token_at tokens 0) in
           if String.eqb command "CREATE" then _parse_create_table tokens
           else if String.eqb command "INSERT" then _parse_insert tokens
           else if String.eqb command "SELECT" then _parse_select tokens
           else
             raise ParseError
               ("Unsupported SQL command: " ++ command
                  ++ ". Supported commands are: CREATE TABLE, INSERT INTO, SELECT")
       end)
      [(["ParseError"], reraise);
       (["Exception"], wrap ParseError "Unexpected error during parsing: ")].

End SQLParser.

(** ** sql_engine.py *)

Module SQLEngine.

Definition globals : namespace := [("SQLEngineError", SQLEngineError)].

(** [execute_sql]: parse, process, execute. [parse] stands for
    [SQLParser.parse], a function of the statement text alone: the
    parser holds no reference to the storage manager. *)
Definition execute_sql `{PyBuiltins} (parse : string -> result ASTNode)
    (sql : string) : M StorageManager.t QueryResult.t :=
  try_exceptM globals
    (ast <~ lift (parse sql) ;;
     plan <~ lift (QueryProcessor.process ast) ;;
     ExecutionEngine.execute plan)
    [(["SQLEngineError"], reraise);
     (["Exception"], wrap SQLEngineError "Unexpected error executing SQL: ")].

Definition list_tables (storage_manager : StorageManager.t) : list string :=
  StorageManager.list_tables storage_manager.

Definition table_exists (table_name : string)
    (storage_manager : StorageManager.t) : bool :=
  StorageManager.table_exists table_name storage_manager.

End SQLEngine.

(** ** Fixtures: the tables of the specification's scenarios *)

Module Fixtures.

Definition id_column : Column.t := Column.mk "id" "INT" true None.
Definition name_column : Column.t := Column.mk "name" "VARCHAR" true (Some 50).
Definition age_column : Column.t := Column.mk "age" "INT" true None.

(** [CREATE TABLE users (id INT, name VARCHAR(50), age INT)]. *)
Definition users_schema : Schema.t :=
  Schema.mk [id_column; name_column; age_column]
    [("id", 0%nat); ("name", 1%nat); ("age", 2%nat)].

Definition users_table : Table.t := Table.mk "users" users_schema [] 0.

(** A storage manager without tables, and one that holds [users]. *)
Definition no_tables : StorageManager.t := StorageManager.mk [].
Definition with_users : StorageManager.t :=
  StorageManager.mk [("users", users_table)].

(** [CREATE TABLE t (n INT)]. *)
Definition n_column : Column.t := Column.mk "n" "INT" true None.
Definition t_schema : Schema.t := Schema.mk [n_column] [("n", 0%nat)].
Definition t_table : Table.t := Table.mk "t" t_schema [] 0.
Definition with_t : StorageManager.t := StorageManager.mk [("t", t_table)].

End Fixtures.

(** ** A runtime for plain decimal text

    An instance of [PyBuiltins] on which the model runs: [int] and [float]
    read an optional sign and decimal digits (for [float], with at most
    one point) between optional white space, and raise [ValueError] on any
    other text; [repr] of a float is the shortest decimal text that reads
    back as the same float; [repr] of a string quotes and escapes ASCII
    text. The theorems below hold for every instance. *)

Module Runtime.

Definition digit_value (c : ascii) : Z := Z.of_nat (nat_of_ascii c - 48).

Fixpoint digits_from (acc : Z) (s : string) : option Z :=
  match s with
  | EmptyString => Some acc
  | String c r =>
      if PyStr.isdigit_char c then digits_from (10 * acc + digit_value c) r
      else None
  end.

(** The sign of a numeral and the rest of it. *)
Definition split_sign (s : string) : bool * string :=
  match s with
  | String "-" r => (true, r)
  | String "+" r => (false, r)
  | _ => (false, s)
  end.

Definition int_of_str (s : string) : option Z :=
  let (neg, r) := split_sign (PyStr.strip s) in
  match r with
  | EmptyString => None
  | _ => option_map (cond_Zopp neg) (digits_from 0 r)
  end.

(** The text before the first point, and the text after it if any. *)
Fixpoint split_point (s : string) : string * option string :=
  match s with
  | EmptyString => (EmptyString, None)
  | String c r =>
      if Ascii.eqb c "."%char then (EmptyString, Some r)
      else let (a, b) := split_point r in (String c a, b)
  end.

(** The binary64 number nearest to [n / d], for [0 <= n] and [0 < d]:
    the quotient is taken with more than 55 bits, made odd when it is
    inexact, and rounded to nearest even. *)
Definition round_ratio (neg : bool) (n d : Z) : spec_float :=
  if Z.eqb n 0 then S754_zero neg
  else
    let s := Z.max 0 (Z.log2 d + 60 - Z.log2 n) in
    let q := Z.div (n * Z.pow 2 s) d in
    let r := Z.modulo (n * Z.pow 2 s) d in
    let q := if Z.eqb r 0 then q else Z.lor q 1 in
    binary_normalize 53 1024 (cond_Zopp neg q) (- s) false.

Definition float_of_str (s : string) : option spec_float :=
  let (neg, r) := split_sign (PyStr.strip s) in
  let (whole, frac) := split_point r in
  let frac := match frac with Some f => f | None => EmptyString end in
  match (whole ++ frac)%string with
  | EmptyString => None
  | digits =>
      match digits_from 0 digits with
      | Some m => Some (round_ratio neg m (Z.pow 10 (PyStr.len frac)))
      | None => None
      end
  end.

(** The exact value of a finite positive float, as a fraction. *)
Definition ratio_of (m : positive) (e : Z) : Z * Z :=
  match e with
  | Zneg p => (Zpos m, Z.pow 2 (Zpos p))
  | _ => (Zpos m * Z.pow 2 e, 1)
  end.

(** The least [j] with [d <= n * 10 ^ j], searched upward. *)
Fixpoint scale_up (fuel : nat) (n d j : Z) : Z :=
  match fuel with
  | O => j
  | S fuel' => if Z.leb d (n * Z.pow 10 j) then j else scale_up fuel' n d (j + 1)
  end.

(** The position of the decimal point: the [k] with
    [10 ^ (k - 1) <= n / d < 10 ^ k]. *)
Definition decpt (n d : Z) : Z :=
  if Z.leb d n then PyStr.len (PyStr.of_Z (Z.div n d))
  else 1 - scale_up 400 n d 0.

(** [c * 10 ^ x] as a fraction. *)
Definition scaled (c x : Z) : Z * Z :=
  if Z.leb 0 x then (c * Z.pow 10 x, 1) else (c, Z.pow 10 (- x)).

Definition reads_back (f : spec_float) (c x : Z) : bool :=
  let (n, d) := scaled c x in
  match SFcompare (round_ratio false n d) f with
  | Some Eq => true
  | _ => false
  end.

(** The shortest digits, with their exponent, that read back as [f]:
    with [p] digits, the two neighbours of the value are tried, and the
    nearer one is preferred. *)
Fixpoint shortest (fuel : nat) (f : spec_float) (n d k p : Z) : Z * Z :=
  let x := k - p in
  let (sn, sd) := scaled 1 (- x) in
  let lo := Z.div (n * sn) (d * sd) in
  let rem := Z.modulo (n * sn) (d * sd) in
  let hi := if Z.eqb rem 0 then lo else lo + 1 in
  let lo_ok := reads_back f lo x in
  let hi_ok := reads_back f hi x in
  let nearer := if Z.leb (2 * rem) (d * sd) then lo else hi in
  if lo_ok && hi_ok then (nearer, x)
  else if lo_ok then (lo, x)
  else if hi_ok then (hi, x)
  else
    match fuel with
    | O => (nearer, x)
    | S fuel' => shortest fuel' f n d k (p + 1)
    end.

Fixpoint strip_zeros_rev (s : string) : string :=
  match s with
  | String "0" r => strip_zeros_rev r
  | _ => s
  end.

(** The digits without their trailing zeros. *)
Definition strip_zeros (s : string) : string :=
  PyStr.rev (strip_zeros_rev (PyStr.rev s)).

Fixpoint zeros (n : nat) : string :=
  match n with
  | O => EmptyString
  | S n' => String "0" (zeros n')
  end.

Definition two_digits (n : Z) : string :=
  if Z.ltb n 10 then ("0" ++ PyStr.of_Z n)%string else PyStr.of_Z n.

(** The text of the digits [ds] with the point after [k] of them: plain
    notation for [-4 < k <= 16], exponent notation otherwise. *)
Definition layout (ds : string) (k : Z) : string :=
  let nd := PyStr.len ds in
  if Z.ltb (-4) k && Z.leb k 16 then
    if Z.leb k 0 then ("0." ++ zeros (Z.to_nat (- k)) ++ ds)%string
    else if Z.leb nd k then (ds ++ zeros (Z.to_nat (k - nd)) ++ ".0")%string
    else
      (substring 0 (Z.to_nat k) ds ++ "."
         ++ substring (Z.to_nat k) (Z.to_nat (nd - k)) ds)%string
  else
    let mantissa :=
      match ds with
      | String c EmptyString => ds
      | String c r => String c (String "." r)
      | EmptyString => ds
      end in
    let x := k - 1 in
    (mantissa ++ "e" ++ (if Z.ltb x 0 then "-" else "+")
       ++ two_digits (Z.abs x))%string.

Definition repr_float (f : spec_float) : string :=
  match f with
  | S754_nan => "nan"
  | S754_infinity s => if s then "-inf" else "inf"
  | S754_zero s => if s then "-0.0" else "0.0"
  | S754_finite s m e =>
      let (n, d) := ratio_of m e in
      let k := decpt n d in
      let (c, x) := shortest 17 (S754_finite false m e) n d k 1 in
      let all_digits := PyStr.of_Z c in
      let k := x + PyStr.len all_digits in
      ((if s then "-" else "") ++ layout (strip_zeros all_digits) k)%string
  end.

Definition hex_digit (n : nat) : ascii :=
  if (n <? 10)%nat then ascii_of_nat (48 + n) else ascii_of_nat (87 + n).

Fixpoint has_char (c : ascii) (s : string) : bool :=
  match s with
  | EmptyString => false
  | String d r => Ascii.eqb c d || has_char c r
  end.

Fixpoint escape (quote : ascii) (s : string) : string :=
  match s with
  | EmptyString => EmptyString
  | String c r =>
      let n := nat_of_ascii c in
      let rest := escape quote r in
      if Ascii.eqb c quote || Ascii.eqb c "\"%char then
        String "\" (String c rest)
      else if Nat.eqb n 9 then String "\" (String "t" rest)
      else if Nat.eqb n 10 then String "\" (String "n" rest)
      else if Nat.eqb n 13 then String "\" (String "r" rest)
      else if PyStr.in_range 32 126 c then String c rest
      else
        String "\" (String "x"
          (String (hex_digit (n / 16)) (String (hex_digit (n mod 16)) rest)))
  end.

(** Single quotes, unless the text has a single quote and no double
    quote. *)
Definition repr_str (s : string) : string :=
  let double_quote := ascii_of_nat 34 in
  let quote :=
    if has_char "'" s && negb (has_char double_quote s) then double_quote
    else "'"%char in
  String quote (escape quote s ++ String quote EmptyString).

#[global] Instance ascii : PyBuiltins :=
  Build_PyBuiltins int_of_str float_of_str repr_float repr_str.

End Runtime.

(** ** Vocabulary of the properties *)

Definition is_str (v : Value) : bool :=
  match v with VStr _ => true | _ => false end.

(** [bool], [int] and [float] values. *)
Definition is_number (v : Value) : bool :=
  match v with VBool _ | VInt _ | VFloat _ => true | _ => false end.

(** Two values that are not [None] and whose types do not compare: a
    string and a number. *)
Definition type_mismatch (a b : Value) : bool :=
  (is_str a && is_number b) || (is_number a && is_str b).

Definition ordering_operators : list string := [">"; "<"; ">="; "<="].

(** The exception that loading the global name [ProcessingError] raises
    in a module that does not bind it. *)
Definition ProcessingError_undefined : Exc :=
  mkExc NameError "name 'ProcessingError' is not defined".

(** A clause list whose bodies all end by raising. *)
Definition raising {A : Type} (clauses : list (clause A)) : Prop :=
  Forall (fun c : clause A => forall e, exists e', snd c e = Raise e') clauses.

(** One [insert_values] call for each tuple, in order. *)
Fixpoint insert_all `{PyBuiltins} (tuples : list (list Value)) : M Table.t unit :=
  match tuples with
  | [] => ret tt
  | values :: rest =>
      _ <~ Table.insert_values values ;;
      insert_all rest
  end.

(** A computation that leaves the object as it found it. *)
Definition read_only {S A : Type} (m : M S A) : Prop :=
  forall s, snd (m s) = s.

(** A computation that, when it raises, leaves the object as it found
    it. *)
Definition failsafe {S A : Type} (m : M S A) : Prop :=
  forall s e s', m s = (Raise e, s') -> s' = s.

(** A column that the constructor of [Column] has built. *)
Definition constructed (c : Column.t) : Prop :=
  exists name data_type nullable max_length,
    Column.init name data_type nullable max_length = Ok c.

(** The entry of a column in the index. *)
Definition index_entry (ic : nat * Column.t) : string * nat :=
  (PyStr.lower (Column.name (snd ic)), fst ic).

(** A row as [Table.insert] stores it: validating and converting its
    values again returns them unchanged. *)
Definition stored_row `{PyBuiltins} (schema : Schema.t) (row : Row.t) : Prop :=
  Schema.validate_and_convert_row schema (Row.values row) = Ok (Row.values row).

(** A table whose counter is the number of its rows and whose rows are
    all as [Table.insert] stores them. *)
Definition consistent `{PyBuiltins} (table : Table.t) : Prop :=
  Table.row_count table = len (Table.rows table)
  /\ Forall (stored_row (Table.schema table)) (Table.rows table).

(** Whether the value of a row at position [i] satisfies a WHERE
    clause. *)
Definition satisfies (w : WhereClause.t) (i : nat) (row : Row.t) : bool :=
  match nth_error (Row.values row) i with
  | Some v =>
      match WhereClause.evaluate w v with
      | Ok b => b
      | Raise _ => false
      end
  | None => false
  end.

(** The values of a row at the given positions, as a new row. *)
Definition pick (indices : list nat) (row : Row.t) : Row.t :=
  Row.init (List.map (fun i => nth i (Row.values row) VNone) indices).

(** A row with a value at position [i]. *)
Definition reaches (i : nat) (row : Row.t) : Prop :=
  (i < List.length (Row.values row))%nat.

(** The tokens of a list of one-token items separated by commas. *)
Fixpoint comma_separated (items : list string) : list string :=
  match items with
  | [] => []
  | [item] => [item]
  | item :: rest => item :: "," :: comma_separated rest
  end.

(** A token that is neither a comma nor a parenthesis. *)
Definition plain (token : string) : Prop :=
  token <> "," /\ token <> "(" /\ token <> ")".

(** * Properties *)

(** ** WHERE predicates *)

(** C2. When the row value or the literal of the predicate is Null, [=]
    is true iff both are Null, [!=] and [<>] are true iff exactly one is
    Null, and each of [>], [<], [>=], [<=] is false. *)
Theorem C2_null_comparison (w : WhereClause.t) (row_value : Value) :
  In (WhereClause.operator w) WhereClause.VALID_OPERATORS ->
  row_value = VNone \/ WhereClause.value w = VNone ->
  (WhereClause.operator w = "=" ->
   WhereClause.evaluate w row_value
   = Ok (is_None row_value && is_None (WhereClause.value w)))
  /\ (WhereClause.operator w = "!=" \/ WhereClause.operator w = "<>" ->
      WhereClause.evaluate w row_value
      = Ok (xorb (is_None row_value) (is_None (WhereClause.value w))))
  /\ (In (WhereClause.operator w) ordering_operators ->
      WhereClause.evaluate w row_value = Ok false).
Proof.
  intros _ Hnull.
  assert (Hor : is_None row_value || is_None (WhereClause.value w) = true).
  { destruct Hnull as [-> | ->]; simpl; auto using orb_true_r. }
  destruct w as [column operator value]; simpl in *.
  unfold WhereClause.evaluate; simpl; rewrite Hor.
  repeat split.
  - intros ->; simpl.
    destruct (is_None row_value), (is_None value); simpl in *;
      reflexivity || discriminate.
  - intros [-> | ->]; simpl;
      destruct (is_None row_value), (is_None value); reflexivity.
  - unfold ordering_operators; simpl.
    intros [<- | [<- | [<- | [<- | []]]]]; reflexivity.
Qed.

Lemma C2_null_comparison_witness :
  WhereClause.evaluate (WhereClause.mk "email" "=" VNone) VNone = Ok true.
Proof.
  apply (proj1 (C2_null_comparison (WhereClause.mk "email" "=" VNone) VNone
                  (or_introl eq_refl) (or_introl eq_refl)) eq_refl).
Defined.

(** C3, as stated, fails: an integer row value and a string literal under
    [!=] evaluate to true. *)
Lemma C3_counterexample :
  In "!=" WhereClause.VALID_OPERATORS
  /\ type_mismatch (VInt 25) (VStr "25") = true
  /\ WhereClause.evaluate (WhereClause.mk "age" "!=" (VStr "25")) (VInt 25)
     = Ok true.
Proof.
  repeat split; simpl; auto 10.
Qed.

Lemma mismatch_classify (a b : Value) :
  type_mismatch a b = true -> Py.classify a b = Py.Mixed.
Proof.
  destruct a, b; simpl; intros H; try discriminate H; reflexivity.
Qed.

Lemma mismatch_not_None (a b : Value) :
  type_mismatch a b = true -> is_None a || is_None b = false.
Proof.
  destruct a, b; simpl; intros H; try discriminate H; reflexivity.
Qed.

(** C3, amended. When both operands are not Null and of types that do not
    compare, the predicate never raises: it is false under [=], [>], [<],
    [>=], [<=], and true under [!=] and [<>]. *)
Theorem C3_type_mismatch (w : WhereClause.t) (row_value : Value) :
  In (WhereClause.operator w) WhereClause.VALID_OPERATORS ->
  type_mismatch row_value (WhereClause.value w) = true ->
  WhereClause.evaluate w row_value
  = Ok (PyStr.mem (WhereClause.operator w) ["!="; "<>"]).
Proof.
  intros Hop Hmis.
  destruct w as [column operator value]; simpl in *.
  unfold WhereClause.evaluate; simpl.
  rewrite (mismatch_not_None _ _ Hmis).
  unfold WhereClause.evaluate_try; simpl.
  pose proof (mismatch_classify _ _ Hmis) as Hc.
  destruct Hop as [<- | [<- | [<- | [<- | [<- | [<- | [<- | []]]]]]]]; simpl;
    unfold Py.gt, Py.lt, Py.ge, Py.le, Py.order, Py.ne, Py.eq;
    rewrite Hc; reflexivity.
Qed.

Lemma C3_type_mismatch_witness :
  WhereClause.evaluate (WhereClause.mk "age" ">" (VInt 18)) (VStr "25") = Ok false.
Proof.
  apply (C3_type_mismatch (WhereClause.mk "age" ">" (VInt 18)) (VStr "25")).
  - simpl; auto.
  - reflexivity.
Defined.

(** ** Error kinds out of the execution engine *)

(** Every exception that leaves [execute] is that [NameError]. *)
Lemma execute_raises_NameError `{PyBuiltins} (plan : ExecutionPlan.t)
    (st st' : StorageManager.t) (e : Exc) :
  ExecutionEngine.execute plan st = (Raise e, st') ->
  e = ProcessingError_undefined.
Proof.
  unfold ExecutionEngine.execute, try_exceptM.
  destruct (ExecutionEngine.execute_try plan st) as [[a | e0] s0]; simpl.
  - discriminate.
  - intros Heq; injection Heq as <- _; reflexivity.
Qed.

(** C1, on the code: [SELECT * FROM ghost] without tables. The lookup of
    the table raises [TableNotFoundError] naming [ghost]; what leaves
    [execute] is a [NameError], because the [except] clause of [execute]
    names [ProcessingError], which execution_engine.py does not import. *)
Theorem C1_select_from_ghost `{PyBuiltins} :
  let plan := ExecutionPlan.mk [ScanOperation "ghost"; ProjectOperation ["*"]] in
  QueryProcessor.process (SelectNode "ghost" ["*"] None) = Ok plan
  /\ StorageManager.get_table "ghost" Fixtures.no_tables
     = (raise TableNotFoundError
          "Table 'ghost' does not exist. No tables have been created yet",
        Fixtures.no_tables)
  /\ ExecutionEngine.execute plan Fixtures.no_tables
     = (Raise ProcessingError_undefined, Fixtures.no_tables).
Proof.
  repeat split.
Qed.

(** C4, on the code: [INSERT INTO users VALUES (1)] into the three-column
    table. [Table.insert] raises a [ValidationError] whose text is not the
    one of [Schema.convert_row] ("Expected 3 values, got 1"), and what
    leaves [execute] is the [NameError] of C1. *)
Theorem C4_insert_wrong_arity `{PyBuiltins} :
  let plan := ExecutionPlan.mk [InsertOperation "users" [VInt 1]] in
  QueryProcessor.process (InsertNode "users" [VInt 1]) = Ok plan
  /\ Table.insert_values [VInt 1] Fixtures.users_table
     = (raise ValidationError
          "Row has 1 values but table 'users' expects 3 columns",
        Fixtures.users_table)
  /\ Schema.convert_row Fixtures.users_schema [VInt 1]
     = raise ValidationError "Expected 3 values, got 1"
  /\ ExecutionEngine.execute plan Fixtures.with_users
     = (Raise ProcessingError_undefined, Fixtures.with_users).
Proof.
  repeat split.
Qed.

(** C5, on the code: over the empty row sequence [ProjectOperation]
    returns the empty list before it looks at the table or at its columns,
    also for a column that the schema does not have. *)
Theorem C5_project_empty_input (columns : list string)
    (table_name : option string) (st : StorageManager.t) :
  ProjectOperation.execute columns (Some []) table_name st = (Ok [], st)
  /\ Schema.get_column_index Fixtures.users_schema "nonexistent_column"
     = raise ValidationError "Column 'nonexistent_column' not found in schema"
  /\ ProjectOperation.execute ["nonexistent_column"] (Some []) (Some "users")
       Fixtures.with_users
     = (Ok [], Fixtures.with_users).
Proof.
  repeat split.
Qed.

(** With input rows, a requested column that the schema does not have
    makes [ProjectOperation] raise [ColumnNotFoundError] naming the first
    such column. *)
Lemma column_indices_missing (schema : Schema.t) (table_name : string)
    (present : list string) (col_name : string) (rest : list string) :
  Forall (fun c => exists i, Schema.get_column_index schema c = Ok i) present ->
  Dict.get (PyStr.lower col_name) (Schema._column_index schema) = None ->
  ProjectOperation.column_indices schema table_name (present ++ col_name :: rest)
  = raise ColumnNotFoundError
      ("Column '" ++ col_name ++ "' not found in table '" ++ table_name ++ "'").
Proof.
  intros Hpresent Hmissing.
  induction Hpresent as [| c present [i Hi] _ IH]; simpl.
  - unfold Schema.get_column_index; rewrite Hmissing; reflexivity.
  - rewrite Hi; simpl. rewrite IH; reflexivity.
Qed.

(** ** Recognition of SELECT plans *)

(** C6, as stated, fails: a plan that consists of a ScanOperation alone is
    run as a sequence of operations and produces a message, where the
    SELECT pipeline would raise for want of a ProjectOperation. *)
Lemma C6_counterexample :
  let plan := ExecutionPlan.mk [ScanOperation "t"] in
  In (ScanOperation "t") (ExecutionPlan.get_operations plan)
  /\ ExecutionEngine.execute plan Fixtures.with_t
     = (Ok (QueryResult.of_message "[]"), Fixtures.with_t)
  /\ QueryResult.is_data_result (QueryResult.of_message "[]") = false
  /\ ExecutionEngine.execute_try plan Fixtures.with_t
     <> ExecutionEngine._execute_select_operations
          (ExecutionPlan.get_operations plan) Fixtures.with_t.
Proof.
  repeat split; simpl; auto.
  vm_compute; discriminate.
Qed.

Lemma existsb_is_ScanOperation (operations : list Operation) :
  existsb ExecutionEngine.is_ScanOperation operations = true
  <-> exists table_name, In (ScanOperation table_name) operations.
Proof.
  rewrite existsb_exists; split.
  - intros [op [Hin Hscan]].
    destruct op; try discriminate Hscan. eauto.
  - intros [table_name Hin]. exists (ScanOperation table_name); auto.
Qed.

Lemma is_select_iff (operations : list Operation) :
  ExecutionEngine.is_select operations = true
  <-> (2 <= List.length operations)%nat
      /\ exists table_name, In (ScanOperation table_name) operations.
Proof.
  unfold ExecutionEngine.is_select, len.
  rewrite andb_true_iff, existsb_is_ScanOperation, Z.leb_le.
  split; intros [Hlen Hscan]; split; auto; lia.
Qed.

(** C6, amended. A plan is run as a SELECT pipeline if and only if it has
    at least two operations and one of them is a ScanOperation; any other
    plan with operations is run as a sequence of operations. *)
Theorem C6_select_recognition `{PyBuiltins} (plan : ExecutionPlan.t) :
  let operations := ExecutionPlan.get_operations plan in
  let select :=
    (2 <= List.length operations)%nat
    /\ exists table_name, In (ScanOperation table_name) operations in
  (select ->
   ExecutionEngine.execute_try plan
   = ExecutionEngine._execute_select_operations operations)
  /\ (~ select -> operations <> [] ->
      ExecutionEngine.execute_try plan
      = ExecutionEngine.execute_sequential operations).
Proof.
  intros operations select; subst select.
  unfold ExecutionEngine.execute_try; fold operations.
  split.
  - intros Hsel. pose proof Hsel as Hlen.
    apply is_select_iff in Hsel. rewrite Hsel.
    destruct operations; [destruct Hlen as [Hlen _]; simpl in Hlen; lia | reflexivity].
  - intros Hnot Hne.
    destruct (ExecutionEngine.is_select operations) eqn:Hsel.
    + apply is_select_iff in Hsel; contradiction.
    + destruct operations; [contradiction | reflexivity].
Qed.

Lemma C6_select_recognition_witness :
  ExecutionEngine.execute_try
    (ExecutionPlan.mk [ScanOperation "users"; ProjectOperation ["*"]])
  = ExecutionEngine._execute_select_operations
      [ScanOperation "users"; ProjectOperation ["*"]].
Proof.
  apply (proj1 (C6_select_recognition
                  (ExecutionPlan.mk [ScanOperation "users"; ProjectOperation ["*"]]))).
  split.
  - simpl; lia.
  - exists "users"; simpl; auto.
Defined.

(** ** [try] statements whose clauses all raise *)

Lemma raising_reraise_wrap {A : Type} (names names' : list string)
    (c : ExcClass) (prefix : string) :
  raising ([(names, reraise); (names', wrap c prefix)] : list (clause A)).
Proof.
  repeat constructor; intros e; simpl; unfold reraise, wrap, raise; eauto.
Qed.

Lemma raising_wrap {A : Type} (names : list string) (c : ExcClass)
    (prefix : string) :
  raising ([(names, wrap c prefix)] : list (clause A)).
Proof.
  repeat constructor; intros e; simpl; unfold wrap, raise; eauto.
Qed.

Lemma handle_raising {A : Type} (globals : namespace)
    (clauses : list (clause A)) (e : Exc) :
  raising clauses -> exists e', handle globals clauses e = Raise e'.
Proof.
  induction 1 as [| [names body] rest Hbody _ IH]; simpl.
  - eauto.
  - destruct (load_names globals names); [| eauto].
    destruct (isinstance e a); [apply Hbody | apply IH].
Qed.

Lemma try_except_Ok {A : Type} (globals : namespace) (r : result A)
    (clauses : list (clause A)) (a : A) :
  raising clauses -> try_except globals r clauses = Ok a -> r = Ok a.
Proof.
  intros Hr. destruct r as [a0 | e]; simpl; auto.
  destruct (handle_raising globals clauses e Hr) as [e' ->]; discriminate.
Qed.

(** ** Insert, then scan *)

(** A row that converts has as many values as the schema has columns. *)
Lemma validate_and_convert_row_arity `{PyBuiltins} (schema : Schema.t)
    (values converted : list Value) :
  Schema.validate_and_convert_row schema values = Ok converted ->
  Z.eqb (len values) (len (Schema.columns schema)) = true.
Proof.
  unfold Schema.validate_and_convert_row. intros Hok.
  apply try_except_Ok in Hok; [| apply raising_wrap].
  unfold Schema.convert_row in Hok.
  destruct (Z.eqb (len values) (len (Schema.columns schema))); auto.
  discriminate Hok.
Qed.

(** [Table.insert] appends the converted row and counts it. *)
Lemma insert_values_converted `{PyBuiltins} (table : Table.t)
    (values converted : list Value) :
  Schema.validate_and_convert_row (Table.schema table) values = Ok converted ->
  Table.insert_values values table
  = (Ok tt,
     Table.mk (Table.name table) (Table.schema table)
       (Table.rows table ++ [Row.init converted])%list
       (Table.row_count table + 1)).
Proof.
  intros Hok.
  unfold Table.insert_values, Table.insert, bindM, get, lift, modify; simpl.
  rewrite (validate_and_convert_row_arity _ _ _ Hok); simpl.
  rewrite Hok; reflexivity.
Qed.

(** C7. Inserting a sequence of tuples that the schema validates and
    converts succeeds, and a scan of the table then yields the rows it
    had, followed by the converted tuples in the order of insertion. *)
Theorem C7_insert_then_scan `{PyBuiltins} (table : Table.t)
    (tuples converted : list (list Value)) :
  Forall2
    (fun values c =>
       Schema.validate_and_convert_row (Table.schema table) values = Ok c)
    tuples converted ->
  exists table',
    insert_all tuples table = (Ok tt, table')
    /\ Table.scan table' = (Table.scan table ++ List.map Row.init converted)%list
    /\ List.map Row.to_list (Table.scan table')
       = (List.map Row.to_list (Table.scan table) ++ converted)%list
    /\ Table.schema table' = Table.schema table
    /\ Table.row_count table' = Table.row_count table + len tuples.
Proof.
  intros Hall. revert table converted Hall.
  induction tuples as [| values rest IH]; intros table converted Hall.
  - inversion Hall; subst. exists table; simpl.
    rewrite !app_nil_r. repeat split. unfold len; simpl; lia.
  - inversion Hall as [| ? c ? converted' Hhead Htail]; subst.
    simpl. unfold bindM.
    rewrite (insert_values_converted _ _ _ Hhead).
    set (table1 := Table.mk _ _ _ _).
    destruct (IH table1 converted' Htail)
      as [table' [Hrun [Hscan [Hlist [Hschema Hcount]]]]].
    exists table'. rewrite Hrun, Hlist, Hscan, Hschema, Hcount.
    unfold table1, Table.scan; simpl.
    rewrite map_app, <- !app_assoc; simpl.
    repeat split. unfold len.
    change (List.length (values :: rest)) with (S (List.length rest)). lia.
Qed.

Lemma C7_insert_then_scan_witness :
  exists table',
    insert_all
      [[VInt 1; VStr "Alice"; VFloat (Py.float_of_Z 25)];
       [VBool false; VInt 7; VStr " 30 "]]
      Fixtures.users_table
    = (Ok tt, table')
    /\ List.map Row.to_list (Table.scan table')
       = [[VInt 1; VStr "Alice"; VInt 25]; [VInt 0; VStr "7"; VInt 30]].
Proof.
  destruct (C7_insert_then_scan Fixtures.users_table
              [[VInt 1; VStr "Alice"; VFloat (Py.float_of_Z 25)];
               [VBool false; VInt 7; VStr " 30 "]]
              [[VInt 1; VStr "Alice"; VInt 25]; [VInt 0; VStr "7"; VInt 30]])
    as [table' [Hrun [_ [Hlist _]]]].
  - repeat constructor.
  - exists table'. split; [exact Hrun | exact Hlist].
Defined.

(** ** Failing statements and the registry *)

Lemma read_only_failsafe {S A : Type} (m : M S A) :
  read_only m -> failsafe m.
Proof.
  intros Hm s e s' Heq. specialize (Hm s). rewrite Heq in Hm. exact Hm.
Qed.

Lemma read_only_ret {S A : Type} (a : A) : read_only (ret a : M S A).
Proof. intros s; reflexivity. Qed.

Lemma read_only_throw {S A : Type} (c : ExcClass) (msg : string) :
  read_only (throw c msg : M S A).
Proof. intros s; reflexivity. Qed.

Lemma read_only_lift {S A : Type} (r : result A) : read_only (lift r : M S A).
Proof. intros s; reflexivity. Qed.

Lemma read_only_get {S : Type} : read_only (get : M S S).
Proof. intros s; reflexivity. Qed.

Lemma read_only_bindM {S A B : Type} (m : M S A) (k : A -> M S B) :
  read_only m -> (forall a, read_only (k a)) -> read_only (bindM m k).
Proof.
  intros Hm Hk s. unfold bindM. specialize (Hm s).
  destruct (m s) as [[a | e] s1]; simpl in *; subst; [apply Hk | reflexivity].
Qed.

Lemma read_only_try_exceptM {S A : Type} (globals : namespace) (m : M S A)
    (clauses : list (clause A)) :
  read_only m -> read_only (try_exceptM globals m clauses).
Proof.
  intros Hm s. unfold try_exceptM. specialize (Hm s).
  destruct (m s) as [r s1]; exact Hm.
Qed.

Lemma failsafe_try_exceptM {S A : Type} (globals : namespace) (m : M S A)
    (clauses : list (clause A)) :
  failsafe m -> failsafe (try_exceptM globals m clauses).
Proof.
  intros Hm s e s'. unfold try_exceptM.
  destruct (m s) as [[a | e0] s1] eqn:Hrun; simpl; intros Heq.
  - discriminate Heq.
  - injection Heq as _ <-. exact (Hm _ _ _ Hrun).
Qed.

Lemma failsafe_bindM_read {S A B : Type} (m : M S A) (k : A -> M S B) :
  read_only m -> (forall a, failsafe (k a)) -> failsafe (bindM m k).
Proof.
  intros Hm Hk s e s'. unfold bindM. specialize (Hm s).
  destruct (m s) as [[a | e0] s1]; simpl in Hm; subst s1; intros Heq.
  - exact (Hk _ _ _ _ Heq).
  - injection Heq as _ <-; reflexivity.
Qed.

Lemma failsafe_bindM_ret {S A B : Type} (m : M S A) (f : A -> B) :
  failsafe m -> failsafe (bindM m (fun a => ret (f a))).
Proof.
  intros Hm s e s'. unfold bindM, ret.
  destruct (m s) as [[a | e0] s1] eqn:Hrun; intros Heq.
  - discriminate Heq.
  - injection Heq as _ <-. exact (Hm _ _ _ Hrun).
Qed.

Create HintDb readonly.
#[local] Hint Resolve read_only_ret read_only_throw read_only_lift
  read_only_get read_only_bindM read_only_try_exceptM : readonly.

Lemma get_table_read_only (name : string) :
  read_only (StorageManager.get_table name).
Proof.
  unfold StorageManager.get_table.
  destruct (StorageManager.blank name); auto with readonly.
  apply read_only_bindM; auto with readonly.
  intros self. destruct (Dict.get _ _); auto with readonly.
  destruct (Dict.keys _); auto with readonly.
Qed.

#[local] Hint Resolve get_table_read_only : readonly.

Lemma scan_table_read_only (table_name : string) :
  read_only (StorageManager.scan_table table_name).
Proof. unfold StorageManager.scan_table; auto with readonly. Qed.

Lemma project_read_only (columns : list string)
    (input_rows : option (list Row.t)) (table_name : option string) :
  read_only (ProjectOperation.execute columns input_rows table_name).
Proof.
  unfold ProjectOperation.execute.
  destruct input_rows as [[| row rows] |]; auto with readonly.
  destruct table_name; auto with readonly.
  apply read_only_bindM; auto with readonly.
  intros table. destruct (ProjectOperation.is_star columns); auto with readonly.
Qed.

Lemma filter_read_only (where_clause : WhereClause.t)
    (input_rows : option (list Row.t)) (table_name : option string) :
  read_only (FilterOperation.execute where_clause input_rows table_name).
Proof.
  unfold FilterOperation.execute.
  destruct input_rows as [[| row rows] |]; auto with readonly.
  destruct table_name; auto with readonly.
Qed.

#[local] Hint Resolve scan_table_read_only project_read_only
  filter_read_only : readonly.

(** The SELECT pipeline only reads the registry. *)
Lemma select_read_only (operations : list Operation) :
  read_only (ExecutionEngine._execute_select_operations operations).
Proof.
  unfold ExecutionEngine._execute_select_operations.
  apply read_only_try_exceptM.
  destruct (ExecutionEngine.scan_op _); auto with readonly.
  destruct (ExecutionEngine.project_op _); auto with readonly.
  unfold ScanOperation.execute.
  apply read_only_bindM; auto with readonly. intros rows.
  apply read_only_bindM.
  { destruct (ExecutionEngine.filter_op _); auto with readonly. }
  intros rows'. apply read_only_bindM; auto with readonly. intros projected.
  apply read_only_bindM; auto with readonly.
  destruct (ProjectOperation.is_star _); auto with readonly.
Qed.

Lemma dict_set_get {V : Type} (k : string) (v : V) (d : Dict.t V) :
  Dict.get k d = Some v -> Dict.set k v d = d.
Proof.
  induction d as [| [k' v'] d IH]; simpl.
  - discriminate.
  - destruct (String.eqb k' k).
    + intros Heq; injection Heq as ->; reflexivity.
    + intros Hget; rewrite (IH Hget); reflexivity.
Qed.

(** [Table.insert] appends only after the row has passed every check. *)
Lemma table_insert_failsafe `{PyBuiltins} (values : list Value) :
  failsafe (Table.insert_values values).
Proof.
  intros table e table'.
  unfold Table.insert_values, Table.insert, bindM, get, lift, modify, throw; simpl.
  destruct (negb _).
  - intros Heq; injection Heq as _ <-; reflexivity.
  - destruct (Schema.validate_and_convert_row _ _); intros Heq.
    + discriminate Heq.
    + injection Heq as _ <-; reflexivity.
Qed.

Lemma on_table_failsafe {A : Type} (key : string) (m : M Table.t A) :
  failsafe m -> failsafe (StorageManager.on_table key m).
Proof.
  intros Hm [tables] e self'. unfold StorageManager.on_table; simpl.
  destruct (Dict.get key tables) as [table |] eqn:Hget.
  - destruct (m table) as [r table'] eqn:Hrun. intros Heq.
    injection Heq as -> <-.
    rewrite (Hm _ _ _ Hrun), (dict_set_get _ _ _ Hget); reflexivity.
  - intros Heq; injection Heq as _ <-; reflexivity.
Qed.

Lemma insert_values_failsafe `{PyBuiltins} (table_name : string)
    (values : list Value) :
  failsafe (StorageManager.insert_values table_name values).
Proof.
  unfold StorageManager.insert_values.
  destruct values as [| v values].
  - apply read_only_failsafe; auto with readonly.
  - apply failsafe_try_exceptM, failsafe_bindM_read; auto with readonly.
    intros table. apply on_table_failsafe, table_insert_failsafe.
Qed.

(** [create_table] registers the table as its last step. *)
Lemma create_table_failsafe (name : string) (schema : Schema.t) :
  failsafe (StorageManager.create_table name schema).
Proof.
  unfold StorageManager.create_table.
  destruct (StorageManager.blank name);
    [apply read_only_failsafe; auto with readonly |].
  destruct (negb _); [apply read_only_failsafe; auto with readonly |].
  destruct (Z.eqb _ _); [apply read_only_failsafe; auto with readonly |].
  destruct (Schema.columns schema);
    [apply read_only_failsafe; auto with readonly |].
  apply failsafe_bindM_read; auto with readonly. intros self.
  destruct (Dict.mem _ _); [apply read_only_failsafe; auto with readonly |].
  apply failsafe_try_exceptM.
  intros s e s'. unfold bindM, lift, modify.
  destruct (Table.init name schema); intros Heq.
  - discriminate Heq.
  - injection Heq as _ <-; reflexivity.
Qed.

Lemma execute_operation_failsafe `{PyBuiltins} (operation : Operation) :
  failsafe (ExecutionEngine.execute_operation operation).
Proof.
  unfold ExecutionEngine.execute_operation.
  apply failsafe_try_exceptM.
  assert (Hop : failsafe (Operation_execute operation)).
  { destruct operation; simpl.
    - apply failsafe_bindM_ret.
      unfold CreateTableOperation.execute.
      apply failsafe_bindM_ret, create_table_failsafe.
    - apply failsafe_bindM_ret.
      unfold InsertOperation.execute.
      apply failsafe_bindM_read; auto with readonly. intros table.
      apply failsafe_bindM_ret, insert_values_failsafe.
    - apply read_only_failsafe; unfold ScanOperation.execute; auto with readonly.
    - apply read_only_failsafe; auto with readonly.
    - apply read_only_failsafe; auto with readonly. }
  intros s e s'. unfold bindM.
  destruct (Operation_execute operation s) as [[v | e0] s1] eqn:Hrun.
  - destruct v; discriminate.
  - intros Heq; injection Heq as _ <-. exact (Hop _ _ _ Hrun).
Qed.

(** A plan of one operation. *)
Lemma execute_single_failsafe `{PyBuiltins} (operation : Operation) :
  failsafe (ExecutionEngine.execute (ExecutionPlan.mk [operation])).
Proof.
  unfold ExecutionEngine.execute. apply failsafe_try_exceptM.
  unfold ExecutionEngine.execute_try; simpl.
  change (ExecutionEngine.is_select [operation]) with false; simpl.
  unfold ExecutionEngine.execute_sequential; simpl.
  intros s e s'. unfold bindM at 1 2.
  destruct (ExecutionEngine.execute_operation operation s) as [[r | e0] s1] eqn:Hrun.
  - discriminate.
  - intros Heq; injection Heq as _ <-.
    exact (execute_operation_failsafe _ _ _ _ Hrun).
Qed.

(** A plan that is run as a SELECT pipeline. *)
Lemma execute_select_failsafe `{PyBuiltins} (plan : ExecutionPlan.t) :
  ExecutionEngine.is_select (ExecutionPlan.get_operations plan) = true ->
  failsafe (ExecutionEngine.execute plan).
Proof.
  intros Hsel. unfold ExecutionEngine.execute.
  apply failsafe_try_exceptM, read_only_failsafe.
  unfold ExecutionEngine.execute_try. rewrite Hsel.
  destruct (ExecutionPlan.get_operations plan); auto with readonly.
  apply select_read_only.
Qed.

(** The plans of the query processor: one operation, or a SELECT
    pipeline. *)
Lemma process_plan (ast : ASTNode) (plan : ExecutionPlan.t) :
  QueryProcessor.process ast = Ok plan ->
  (exists operation, plan = ExecutionPlan.mk [operation])
  \/ ExecutionEngine.is_select (ExecutionPlan.get_operations plan) = true.
Proof.
  unfold QueryProcessor.process. intros Hok.
  apply try_except_Ok in Hok; [| apply raising_reraise_wrap].
  destruct ast as [table_name columns | table_name values
                  | table_name columns where_clause]; simpl in Hok.
  - unfold QueryProcessor.visit_create_table in Hok.
    apply try_except_Ok in Hok; [| apply raising_reraise_wrap].
    destruct (String.eqb table_name ""); [discriminate Hok |].
    destruct columns as [| c columns]; [discriminate Hok |].
    destruct (Schema.init (c :: columns)); [| discriminate Hok].
    injection Hok as <-. left; eexists; reflexivity.
  - unfold QueryProcessor.visit_insert in Hok.
    apply try_except_Ok in Hok; [| apply raising_reraise_wrap].
    destruct (String.eqb table_name ""); [discriminate Hok |].
    destruct values as [| v values]; [discriminate Hok |].
    injection Hok as <-. left; eexists; reflexivity.
  - unfold QueryProcessor.visit_select in Hok.
    apply try_except_Ok in Hok; [| apply raising_reraise_wrap].
    destruct (String.eqb table_name ""); [discriminate Hok |].
    destruct columns as [| c columns]; [discriminate Hok |].
    injection Hok as <-. right. destruct where_clause; reflexivity.
Qed.

(** C8. A statement that fails, in parsing, in plan construction or in
    execution, leaves the storage registry exactly as it was. *)
Theorem C8_failure_preserves_storage `{PyBuiltins}
    (parse : string -> result ASTNode) (sql : string)
    (st st' : StorageManager.t) (e : Exc) :
  SQLEngine.execute_sql parse sql st = (Raise e, st') -> st' = st.
Proof.
  revert st e st'. change (failsafe (SQLEngine.execute_sql parse sql)).
  unfold SQLEngine.execute_sql.
  apply failsafe_try_exceptM, failsafe_bindM_read; auto with readonly.
  intros ast s e s'. unfold bindM, lift.
  destruct (QueryProcessor.process ast) as [plan | e0] eqn:Hplan.
  - intros Hrun. destruct (process_plan _ _ Hplan) as [[operation ->] | Hsel].
    + exact (execute_single_failsafe operation _ _ _ Hrun).
    + exact (execute_select_failsafe plan Hsel _ _ _ Hrun).
  - intros Heq; injection Heq as _ <-; reflexivity.
Qed.

Lemma C8_failure_preserves_storage_witness :
  let parse := fun _ : string => Ok (InsertNode "users" [VInt 1]) in
  let sql := "INSERT INTO users VALUES (1)" in
  let e :=
    mkExc SQLEngineError
      "Unexpected error executing SQL: name 'ProcessingError' is not defined" in
  fst (SQLEngine.execute_sql parse sql Fixtures.with_users) = Raise e
  /\ snd (SQLEngine.execute_sql parse sql Fixtures.with_users) = Fixtures.with_users.
Proof.
  intros parse sql e. split.
  - reflexivity.
  - apply (C8_failure_preserves_storage parse sql Fixtures.with_users
             (snd (SQLEngine.execute_sql parse sql Fixtures.with_users)) e).
    reflexivity.
Defined.

(** ** Schema descriptions *)

(** Building a constructed column again from its own fields gives the same
    column: [__post_init__] has nothing left to change. *)
Lemma column_init_fields (c : Column.t) :
  constructed c ->
  Column.init (Column.name c) (Column.data_type c) (Column.nullable c)
    (Column.max_length c) = Ok c.
Proof.
  intros [name [data_type [nullable [max_length Hinit]]]].
  unfold Column.init in *.
  destruct (String.eqb name "") eqn:Hname; [discriminate Hinit |].
  destruct (negb (PyStr.mem data_type Column.valid_types)) eqn:Htype;
    [discriminate Hinit |].
  destruct max_length as [n |].
  - destruct (Z.leb n 0) eqn:Hn; [discriminate Hinit |].
    injection Hinit as <-;
      cbn [Column.name Column.data_type Column.nullable Column.max_length]. rewrite Hname, Htype, Hn; reflexivity.
  - destruct (String.eqb data_type "VARCHAR") eqn:Hvarchar.
    + cbn in Hinit. injection Hinit as <-;
      cbn [Column.name Column.data_type Column.nullable Column.max_length].
      rewrite Hname, Htype; reflexivity.
    + injection Hinit as <-;
      cbn [Column.name Column.data_type Column.nullable Column.max_length].
      rewrite Hname, Htype, Hvarchar; reflexivity.
Qed.

Lemma from_dict_columns (columns : list Column.t) :
  Forall constructed columns ->
  mapM
    (fun col_data =>
       Column.init (Schema.d_name col_data) (Schema.d_data_type col_data)
         (match Schema.d_nullable col_data with Some b => b | None => true end)
         (match Schema.d_max_length col_data with Some m => m | None => None end))
    (List.map
       (fun col =>
          Schema.mk_column_dict (Column.name col) (Column.data_type col)
            (Some (Column.nullable col)) (Some (Column.max_length col)))
       columns)
  = Ok columns.
Proof.
  induction 1 as [| c columns Hc _ IH]; simpl.
  - reflexivity.
  - rewrite (column_init_fields c Hc); simpl. rewrite IH; reflexivity.
Qed.

Lemma schema_init_valid (columns : list Column.t) :
  columns <> [] ->
  NoDup (List.map (fun col => PyStr.lower (Column.name col)) columns) ->
  Schema.init columns = Ok (Schema.mk columns (Schema.build_index columns)).
Proof.
  intros Hne Hnodup. unfold Schema.init, PyStr.distinct.
  destruct columns as [| c columns]; [contradiction |].
  rewrite (nodup_fixed_point string_dec Hnodup), Nat.eqb_refl; reflexivity.
Qed.

(** C9. For a non-empty list of columns with names that are unique up to
    case, the schema built from it, serialized to its description and
    rebuilt, is the same schema: the same columns in the same order, each
    with the same name, data type, nullability and max_length. *)
Theorem C9_schema_round_trip (columns : list Column.t) :
  columns <> [] ->
  NoDup (List.map (fun col => PyStr.lower (Column.name col)) columns) ->
  Forall constructed columns ->
  exists schema,
    Schema.init columns = Ok schema
    /\ Schema.from_dict (Schema.to_dict schema) = Ok schema
    /\ Schema.columns schema = columns.
Proof.
  intros Hne Hnodup Hcols.
  exists (Schema.mk columns (Schema.build_index columns)).
  pose proof (schema_init_valid columns Hne Hnodup) as Hinit.
  repeat split; auto.
  unfold Schema.from_dict, Schema.to_dict; simpl.
  rewrite (from_dict_columns columns Hcols); simpl. exact Hinit.
Qed.

Lemma C9_schema_round_trip_witness :
  Schema.from_dict (Schema.to_dict Fixtures.users_schema)
  = Ok Fixtures.users_schema.
Proof.
  destruct (C9_schema_round_trip
              [Fixtures.id_column; Fixtures.name_column; Fixtures.age_column])
    as [schema [Hinit [Hround _]]].
  - discriminate.
  - repeat constructor; simpl; intuition discriminate.
  - repeat constructor.
    + exists "id", "INT", true, None; reflexivity.
    + exists "name", "VARCHAR", true, (Some 50); reflexivity.
    + exists "age", "INT", true, None; reflexivity.
  - injection Hinit as <-. exact Hround.
Defined.

(** ** Booleans into INT columns *)

Lemma get_table_inv (name : string) (st st' : StorageManager.t)
    (table : Table.t) :
  StorageManager.get_table name st = (Ok table, st') ->
  StorageManager.blank name = false
  /\ Dict.get (PyStr.lower name) (StorageManager.tables st) = Some table
  /\ st' = st.
Proof.
  unfold StorageManager.get_table.
  destruct (StorageManager.blank name); [discriminate |].
  unfold bindM, get, ret, throw.
  destruct (Dict.get _ _) as [table0 |].
  - intros Heq; injection Heq as -> <-; auto.
  - destruct (Dict.keys _); discriminate.
Qed.

Lemma get_table_found (name : string) (st : StorageManager.t)
    (table : Table.t) :
  StorageManager.blank name = false ->
  Dict.get (PyStr.lower name) (StorageManager.tables st) = Some table ->
  StorageManager.get_table name st = (Ok table, st).
Proof.
  intros Hblank Hget. unfold StorageManager.get_table, bindM, get, ret.
  rewrite Hblank, Hget; reflexivity.
Qed.

Lemma dict_get_set {V : Type} (k : string) (v : V) (d : Dict.t V) :
  Dict.get k (Dict.set k v d) = Some v.
Proof.
  induction d as [| [k' v'] d IH]; simpl.
  - rewrite String.eqb_refl; reflexivity.
  - destruct (String.eqb k' k) eqn:Hk; simpl; rewrite Hk; auto.
Qed.

(** A successful insert through the registry replaces the table object
    under its key by the table with the new row. *)
Lemma storage_insert_values_ok `{PyBuiltins} (name : string)
    (values : list Value) (st : StorageManager.t) (table table' : Table.t) :
  values <> [] ->
  StorageManager.get_table name st = (Ok table, st) ->
  Table.insert_values values table = (Ok tt, table') ->
  StorageManager.insert_values name values st
  = (Ok tt,
     StorageManager.mk (Dict.set (PyStr.lower name) table' (StorageManager.tables st))).
Proof.
  intros Hne Hget Hins.
  destruct (get_table_inv _ _ _ _ Hget) as [_ [Hdict _]].
  unfold StorageManager.insert_values.
  destruct values as [| v values]; [contradiction |].
  unfold try_exceptM, bindM. rewrite Hget.
  unfold StorageManager.on_table. rewrite Hdict, Hins; reflexivity.
Qed.

Lemma convert_bool_to_int `{PyBuiltins} (column : Column.t) (b : bool) :
  Column.data_type column = "INT" ->
  Column.convert_value column (VBool b) = Ok (VInt (Py.Z_of_bool b))
  /\ Column.validate_value column (VInt (Py.Z_of_bool b)) = true.
Proof.
  intros Hint.
  unfold Column.convert_value, Column.convert_value_try, Column.validate_value.
  rewrite Hint; split; reflexivity.
Qed.

(** C10. A boolean converts into an INT column as the integer 1 or 0, and
    the integer passes the validation that follows; the statement
    [INSERT INTO t VALUES (TRUE)], for a table [t] whose only column is of
    type INT, succeeds and appends the row [[1]]. The tokenizer is taken
    to split the statement into its seven tokens. *)
Theorem C10_boolean_into_int_column `{PyBuiltins} (column : Column.t)
    (table : Table.t) (st : StorageManager.t)
    (parse : string -> result ASTNode) :
  Column.data_type column = "INT" ->
  StorageManager.get_table "t" st = (Ok table, st) ->
  Schema.columns (Table.schema table) = [column] ->
  parse "INSERT INTO t VALUES (TRUE)"
  = SQLParser._parse_insert ["INSERT"; "INTO"; "t"; "VALUES"; "("; "TRUE"; ")"] ->
  (forall b,
      Column.convert_value column (VBool b) = Ok (VInt (if b then 1 else 0))
      /\ Column.validate_value column (VInt (if b then 1 else 0)) = true)
  /\ SQLParser._parse_single_value ["TRUE"] = Ok (VBool true)
  /\ parse "INSERT INTO t VALUES (TRUE)" = Ok (InsertNode "t" [VBool true])
  /\ exists st',
       SQLEngine.execute_sql parse "INSERT INTO t VALUES (TRUE)" st
       = (Ok (QueryResult.of_message
                ("1 row inserted into table '" ++ Table.name table ++ "'.")),
          st')
       /\ StorageManager.get_table "t" st'
          = (Ok (Table.mk (Table.name table) (Table.schema table)
                   (Table.rows table ++ [Row.init [VInt 1]])%list
                   (Table.row_count table + 1)),
             st').
Proof.
  intros Hint Hget Hcols Hparse.
  split; [intros b; destruct (convert_bool_to_int column b Hint); destruct b; auto |].
  split; [reflexivity |].
  assert (Hast : parse "INSERT INTO t VALUES (TRUE)" = Ok (InsertNode "t" [VBool true])).
  { rewrite Hparse; reflexivity. }
  split; [exact Hast |].
  destruct (get_table_inv _ _ _ _ Hget) as [Hblank [Hdict _]].
  assert (Hrow : Schema.validate_and_convert_row (Table.schema table) [VBool true]
                 = Ok [VInt 1]).
  { destruct (convert_bool_to_int column true Hint) as [Hconv Hvalid].
    cbn [Py.Z_of_bool] in Hconv, Hvalid.
    unfold Schema.validate_and_convert_row, Schema.convert_row, Schema.validate_row.
    rewrite Hcols. cbn -[Column.convert_value Column.validate_value].
    rewrite Hconv. cbn -[Column.convert_value Column.validate_value].
    rewrite Hvalid; reflexivity. }
  pose proof (insert_values_converted table _ _ Hrow) as Hins.
  pose proof (storage_insert_values_ok "t" [VBool true] st table _
                ltac:(discriminate) Hget Hins) as Hstore.
  eexists. split.
  - unfold SQLEngine.execute_sql, try_exceptM, bindM, lift. rewrite Hast.
    unfold QueryProcessor.process; simpl.
    unfold ExecutionEngine.execute, try_exceptM, ExecutionEngine.execute_try; simpl.
    change (ExecutionEngine.is_select _) with false; simpl.
    unfold ExecutionEngine.execute_sequential, bindM; simpl.
    unfold ExecutionEngine.execute_operation, try_exceptM, bindM; simpl.
    unfold InsertOperation.execute, bindM.
    rewrite Hget, Hstore; simpl. reflexivity.
  - apply get_table_found; [exact Hblank |]. simpl. apply dict_get_set.
Qed.

Lemma C10_boolean_into_int_column_witness :
  let parse :=
    fun _ : string =>
      SQLParser._parse_insert ["INSERT"; "INTO"; "t"; "VALUES"; "("; "TRUE"; ")"] in
  exists st',
    SQLEngine.execute_sql parse "INSERT INTO t VALUES (TRUE)" Fixtures.with_t
    = (Ok (QueryResult.of_message "1 row inserted into table 't'."), st')
    /\ StorageManager.get_table "t" st'
       = (Ok (Table.mk "t" Fixtures.t_schema [Row.init [VInt 1]] 1), st').
Proof.
  intros parse.
  destruct (C10_boolean_into_int_column Fixtures.n_column Fixtures.t_table
              Fixtures.with_t parse eq_refl eq_refl eq_refl eq_refl)
    as [_ [_ [_ [st' [Hrun Hget]]]]].
  exists st'. split; [exact Hrun | exact Hget].
Defined.

(** * Further properties of the data model *)

(** ** Conversion and validation of values *)

Lemma convert_value_cases `{PyBuiltins} (column : Column.t)
    (value converted : Value) :
  Column.convert_value column value = Ok converted ->
  (value = VNone /\ converted = VNone /\ Column.nullable column = true)
  \/ (is_None value = false /\ Column.convert_value_try column value = Ok converted).
Proof.
  unfold Column.convert_value. destruct value.
  - destruct (Column.nullable column); simpl; [| discriminate].
    intros Heq; injection Heq as <-; auto.
  - intros Hok; apply try_except_Ok in Hok; [auto | apply raising_wrap].
  - intros Hok; apply try_except_Ok in Hok; [auto | apply raising_wrap].
  - intros Hok; apply try_except_Ok in Hok; [auto | apply raising_wrap].
  - intros Hok; apply try_except_Ok in Hok; [auto | apply raising_wrap].
Qed.

(** What the [try] body of [convert_value] returns, by data type. *)
Lemma convert_value_try_shape `{PyBuiltins} (column : Column.t)
    (value converted : Value) :
  is_None value = false ->
  Column.convert_value_try column value = Ok converted ->
  (Column.data_type column = "INT" /\ exists n, converted = VInt n)
  \/ (Column.data_type column = "FLOAT" /\ exists f, converted = VFloat f)
  \/ (Column.data_type column = "VARCHAR"
      /\ exists s, converted = VStr s
         /\ Z.gtb (PyStr.len s) (Column.max_length_or_255 column) = false)
  \/ (Column.data_type column = "BOOLEAN" /\ exists b, converted = VBool b)
  \/ (PyStr.mem (Column.data_type column) Column.valid_types = false
      /\ converted = value).
Proof.
  intros Hvalue. unfold Column.convert_value_try.
  destruct (String.eqb (Column.data_type column) "INT") eqn:Hint.
  { apply String.eqb_eq in Hint. intros Hok. left. split; [exact Hint |].
    destruct value; simpl in Hok; try discriminate Hvalue.
    - injection Hok as <-; eauto.
    - injection Hok as <-; eauto.
    - destruct (negb (Py.float_is_integer f)); [discriminate Hok |].
      destruct (Py.int_of_float f); simpl in Hok; [| discriminate Hok].
      injection Hok as <-; eauto.
    - destruct (int_of_str s); simpl in Hok; [| discriminate Hok].
      injection Hok as <-; eauto. }
  destruct (String.eqb (Column.data_type column) "FLOAT") eqn:Hfloat.
  { apply String.eqb_eq in Hfloat. intros Hok. right; left. split; [exact Hfloat |].
    destruct (Py.float value); simpl in Hok; [| discriminate Hok].
    injection Hok as <-; eauto. }
  destruct (String.eqb (Column.data_type column) "VARCHAR") eqn:Hvarchar.
  { apply String.eqb_eq in Hvarchar. intros Hok. right; right; left.
    split; [exact Hvarchar |].
    destruct (Z.gtb _ _) eqn:Hlen; [discriminate Hok |].
    injection Hok as <-; eauto. }
  destruct (String.eqb (Column.data_type column) "BOOLEAN") eqn:Hbool.
  { apply String.eqb_eq in Hbool. intros Hok. right; right; right; left.
    split; [exact Hbool |].
    destruct value; try discriminate Hvalue; injection Hok as <-; eauto. }
  intros Hok. right; right; right; right. split.
  - unfold PyStr.mem, Column.valid_types; simpl.
    rewrite Hint, Hfloat, Hvarchar, Hbool; reflexivity.
  - injection Hok as <-; reflexivity.
Qed.

Lemma converted_value_valid `{PyBuiltins} (column : Column.t)
    (value converted : Value) :
  PyStr.mem (Column.data_type column) Column.valid_types = true ->
  Column.convert_value column value = Ok converted ->
  Column.validate_value column converted = true.
Proof.
  intros Htype Hconv.
  destruct (convert_value_cases _ _ _ Hconv) as [[_ [-> Hnull]] | [Hvalue Htry]].
  - exact Hnull.
  - unfold Column.validate_value.
    destruct (convert_value_try_shape _ _ _ Hvalue Htry)
      as [[-> [n ->]] | [[-> [f ->]] | [[-> [s [-> Hlen]]] | [[-> [b ->]] | [Hno _]]]]];
      try reflexivity.
    + simpl. rewrite Z.gtb_ltb in Hlen. apply Z.ltb_ge in Hlen.
      apply Z.leb_le; exact Hlen.
    + rewrite Hno in Htype; discriminate Htype.
Qed.

Lemma convert_value_fixed `{PyBuiltins} (column : Column.t)
    (value converted : Value) :
  Column.convert_value column value = Ok converted ->
  Column.convert_value column converted = Ok converted.
Proof.
  intros Hconv.
  destruct (convert_value_cases _ _ _ Hconv) as [[-> [-> Hnull]] | [Hvalue Htry]].
  - exact Hconv.
  - destruct (convert_value_try_shape _ _ _ Hvalue Htry)
      as [[Hdt [n ->]] | [[Hdt [f ->]] | [[Hdt [s [-> Hlen]]] | [[Hdt [b ->]] | [Hno ->]]]]];
      try (unfold Column.convert_value, Column.convert_value_try;
           rewrite Hdt; simpl; reflexivity).
    + unfold Column.convert_value, Column.convert_value_try.
      rewrite Hdt; simpl. rewrite Hlen; reflexivity.
    + exact Hconv.
Qed.

(** X1. A value that [convert_value] returns converts to itself, for
    every column; for a column of one of the four data types it satisfies
    [validate_value], and it is [None] only if the input is [None] and the
    column is nullable. *)
Theorem X1_converted_value `{PyBuiltins} (column : Column.t)
    (value converted : Value) :
  Column.convert_value column value = Ok converted ->
  Column.convert_value column converted = Ok converted
  /\ (PyStr.mem (Column.data_type column) Column.valid_types = true ->
      Column.validate_value column converted = true
      /\ (converted = VNone -> value = VNone /\ Column.nullable column = true)).
Proof.
  intros Hconv. split; [exact (convert_value_fixed _ _ _ Hconv) |].
  intros Htype. split; [exact (converted_value_valid _ _ _ Htype Hconv) |].
  intros ->.
  destruct (convert_value_cases _ _ _ Hconv) as [[-> [_ Hnull]] | [Hvalue Htry]];
    [auto |].
  destruct (convert_value_try_shape _ _ _ Hvalue Htry)
    as [[_ [n Hc]] | [[_ [f Hc]] | [[_ [s [Hc _]]] | [[_ [b Hc]] | [Hno _]]]]];
    try discriminate Hc.
  rewrite Hno in Htype; discriminate Htype.
Qed.

Lemma X1_converted_value_witness :
  Column.convert_value Fixtures.name_column (VStr "25") = Ok (VStr "25")
  /\ Column.validate_value Fixtures.name_column (VStr "25") = true.
Proof.
  destruct (X1_converted_value Fixtures.name_column (VInt 25) (VStr "25") eq_refl)
    as [Hfixed Hvalid].
  split; [exact Hfixed | exact (proj1 (Hvalid eq_refl))].
Defined.

(** ** Rows against a schema *)

Lemma mapM_Forall2 {A B : Type} (f : A -> result B) (l : list A) (l' : list B) :
  mapM f l = Ok l' <-> Forall2 (fun a b => f a = Ok b) l l'.
Proof.
  revert l'. induction l as [| a l IH]; intros l'; simpl.
  - split.
    + intros Heq; injection Heq as <-; constructor.
    + intros Hall; inversion Hall; reflexivity.
  - split.
    + destruct (f a) as [b | e] eqn:Hfa; simpl; [| discriminate].
      destruct (mapM f l) as [bs | e] eqn:Hrest; simpl; [| discriminate].
      intros Heq; injection Heq as <-. constructor; [exact Hfa |].
      apply IH; reflexivity.
    + intros Hall; inversion Hall as [| ? b ? bs Hfa Hrest]; subst.
      rewrite Hfa; simpl. apply IH in Hrest. rewrite Hrest; reflexivity.
Qed.

Lemma mapM_length {A B : Type} (f : A -> result B) (l : list A) (l' : list B) :
  mapM f l = Ok l' -> List.length l' = List.length l.
Proof.
  intros Hok. apply mapM_Forall2 in Hok.
  symmetry; exact (Forall2_length Hok).
Qed.

Lemma len_eqb {A B : Type} (l : list A) (l' : list B) :
  Z.eqb (len l) (len l') = true <-> List.length l = List.length l'.
Proof.
  unfold len. rewrite Z.eqb_eq. split; [apply Nat2Z.inj | congruence].
Qed.

(** What a successful [validate_and_convert_row] says. *)
Lemma validate_and_convert_row_inv `{PyBuiltins} (schema : Schema.t)
    (values converted : list Value) :
  Schema.validate_and_convert_row schema values = Ok converted ->
  List.length values = List.length (Schema.columns schema)
  /\ Forall2 (fun vc c => Column.convert_value (snd vc) (fst vc) = Ok c)
       (combine values (Schema.columns schema)) converted
  /\ Schema.validate_row schema converted = true.
Proof.
  intros Hok. pose proof (validate_and_convert_row_arity _ _ _ Hok) as Hlen.
  unfold Schema.validate_and_convert_row in Hok.
  apply try_except_Ok in Hok; [| apply raising_wrap].
  unfold Schema.convert_row in Hok. rewrite Hlen in Hok; simpl in Hok.
  destruct (mapM _ _) as [cs |] eqn:Hmap; simpl in Hok; [| discriminate Hok].
  destruct (Schema.validate_row schema cs) eqn:Hvalid; simpl in Hok;
    [| discriminate Hok].
  injection Hok as <-.
  split; [apply len_eqb; exact Hlen |].
  split; [apply mapM_Forall2; exact Hmap | exact Hvalid].
Qed.

Lemma converted_row_length `{PyBuiltins} (schema : Schema.t)
    (values converted : list Value) :
  Schema.validate_and_convert_row schema values = Ok converted ->
  List.length converted = List.length (Schema.columns schema).
Proof.
  intros Hok. destruct (validate_and_convert_row_inv _ _ _ Hok) as [Hlen [Hall _]].
  rewrite <- (Forall2_length Hall), length_combine, Hlen. apply Nat.min_id.
Qed.

Lemma Forall2_combine_fixed `{PyBuiltins} (columns : list Column.t)
    (values converted : list Value) :
  Forall2 (fun vc c => Column.convert_value (snd vc) (fst vc) = Ok c)
    (combine values columns) converted ->
  List.length values = List.length columns ->
  Forall2 (fun vc c => Column.convert_value (snd vc) (fst vc) = Ok c)
    (combine converted columns) converted.
Proof.
  revert values converted.
  induction columns as [| column columns IH]; intros values converted Hall Hlen.
  - destruct values; [| discriminate Hlen]. inversion Hall; constructor.
  - destruct values as [| v values]; [discriminate Hlen |].
    simpl in Hall. inversion Hall as [| ? c ? cs Hc Hrest]; subst.
    simpl. constructor.
    + exact (convert_value_fixed _ _ _ Hc).
    + apply (IH values); [exact Hrest | simpl in Hlen; congruence].
Qed.

Lemma converted_row_fixed `{PyBuiltins} (schema : Schema.t)
    (values converted : list Value) :
  Schema.validate_and_convert_row schema values = Ok converted ->
  Schema.validate_and_convert_row schema converted = Ok converted.
Proof.
  intros Hok.
  pose proof (converted_row_length _ _ _ Hok) as Hclen.
  destruct (validate_and_convert_row_inv _ _ _ Hok) as [Hlen [Hall Hvalid]].
  unfold Schema.validate_and_convert_row, Schema.convert_row.
  rewrite (proj2 (len_eqb _ _) Hclen); simpl.
  rewrite (proj2 (mapM_Forall2 _ _ _) (Forall2_combine_fixed _ _ _ Hall Hlen)).
  simpl. rewrite Hvalid; reflexivity.
Qed.

(** X2. A row that [validate_and_convert_row] returns has one value for
    each column of the schema, passes [validate_row], and is returned
    unchanged when it is validated and converted again. *)
Theorem X2_converted_row `{PyBuiltins} (schema : Schema.t)
    (values converted : list Value) :
  Schema.validate_and_convert_row schema values = Ok converted ->
  len converted = Schema.__len__ schema
  /\ Schema.validate_row schema converted = true
  /\ Schema.validate_and_convert_row schema converted = Ok converted.
Proof.
  intros Hok. split; [| split].
  - unfold Schema.__len__, len. rewrite (converted_row_length _ _ _ Hok); reflexivity.
  - exact (proj2 (proj2 (validate_and_convert_row_inv _ _ _ Hok))).
  - exact (converted_row_fixed _ _ _ Hok).
Qed.

Lemma X2_converted_row_witness :
  Schema.validate_and_convert_row Fixtures.users_schema
    [VInt 1; VStr "7"; VInt 30]
  = Ok [VInt 1; VStr "7"; VInt 30].
Proof.
  apply (X2_converted_row Fixtures.users_schema
           [VBool true; VInt 7; VStr "30"] [VInt 1; VStr "7"; VInt 30]).
  reflexivity.
Defined.

Lemma validate_row_converted `{PyBuiltins} (columns : list Column.t)
    (values converted : list Value) :
  Forall (fun c => PyStr.mem (Column.data_type c) Column.valid_types = true) columns ->
  Forall2 (fun vc c => Column.convert_value (snd vc) (fst vc) = Ok c)
    (combine values columns) converted ->
  forallb (fun vc => Column.validate_value (snd vc) (fst vc))
    (combine converted columns) = true.
Proof.
  intros Htypes. revert values converted.
  induction Htypes as [| column columns Htype _ IH]; intros values converted Hall.
  - destruct converted; reflexivity.
  - destruct values as [| v values]; simpl in Hall.
    + inversion Hall; reflexivity.
    + inversion Hall as [| ? c ? cs Hc Hrest]; subst. simpl.
      rewrite (converted_value_valid _ _ _ Htype Hc); simpl.
      exact (IH _ _ Hrest).
Qed.

(** X3. In a schema whose columns have the four data types, the
    validation that follows the conversion never rejects a row: whenever
    [convert_row] returns a row, [validate_and_convert_row] returns the
    same row. *)
Theorem X3_validation_after_conversion `{PyBuiltins} (schema : Schema.t)
    (values converted : list Value) :
  Forall (fun c => PyStr.mem (Column.data_type c) Column.valid_types = true)
    (Schema.columns schema) ->
  Schema.convert_row schema values = Ok converted ->
  Schema.validate_and_convert_row schema values = Ok converted.
Proof.
  intros Htypes Hconv.
  unfold Schema.validate_and_convert_row. rewrite Hconv; simpl.
  unfold Schema.convert_row in Hconv.
  destruct (Z.eqb (len values) (len (Schema.columns schema))) eqn:Hlen;
    simpl in Hconv; [| discriminate Hconv].
  pose proof (mapM_length _ _ _ Hconv) as Hclen.
  rewrite length_combine in Hclen.
  apply len_eqb in Hlen. rewrite Hlen, Nat.min_id in Hclen.
  unfold Schema.validate_row.
  rewrite (proj2 (len_eqb _ _) Hclen); simpl.
  rewrite (validate_row_converted _ _ _ Htypes (proj1 (mapM_Forall2 _ _ _) Hconv)).
  reflexivity.
Qed.

Lemma X3_validation_after_conversion_witness :
  Schema.validate_and_convert_row Fixtures.users_schema
    [VBool true; VInt 7; VStr "30"]
  = Ok [VInt 1; VStr "7"; VInt 30].
Proof.
  apply (X3_validation_after_conversion Fixtures.users_schema).
  - repeat constructor.
  - reflexivity.
Defined.

(** ** Construction of a schema and lookup of its columns *)

Lemma nodup_length_le (l : list string) :
  (List.length (nodup string_dec l) <= List.length l)%nat.
Proof.
  induction l as [| a l IH]; simpl; [lia |].
  destruct (in_dec string_dec a l); simpl; lia.
Qed.

Lemma nodup_length_NoDup (l : list string) :
  List.length (nodup string_dec l) = List.length l -> NoDup l.
Proof.
  induction l as [| a l IH]; simpl; [constructor |].
  destruct (in_dec string_dec a l) as [Hin | Hnotin]; simpl; intros Hlen.
  - pose proof (nodup_length_le l); lia.
  - constructor; [exact Hnotin | apply IH; lia].
Qed.

Lemma schema_init_inv (columns : list Column.t) (schema : Schema.t) :
  Schema.init columns = Ok schema ->
  columns <> []
  /\ NoDup (List.map (fun col => PyStr.lower (Column.name col)) columns)
  /\ schema = Schema.mk columns (Schema.build_index columns).
Proof.
  unfold Schema.init, PyStr.distinct.
  destruct columns as [| c columns]; [discriminate |].
  destruct (Nat.eqb _ _) eqn:Hlen; simpl; [| discriminate].
  intros Heq; injection Heq as <-.
  apply Nat.eqb_eq in Hlen. symmetry in Hlen.
  repeat split; [discriminate | exact (nodup_length_NoDup _ Hlen)].
Qed.

(** X4. The constructor of [Schema] accepts exactly the non-empty column
    lists whose lower-cased names are pairwise distinct: it raises
    [ValueError] on the empty list and on a list with two names equal up
    to case, and otherwise stores the columns as given. *)
Theorem X4_schema_init (columns : list Column.t) :
  let names := List.map (fun col => PyStr.lower (Column.name col)) columns in
  (columns = [] ->
   Schema.init columns = raise ValueError "Schema must have at least one column")
  /\ (columns <> [] -> ~ NoDup names ->
      Schema.init columns = raise ValueError "Duplicate column names are not allowed")
  /\ (columns <> [] -> NoDup names ->
      exists schema,
        Schema.init columns = Ok schema /\ Schema.columns schema = columns)
  /\ (forall schema, Schema.init columns = Ok schema ->
      columns <> [] /\ NoDup names /\ Schema.columns schema = columns).
Proof.
  intros names. repeat split.
  - intros ->; reflexivity.
  - intros Hne Hdup. unfold Schema.init, PyStr.distinct. fold names.
    destruct columns as [| c columns]; [contradiction |].
    destruct (Nat.eqb _ _) eqn:Hlen; [| reflexivity].
    apply Nat.eqb_eq in Hlen. symmetry in Hlen.
    elim Hdup. exact (nodup_length_NoDup _ Hlen).
  - intros Hne Hnodup. eexists. split; [apply schema_init_valid; assumption |].
    reflexivity.
  - destruct (schema_init_inv _ _ H) as [Hne _]; exact Hne.
  - destruct (schema_init_inv _ _ H) as [_ [Hnodup _]]; exact Hnodup.
  - destruct (schema_init_inv _ _ H) as [_ [_ ->]]; reflexivity.
Qed.

Lemma X4_schema_init_witness :
  Schema.init [Fixtures.id_column; Column.mk "ID" "FLOAT" true None]
  = raise ValueError "Duplicate column names are not allowed".
Proof.
  apply (proj1 (proj2 (X4_schema_init
                         [Fixtures.id_column; Column.mk "ID" "FLOAT" true None]))).
  - discriminate.
  - intros Hnodup. inversion Hnodup as [| ? ? Hnotin _]; subst.
    apply Hnotin; simpl; auto.
Defined.

Lemma dict_get_set_other {V : Type} (k k' : string) (v : V) (d : Dict.t V) :
  k' <> k -> Dict.get k (Dict.set k' v d) = Dict.get k d.
Proof.
  intros Hne. induction d as [| [k0 v0] d IH]; simpl.
  - destruct (String.eqb k' k) eqn:Hk; [apply String.eqb_eq in Hk; contradiction | reflexivity].
  - destruct (String.eqb k0 k') eqn:Hk0; simpl.
    + apply String.eqb_eq in Hk0; subst k0.
      destruct (String.eqb k' k) eqn:Hk; [apply String.eqb_eq in Hk; contradiction | reflexivity].
    + destruct (String.eqb k0 k); [reflexivity | exact IH].
Qed.

Lemma dict_set_new {V : Type} (k : string) (v : V) (d : Dict.t V) :
  Dict.get k d = None -> Dict.set k v d = (d ++ [(k, v)])%list.
Proof.
  induction d as [| [k0 v0] d IH]; simpl; [reflexivity |].
  destruct (String.eqb k0 k); [discriminate |].
  intros Hget; rewrite (IH Hget); reflexivity.
Qed.

Lemma dict_get_app {V : Type} (k : string) (d1 d2 : Dict.t V) :
  Dict.get k (d1 ++ d2)%list
  = match Dict.get k d1 with Some v => Some v | None => Dict.get k d2 end.
Proof.
  induction d1 as [| [k0 v0] d1 IH]; simpl; [reflexivity |].
  destruct (String.eqb k0 k); [reflexivity | exact IH].
Qed.

Lemma dict_get_None {V : Type} (k : string) (d : Dict.t V) :
  Dict.get k d = None <-> ~ In k (Dict.keys d).
Proof.
  induction d as [| [k0 v0] d IH]; simpl; [tauto |].
  destruct (String.eqb k0 k) eqn:Hk.
  - apply String.eqb_eq in Hk. split; [discriminate | tauto].
  - apply String.eqb_neq in Hk. rewrite IH. tauto.
Qed.

Lemma dict_get_In {V : Type} (k : string) (v : V) (d : Dict.t V) :
  NoDup (Dict.keys d) -> (Dict.get k d = Some v <-> In (k, v) d).
Proof.
  induction d as [| [k0 v0] d IH]; simpl; intros Hnodup.
  - split; [discriminate | tauto].
  - inversion Hnodup as [| ? ? Hnotin Hrest]; subst.
    destruct (String.eqb k0 k) eqn:Hk.
    + apply String.eqb_eq in Hk; subst k0. split.
      * intros Heq; injection Heq as ->; auto.
      * intros [Heq | Hin]; [injection Heq as ->; reflexivity |].
        elim Hnotin. apply (in_map fst) in Hin. exact Hin.
    + apply String.eqb_neq in Hk. rewrite (IH Hrest). split; [auto |].
      intros [Heq | Hin]; [injection Heq as -> _; contradiction | exact Hin].
Qed.

Lemma build_from (l : list (nat * Column.t)) (d : Dict.t nat) :
  NoDup (List.map (fun ic => fst (index_entry ic)) l) ->
  (forall ic, In ic l -> Dict.get (fst (index_entry ic)) d = None) ->
  fold_left
    (fun d ic => Dict.set (PyStr.lower (Column.name (snd ic))) (fst ic) d) l d
  = (d ++ List.map index_entry l)%list.
Proof.
  revert d. induction l as [| ic l IH]; intros d Hnodup Hfresh; simpl.
  - rewrite app_nil_r; reflexivity.
  - inversion Hnodup as [| ? ? Hnotin Hrest]; subst.
    rewrite (dict_set_new _ _ _ (Hfresh ic (or_introl eq_refl))).
    rewrite IH; [rewrite <- app_assoc; reflexivity | exact Hrest |].
    intros ic' Hin. rewrite dict_get_app, (Hfresh ic' (or_intror Hin)); simpl.
    destruct (String.eqb _ _) eqn:Hk; [| reflexivity].
    apply String.eqb_eq in Hk. elim Hnotin.
    simpl in Hk. rewrite Hk.
    exact (in_map (fun ic => fst (index_entry ic)) _ _ Hin).
Qed.

Lemma enumerate_names (columns : list Column.t) :
  List.map (fun ic => fst (index_entry ic)) (enumerate columns)
  = List.map (fun col => PyStr.lower (Column.name col)) columns.
Proof.
  unfold enumerate. generalize 0%nat.
  induction columns as [| c columns IH]; intros a; simpl; [reflexivity |].
  rewrite IH; reflexivity.
Qed.

Lemma in_combine_seq {A : Type} (l : list A) (a i : nat) (x : A) :
  In (i, x) (combine (seq a (List.length l)) l)
  <-> (a <= i)%nat /\ nth_error l (i - a) = Some x.
Proof.
  revert a. induction l as [| y l IH]; intros a; simpl.
  - split; [tauto |]. intros [_ Hnth]. destruct (i - a)%nat; discriminate.
  - rewrite IH. split.
    + intros [Heq | [Hle Hnth]].
      * injection Heq as -> ->. rewrite Nat.sub_diag; auto.
      * split; [lia |]. replace (i - a)%nat with (S (i - S a)) by lia. exact Hnth.
    + intros [Hle Hnth]. destruct (Nat.eq_dec a i) as [-> | Hne].
      * rewrite Nat.sub_diag in Hnth. injection Hnth as ->; auto.
      * right. split; [lia |].
        replace (i - a)%nat with (S (i - S a)) in Hnth by lia. exact Hnth.
Qed.

Lemma in_enumerate {A : Type} (l : list A) (i : nat) (x : A) :
  In (i, x) (enumerate l) <-> nth_error l i = Some x.
Proof.
  unfold enumerate. rewrite in_combine_seq, Nat.sub_0_r.
  split; [tauto | split; [lia | assumption]].
Qed.

(** The index of a schema that its constructor has built. *)
Lemma build_index_get (columns : list Column.t) (k : string) (i : nat) :
  NoDup (List.map (fun col => PyStr.lower (Column.name col)) columns) ->
  (Dict.get k (Schema.build_index columns) = Some i
   <-> exists c, nth_error columns i = Some c /\ PyStr.lower (Column.name c) = k).
Proof.
  intros Hnodup. unfold Schema.build_index.
  rewrite build_from; [| rewrite enumerate_names; exact Hnodup | reflexivity].
  simpl. rewrite dict_get_In.
  - rewrite in_map_iff. split.
    + intros [[j c] [Heq Hin]]. injection Heq as <- ->.
      exists c. split; [apply in_enumerate; exact Hin | reflexivity].
    + intros [c [Hnth <-]]. exists (i, c).
      split; [reflexivity | apply in_enumerate; exact Hnth].
  - unfold Dict.keys. rewrite map_map.
    rewrite <- enumerate_names in Hnodup. exact Hnodup.
Qed.

(** X5. In a schema that its constructor has built, [get_column_index]
    ignores the case of the name: it returns [i] exactly when the column
    at position [i] has that name up to case, and raises [ValidationError]
    naming the column when no column has it. *)
Theorem X5_get_column_index (columns : list Column.t) (schema : Schema.t)
    (name : string) :
  Schema.init columns = Ok schema ->
  (forall i,
      Schema.get_column_index schema name = Ok i
      <-> exists c, nth_error columns i = Some c
                    /\ PyStr.lower (Column.name c) = PyStr.lower name)
  /\ ((forall c, In c columns ->
                 PyStr.lower (Column.name c) <> PyStr.lower name) ->
      Schema.get_column_index schema name
      = raise ValidationError ("Column '" ++ name ++ "' not found in schema")).
Proof.
  intros Hinit. destruct (schema_init_inv _ _ Hinit) as [_ [Hnodup ->]].
  unfold Schema.get_column_index; simpl. split.
  - intros i. rewrite <- (build_index_get columns _ i Hnodup).
    destruct (Dict.get _ _) as [j |]; split; intros Heq;
      try discriminate Heq; injection Heq as ->; reflexivity.
  - intros Habsent.
    destruct (Dict.get _ _) as [j |] eqn:Hget; [| reflexivity].
    apply (build_index_get columns _ j Hnodup) in Hget.
    destruct Hget as [c [Hnth Hname]].
    elim (Habsent c (nth_error_In _ _ Hnth) Hname).
Qed.

Lemma X5_get_column_index_witness :
  Schema.get_column_index Fixtures.users_schema "NAME" = Ok 1%nat.
Proof.
  apply (proj1 (X5_get_column_index
                  [Fixtures.id_column; Fixtures.name_column; Fixtures.age_column]
                  Fixtures.users_schema "NAME" eq_refl) 1%nat).
  exists Fixtures.name_column. split; reflexivity.
Defined.

(** ** Invariants of a table *)

Lemma row_eta (row : Row.t) : Row.init (Row.to_list row) = row.
Proof. destruct row; reflexivity. Qed.


Lemma issubclass_Exception (c : ExcClass) : issubclass c Exception = true.
Proof. destruct c; reflexivity. Qed.

(** A clause [except Exception] catches every exception, in a module that
    does not rebind the name. *)
Lemma handle_Exception {A : Type} (globals : namespace)
    (body : Exc -> result A) (rest : list (clause A)) (e : Exc) :
  ns_find globals "Exception" = None ->
  handle globals ((["Exception"], body) :: rest) e = body e.
Proof.
  intros Hfree. unfold handle, load_names, load_name. rewrite Hfree; simpl.
  unfold isinstance; simpl. rewrite issubclass_Exception; reflexivity.
Qed.

(** What [insert_values] does to the table, by cases. *)
Lemma insert_values_cases `{PyBuiltins} (values : list Value) (table : Table.t) :
  (exists converted,
      Schema.validate_and_convert_row (Table.schema table) values = Ok converted
      /\ Table.insert_values values table
         = (Ok tt,
            Table.mk (Table.name table) (Table.schema table)
              (Table.rows table ++ [Row.init converted])%list
              (Table.row_count table + 1)))
  \/ (exists e,
         Table.insert_values values table = (Raise e, table)
         /\ exc_class e = ValidationError).
Proof.
  destruct (Schema.validate_and_convert_row (Table.schema table) values)
    as [converted | e] eqn:Hrow.
  - left. exists converted. split; [reflexivity |].
    exact (insert_values_converted _ _ _ Hrow).
  - right.
    unfold Table.insert_values, Table.insert, bindM, get, lift, throw; simpl.
    destruct (negb _).
    + eexists; split; reflexivity.
    + rewrite Hrow. exists e. split; [reflexivity |].
      unfold Schema.validate_and_convert_row in Hrow.
      destruct (_ <- Schema.convert_row _ _ ;; _) as [cs | e0];
        [discriminate Hrow |].
      unfold try_except in Hrow.
      rewrite handle_Exception in Hrow by reflexivity.
      injection Hrow as <-; reflexivity.
Qed.




(** ** The description of a table *)

Lemma insert_each_stored `{PyBuiltins} (rows : list Row.t) (table : Table.t) :
  Forall (stored_row (Table.schema table)) rows ->
  Table.insert_each (List.map Row.to_list rows) table
  = (Ok tt,
     Table.mk (Table.name table) (Table.schema table)
       (Table.rows table ++ rows)%list
       (Table.row_count table + len rows)).
Proof.
  revert table. induction rows as [| row rows IH]; intros table Hall; simpl.
  - rewrite app_nil_r. unfold len; simpl. rewrite Z.add_0_r.
    destruct table; reflexivity.
  - inversion Hall as [| ? ? Hrow Hrest]; subst.
    unfold bindM. unfold Row.to_list at 1.
    rewrite (insert_values_converted _ _ _ Hrow).
    rewrite IH; [| exact Hrest]. simpl.
    change (Row.init (Row.values row)) with (Row.init (Row.to_list row)).
    rewrite row_eta, <- app_assoc; simpl.
    f_equal. f_equal. unfold len.
    change (List.length (row :: rows)) with (S (List.length rows)). lia.
Qed.

Lemma schema_from_dict_to_dict (schema : Schema.t) :
  Forall constructed (Schema.columns schema) ->
  Schema.init (Schema.columns schema) = Ok schema ->
  Schema.from_dict (Schema.to_dict schema) = Ok schema.
Proof.
  intros Hcols Hinit. unfold Schema.from_dict, Schema.to_dict; simpl.
  rewrite (from_dict_columns _ Hcols); simpl. exact Hinit.
Qed.

(** X7. A consistent table with a non-empty name, whose schema was built
    by the constructors, is rebuilt by [from_dict] from its description:
    the same name, schema, rows in the same order, and row count. *)
Theorem X7_table_round_trip `{PyBuiltins} (table : Table.t) :
  consistent table ->
  Table.name table <> "" ->
  Forall constructed (Schema.columns (Table.schema table)) ->
  Schema.init (Schema.columns (Table.schema table)) = Ok (Table.schema table) ->
  Table.from_dict (Table.to_dict table) = Ok table.
Proof.
  intros [Hcount Hrows] Hname Hcols Hinit.
  unfold Table.from_dict, Table.to_dict; simpl.
  rewrite (schema_from_dict_to_dict _ Hcols Hinit); simpl.
  unfold Table.init.
  apply String.eqb_neq in Hname. rewrite Hname; simpl.
  rewrite insert_each_stored; [| exact Hrows]. simpl.
  rewrite <- Hcount. destruct table; reflexivity.
Qed.

Lemma X7_table_round_trip_witness :
  let table :=
    Table.mk "users" Fixtures.users_schema
      [Row.mk [VInt 1; VStr "Alice"; VInt 25]; Row.mk [VInt 2; VStr "Bob"; VNone]] 2 in
  Table.from_dict (Table.to_dict table) = Ok table.
Proof.
  intros table. apply (X7_table_round_trip table).
  - split; [reflexivity | repeat constructor].
  - discriminate.
  - repeat constructor.
    + exists "id", "INT", true, None; reflexivity.
    + exists "name", "VARCHAR", true, (Some 50); reflexivity.
    + exists "age", "INT", true, None; reflexivity.
  - reflexivity.
Defined.

(** ** Reading and writing the values of a row *)

Lemma replace_length (l : list Value) (i : nat) (v : Value) :
  List.length (Row.replace l i v) = List.length l.
Proof.
  revert i. induction l as [| x l IH]; intros [| i]; simpl; auto.
Qed.

Lemma nth_error_replace_same (l : list Value) (i : nat) (v : Value) :
  (i < List.length l)%nat -> nth_error (Row.replace l i v) i = Some v.
Proof.
  revert i. induction l as [| x l IH]; intros [| i]; simpl; intros Hlt;
    try lia; [reflexivity | apply IH; lia].
Qed.

Lemma nth_error_replace_other (l : list Value) (i j : nat) (v : Value) :
  j <> i -> nth_error (Row.replace l i v) j = nth_error l j.
Proof.
  revert i j. induction l as [| x l IH]; intros [| i] [| j] Hne; simpl; auto;
    contradiction.
Qed.

Lemma get_value_in_range (row : Row.t) (i : Z) :
  0 <= i < len (Row.values row) ->
  Row.get_value row i
  = match nth_error (Row.values row) (Z.to_nat i) with
    | Some v => Ok v
    | None => raise IndexError "list index out of range"
    end.
Proof.
  intros [Hlo Hhi]. unfold Row.get_value, Row.out_of_range, Row.index.
  rewrite !(proj2 (Z.ltb_ge i 0) Hlo), !(proj2 (Z.leb_gt _ _) Hhi).
  reflexivity.
Qed.

Lemma get_value_out_of_range (row : Row.t) (i : Z) :
  ~ (0 <= i < len (Row.values row)) ->
  Row.out_of_range row i = true.
Proof.
  intros Hout. unfold Row.out_of_range.
  destruct (Z.ltb i 0) eqn:Hlo; [reflexivity |]. simpl.
  apply Z.ltb_ge in Hlo. apply Z.leb_le. lia.
Qed.

(** X8. [set_value] at an index within bounds stores the value: reading
    the index gives it back, every other index reads as before and the
    row keeps its length. At an index out of bounds (negative or not
    below the length) both [set_value] and [get_value] raise [IndexError]
    and the row is unchanged. *)
Theorem X8_row_set_then_get (row : Row.t) (i : Z) (v : Value) :
  (0 <= i < len (Row.values row) ->
   exists row',
     Row.set_value i v row = (Ok tt, row')
     /\ Row.get_value row' i = Ok v
     /\ len (Row.values row') = len (Row.values row)
     /\ forall j, j <> i -> Row.get_value row' j = Row.get_value row j)
  /\ (~ (0 <= i < len (Row.values row)) ->
      Row.set_value i v row
      = (raise IndexError ("Column index " ++ PyStr.of_Z i ++ " out of range"), row)
      /\ Row.get_value row i
         = raise IndexError ("Column index " ++ PyStr.of_Z i ++ " out of range")).
Proof.
  split.
  - intros Hin.
    exists (Row.mk (Row.replace (Row.values row) (Z.to_nat i) v)).
    assert (Hlen : len (Row.replace (Row.values row) (Z.to_nat i) v)
                   = len (Row.values row)).
    { unfold len. rewrite replace_length; reflexivity. }
    split; [| split; [| split]].
    + unfold Row.set_value, bindM, get, modify, Row.out_of_range.
      destruct Hin as [Hlo Hhi].
      rewrite (proj2 (Z.ltb_ge i 0) Hlo), (proj2 (Z.leb_gt _ _) Hhi); reflexivity.
    + rewrite get_value_in_range; simpl; [| rewrite Hlen; exact Hin].
      rewrite nth_error_replace_same; [reflexivity |].
      unfold len in Hin. lia.
    + exact Hlen.
    + intros j Hne.
      destruct (Z_lt_dec j 0) as [Hneg | Hnonneg];
        [| destruct (Z_lt_dec j (len (Row.values row))) as [Hlt | Hge]].
      * unfold Row.get_value.
        rewrite !get_value_out_of_range; simpl; try rewrite Hlen; auto; lia.
      * rewrite !get_value_in_range; simpl; try rewrite Hlen; try lia.
        rewrite nth_error_replace_other; [reflexivity |].
        intros Heq. apply Hne. apply Z2Nat.inj; lia.
      * unfold Row.get_value.
        rewrite !get_value_out_of_range; simpl; try rewrite Hlen; auto; lia.
  - intros Hout. pose proof (get_value_out_of_range row i Hout) as Hrange.
    unfold Row.set_value, Row.get_value, bindM, get, throw.
    rewrite Hrange; split; reflexivity.
Qed.

Lemma X8_row_set_then_get_witness :
  exists row',
    Row.set_value 1 (VStr "Bob") (Row.mk [VInt 1; VStr "Alice"; VInt 25])
    = (Ok tt, row')
    /\ Row.get_value row' 1 = Ok (VStr "Bob").
Proof.
  destruct (proj1 (X8_row_set_then_get (Row.mk [VInt 1; VStr "Alice"; VInt 25])
                     1 (VStr "Bob")))
    as [row' [Hset [Hget _]]].
  - unfold len; simpl; lia.
  - exists row'. split; [exact Hset | exact Hget].
Defined.

(** * Further properties of the storage registry *)

Lemma blank_nonempty (name : string) :
  StorageManager.blank name = false -> String.eqb name "" = false.
Proof.
  unfold StorageManager.blank. intros Hblank.
  apply orb_false_iff in Hblank; tauto.
Qed.

Lemma get_table_missing (name : string) (st : StorageManager.t) :
  StorageManager.blank name = false ->
  Dict.get (PyStr.lower name) (StorageManager.tables st) = None ->
  exists e,
    StorageManager.get_table name st = (Raise e, st)
    /\ exc_class e = TableNotFoundError.
Proof.
  intros Hblank Hget. unfold StorageManager.get_table, bindM, get, throw.
  rewrite Hblank, Hget.
  destruct (Dict.keys _); eexists; split; reflexivity.
Qed.

Lemma create_table_ok (name : string) (schema : Schema.t)
    (st : StorageManager.t) :
  StorageManager.blank name = false ->
  PyStr.isalnum (PyStr.remove "-" (PyStr.remove "_" name)) = true ->
  Schema.columns schema <> [] ->
  Dict.get (PyStr.lower name) (StorageManager.tables st) = None ->
  StorageManager.create_table name schema st
  = (Ok tt,
     StorageManager.mk
       (StorageManager.tables st
          ++ [(PyStr.lower name, Table.mk name schema [] 0)])%list).
Proof.
  intros Hblank Hchars Hcols Hfree. unfold StorageManager.create_table.
  rewrite Hblank, Hchars; simpl.
  destruct (Schema.columns schema) as [| c cols] eqn:Hc; [contradiction |].
  change (Z.eqb (len (c :: cols)) 0) with false; simpl.
  unfold bindM, get, Dict.mem. rewrite Hfree.
  unfold try_exceptM, bindM, lift, modify, Table.init.
  rewrite (blank_nonempty _ Hblank); simpl.
  rewrite (dict_set_new _ _ _ Hfree); reflexivity.
Qed.

Lemma create_table_inv (name : string) (schema : Schema.t)
    (st st' : StorageManager.t) :
  StorageManager.create_table name schema st = (Ok tt, st') ->
  StorageManager.blank name = false
  /\ PyStr.isalnum (PyStr.remove "-" (PyStr.remove "_" name)) = true
  /\ Schema.columns schema <> []
  /\ Dict.get (PyStr.lower name) (StorageManager.tables st) = None.
Proof.
  unfold StorageManager.create_table.
  destruct (StorageManager.blank name); [discriminate |].
  destruct (PyStr.isalnum _); simpl; [| discriminate].
  destruct (Z.eqb _ _); [discriminate |].
  destruct (Schema.columns schema) as [| c cols]; [discriminate |].
  unfold bindM, get, Dict.mem.
  destruct (Dict.get _ _); [discriminate |].
  intros _. repeat split. discriminate.
Qed.

(** X9. After a successful [create_table], the table is found under its
    name in any letter case and is empty, every table that was registered
    is still found, unchanged, and [list_tables] lists the new name after
    the others. *)
Theorem X9_create_then_get (name : string) (schema : Schema.t)
    (st st' : StorageManager.t) :
  StorageManager.create_table name schema st = (Ok tt, st') ->
  (forall name',
      PyStr.lower name' = PyStr.lower name ->
      StorageManager.blank name' = false ->
      StorageManager.get_table name' st' = (Ok (Table.mk name schema [] 0), st'))
  /\ (forall other table,
         StorageManager.get_table other st = (Ok table, st) ->
         StorageManager.get_table other st' = (Ok table, st'))
  /\ StorageManager.list_tables st' = (StorageManager.list_tables st ++ [name])%list.
Proof.
  intros Hcreate.
  destruct (create_table_inv _ _ _ _ Hcreate) as [Hblank [Hchars [Hcols Hfree]]].
  rewrite (create_table_ok _ _ _ Hblank Hchars Hcols Hfree) in Hcreate.
  injection Hcreate as <-. split; [| split].
  - intros name' Hsame Hblank'. apply get_table_found; [exact Hblank' |].
    simpl. rewrite Hsame, dict_get_app, Hfree; simpl.
    rewrite String.eqb_refl; reflexivity.
  - intros other table Hget.
    destruct (get_table_inv _ _ _ _ Hget) as [Hblank' [Hfound _]].
    apply get_table_found; [exact Hblank' |].
    simpl. rewrite dict_get_app, Hfound; reflexivity.
  - unfold StorageManager.list_tables, Dict.values; simpl.
    rewrite !map_app; reflexivity.
Qed.

Lemma X9_create_then_get_witness :
  exists st',
    StorageManager.create_table "Orders" Fixtures.t_schema Fixtures.with_users
    = (Ok tt, st')
    /\ StorageManager.get_table "ORDERS" st'
       = (Ok (Table.mk "Orders" Fixtures.t_schema [] 0), st')
    /\ StorageManager.list_tables st' = ["users"; "Orders"].
Proof.
  exists (snd (StorageManager.create_table "Orders" Fixtures.t_schema
                 Fixtures.with_users)).
  split; [reflexivity |].
  destruct (X9_create_then_get "Orders" Fixtures.t_schema Fixtures.with_users
              (snd (StorageManager.create_table "Orders" Fixtures.t_schema
                      Fixtures.with_users))
              eq_refl) as [Hget [_ Hlist]].
  split; [apply Hget; reflexivity | exact Hlist].
Defined.

(** X10. [create_table] never replaces a table: when a table is registered
    under the name in some letter case, the call raises and the registry
    is unchanged; for a well-formed name and a schema with columns the
    error is [StorageError] saying that the table already exists. *)
Theorem X10_create_existing (name : string) (schema : Schema.t)
    (st : StorageManager.t) :
  StorageManager.table_exists name st = true ->
  (exists e, StorageManager.create_table name schema st = (Raise e, st))
  /\ (StorageManager.blank name = false ->
      PyStr.isalnum (PyStr.remove "-" (PyStr.remove "_" name)) = true ->
      Schema.columns schema <> [] ->
      StorageManager.create_table name schema st
      = (raise StorageError ("Table '" ++ name ++ "' already exists"), st)).
Proof.
  unfold StorageManager.table_exists. intros Hexists.
  assert (Hvalid :
            StorageManager.blank name = false ->
            PyStr.isalnum (PyStr.remove "-" (PyStr.remove "_" name)) = true ->
            Schema.columns schema <> [] ->
            StorageManager.create_table name schema st
            = (raise StorageError ("Table '" ++ name ++ "' already exists"), st)).
  { intros Hblank Hchars Hcols. unfold StorageManager.create_table.
    rewrite Hblank, Hchars; simpl.
    destruct (Schema.columns schema) as [| c cols]; [contradiction |].
    change (Z.eqb (len (c :: cols)) 0) with false; simpl.
    unfold bindM, get. rewrite Hexists; reflexivity. }
  split; [| exact Hvalid].
  destruct (StorageManager.blank name) eqn:Hblank.
  { unfold StorageManager.create_table; rewrite Hblank; eexists; reflexivity. }
  destruct (PyStr.isalnum (PyStr.remove "-" (PyStr.remove "_" name))) eqn:Hchars.
  2:{ unfold StorageManager.create_table; rewrite Hblank, Hchars;
      eexists; reflexivity. }
  destruct (Schema.columns schema) as [| c cols] eqn:Hcols.
  { unfold StorageManager.create_table; rewrite Hblank, Hchars, Hcols;
    eexists; reflexivity. }
  eexists. apply Hvalid; auto. discriminate.
Qed.

Lemma X10_create_existing_witness :
  StorageManager.create_table "USERS" Fixtures.t_schema Fixtures.with_users
  = (raise StorageError "Table 'USERS' already exists", Fixtures.with_users).
Proof.
  apply (proj2 (X10_create_existing "USERS" Fixtures.t_schema Fixtures.with_users
                  eq_refl)); [reflexivity | reflexivity | discriminate].
Defined.

Lemma dict_get_del {V : Type} (k : string) (d : Dict.t V) :
  Dict.get k (Dict.del k d) = None.
Proof.
  induction d as [| [k0 v0] d IH]; simpl; [reflexivity |].
  destruct (String.eqb k0 k) eqn:Hk; [exact IH |].
  simpl; rewrite Hk; exact IH.
Qed.

Lemma dict_get_del_other {V : Type} (k k' : string) (d : Dict.t V) :
  k' <> k -> Dict.get k (Dict.del k' d) = Dict.get k d.
Proof.
  intros Hne. induction d as [| [k0 v0] d IH]; simpl; [reflexivity |].
  destruct (String.eqb k0 k') eqn:Hk0.
  - apply String.eqb_eq in Hk0; subst k0.
    destruct (String.eqb k' k) eqn:Hk; [apply String.eqb_eq in Hk; contradiction |].
    exact IH.
  - simpl. destruct (String.eqb k0 k); [reflexivity | exact IH].
Qed.

(** X11. [drop_table] removes exactly the named table: afterwards the
    table does not exist and [get_table] raises [TableNotFoundError],
    while the tables under other names are found as before. Dropping a
    table that does not exist raises [TableNotFoundError] and leaves the
    registry unchanged. *)
Theorem X11_drop_table (name : string) (st : StorageManager.t) :
  (StorageManager.table_exists name st = true ->
   exists st',
     StorageManager.drop_table name st = (Ok tt, st')
     /\ StorageManager.table_exists name st' = false
     /\ (StorageManager.blank name = false ->
         exists e, StorageManager.get_table name st' = (Raise e, st')
                   /\ exc_class e = TableNotFoundError)
     /\ (forall other table,
            PyStr.lower other <> PyStr.lower name ->
            StorageManager.get_table other st = (Ok table, st) ->
            StorageManager.get_table other st' = (Ok table, st')))
  /\ (StorageManager.table_exists name st = false ->
      StorageManager.drop_table name st
      = (raise TableNotFoundError ("Table '" ++ name ++ "' does not exist"), st)).
Proof.
  unfold StorageManager.table_exists, StorageManager.drop_table, bindM, get.
  split; intros Hexists; rewrite Hexists; simpl; [| reflexivity].
  eexists. split; [reflexivity |]. split; [| split].
  - unfold Dict.mem; simpl. rewrite dict_get_del; reflexivity.
  - intros Hblank. apply get_table_missing; [exact Hblank |].
    simpl. apply dict_get_del.
  - intros other table Hne Hget.
    destruct (get_table_inv _ _ _ _ Hget) as [Hblank [Hfound _]].
    apply get_table_found; [exact Hblank |].
    simpl. rewrite dict_get_del_other; [exact Hfound | congruence].
Qed.

Lemma X11_drop_table_witness :
  exists st',
    StorageManager.drop_table "Users" Fixtures.with_users = (Ok tt, st')
    /\ StorageManager.table_exists "users" st' = false.
Proof.
  destruct (proj1 (X11_drop_table "Users" Fixtures.with_users) eq_refl)
    as [st' [Hdrop [Hgone _]]].
  exists st'. split; [exact Hdrop | exact Hgone].
Defined.

Lemma dict_values_set {V W : Type} (f : V -> W) (k : string) (v v' : V)
    (d : Dict.t V) :
  Dict.get k d = Some v -> f v' = f v ->
  List.map f (Dict.values (Dict.set k v' d)) = List.map f (Dict.values d).
Proof.
  intros Hget Hf. unfold Dict.values.
  induction d as [| [k0 v0] d IH]; simpl in *; [discriminate |].
  destruct (String.eqb k0 k); simpl.
  - injection Hget as ->. rewrite Hf; reflexivity.
  - rewrite (IH Hget); reflexivity.
Qed.

(** X12. A successful [insert_values] on the registry appends the
    converted row to the named table and touches nothing else: a scan of
    the table yields its former rows followed by the new row, every table
    under another name is found unchanged, and the list of tables is the
    same. *)
Theorem X12_insert_values_frame `{PyBuiltins} (name : string)
    (values converted : list Value) (table : Table.t) (st : StorageManager.t) :
  StorageManager.get_table name st = (Ok table, st) ->
  Schema.validate_and_convert_row (Table.schema table) values = Ok converted ->
  values <> [] ->
  exists st',
    StorageManager.insert_values name values st = (Ok tt, st')
    /\ StorageManager.scan_table name st'
       = (Ok (Table.rows table ++ [Row.init converted])%list, st')
    /\ (forall other t,
           PyStr.lower other <> PyStr.lower name ->
           StorageManager.get_table other st = (Ok t, st) ->
           StorageManager.get_table other st' = (Ok t, st'))
    /\ StorageManager.list_tables st' = StorageManager.list_tables st.
Proof.
  intros Hget Hrow Hne.
  destruct (get_table_inv _ _ _ _ Hget) as [Hblank [Hfound _]].
  pose proof (insert_values_converted _ _ _ Hrow) as Hins.
  eexists. split;
    [exact (storage_insert_values_ok _ _ _ _ _ Hne Hget Hins) |].
  split; [| split].
  - unfold StorageManager.scan_table, bindM.
    rewrite (get_table_found name (StorageManager.mk (Dict.set _ _ _)) _ Hblank
               (dict_get_set _ _ _)).
    reflexivity.
  - intros other t Hother Hget'.
    destruct (get_table_inv _ _ _ _ Hget') as [Hblank' [Hfound' _]].
    apply get_table_found; [exact Hblank' |].
    simpl. rewrite dict_get_set_other; [exact Hfound' | congruence].
  - unfold StorageManager.list_tables; simpl.
    apply (dict_values_set Table.name _ _ _ _ Hfound); reflexivity.
Qed.

Lemma X12_insert_values_frame_witness :
  exists st',
    StorageManager.insert_values "USERS" [VBool true; VInt 7; VStr "30"]
      Fixtures.with_users
    = (Ok tt, st')
    /\ StorageManager.scan_table "USERS" st'
       = (Ok [Row.init [VInt 1; VStr "7"; VInt 30]], st').
Proof.
  destruct (X12_insert_values_frame "USERS" [VBool true; VInt 7; VStr "30"]
              [VInt 1; VStr "7"; VInt 30] Fixtures.users_table
              Fixtures.with_users)
    as [st' [Hins [Hscan _]]].
  - reflexivity.
  - vm_compute; reflexivity.
  - discriminate.
  - exists st'. split; [exact Hins | exact Hscan].
Defined.

(** X13. [insert_values] on the registry keeps the kind of its errors and
    changes nothing when it raises: an empty value list gives
    [ValidationError], a table that does not exist gives
    [TableNotFoundError], and a row that the schema rejects gives
    [ValidationError]. *)
Theorem X13_insert_values_errors `{PyBuiltins} (name : string)
    (values : list Value) (st : StorageManager.t) :
  (values = [] ->
   StorageManager.insert_values name values st
   = (raise ValidationError "Cannot insert empty values", st))
  /\ (values <> [] -> StorageManager.blank name = false ->
      StorageManager.table_exists name st = false ->
      exists e,
        StorageManager.insert_values name values st = (Raise e, st)
        /\ exc_class e = TableNotFoundError)
  /\ (forall table e,
         values <> [] ->
         StorageManager.get_table name st = (Ok table, st) ->
         Schema.validate_and_convert_row (Table.schema table) values = Raise e ->
         exists e',
           StorageManager.insert_values name values st = (Raise e', st)
           /\ exc_class e' = ValidationError).
Proof.
  split; [| split].
  - intros ->; reflexivity.
  - intros Hne Hblank Hmissing.
    unfold StorageManager.table_exists, Dict.mem in Hmissing.
    destruct (Dict.get _ _) eqn:Hget; [discriminate Hmissing |].
    destruct (get_table_missing _ _ Hblank Hget) as [e [Hrun Hclass]].
    exists e. split; [| exact Hclass].
    unfold StorageManager.insert_values.
    destruct values as [| v values]; [contradiction |].
    unfold try_exceptM, bindM. rewrite Hrun.
    unfold try_except, handle; simpl. unfold isinstance; simpl.
    rewrite Hclass; reflexivity.
  - intros table e Hne Hget Hrow.
    destruct (get_table_inv _ _ _ _ Hget) as [_ [Hfound _]].
    destruct (insert_values_cases values table)
      as [[converted [Hok _]] | [e' [Hins Hclass]]].
    { rewrite Hok in Hrow; discriminate Hrow. }
    exists e'. split; [| exact Hclass].
    unfold StorageManager.insert_values.
    destruct values as [| v values]; [contradiction |].
    unfold try_exceptM, bindM. rewrite Hget.
    unfold StorageManager.on_table. rewrite Hfound, Hins.
    rewrite (dict_set_get _ _ _ Hfound).
    unfold try_except, handle; simpl. unfold isinstance; simpl.
    rewrite Hclass; simpl. destruct st; reflexivity.
Qed.

Lemma X13_insert_values_errors_witness :
  exists e,
    StorageManager.insert_values "ghost" [VInt 1] Fixtures.with_users
    = (Raise e, Fixtures.with_users)
    /\ exc_class e = TableNotFoundError.
Proof.
  apply (proj1 (proj2 (X13_insert_values_errors "ghost" [VInt 1]
                         Fixtures.with_users)));
    [discriminate | reflexivity | reflexivity].
Defined.



(** * Further properties of the operations *)

(** ** WHERE clauses and the filter operation *)

Lemma order_raises_TypeError (sym : string) (holds : comparison -> bool)
    (a b : Value) (e : Exc) :
  Py.order sym holds a b = Raise e -> exc_class e = TypeError.
Proof.
  unfold Py.order. destruct (Py.classify a b); try discriminate;
    intros Heq; injection Heq as <-; reflexivity.
Qed.

Lemma evaluate_try_raises_TypeError (w : WhereClause.t) (v : Value) (e : Exc) :
  WhereClause.evaluate_try w v = Raise e -> exc_class e = TypeError.
Proof.
  unfold WhereClause.evaluate_try, Py.gt, Py.lt, Py.ge, Py.le.
  repeat match goal with
         | |- context [if ?c then _ else _] => destruct c
         end; try discriminate;
    match goal with
    | |- context [Py.order ?s ?h ?a ?b] =>
        destruct (Py.order s h a b) eqn:Horder; simpl; try discriminate;
        intros Heq; injection Heq as <-;
        exact (order_raises_TypeError _ _ _ _ _ Horder)
    end.
Qed.

Lemma evaluate_returns (w : WhereClause.t) (v : Value) :
  exists b, WhereClause.evaluate w v = Ok b.
Proof.
  unfold WhereClause.evaluate.
  destruct (is_None v || is_None (WhereClause.value w)).
  - destruct (PyStr.mem _ _); eauto.
  - destruct (WhereClause.evaluate_try w v) as [[b |] | e] eqn:Htry; simpl; eauto.
    unfold isinstance; simpl.
    rewrite (evaluate_try_raises_TypeError _ _ _ Htry); simpl. eauto.
Qed.



Lemma filter_rows_filter (w : WhereClause.t) (i : nat) (rows : list Row.t) :
  Forall (reaches i) rows ->
  FilterOperation.filter_rows w i rows = Ok (List.filter (satisfies w i) rows).
Proof.
  induction 1 as [| row rows Hrow _ IH]; simpl; [reflexivity |].
  unfold satisfies, getitem.
  destruct (nth_error (Row.values row) i) as [v |] eqn:Hnth.
  - simpl. destruct (evaluate_returns w v) as [b ->]; simpl.
    rewrite IH; simpl. destruct b; reflexivity.
  - apply nth_error_None in Hnth. unfold reaches in Hrow. lia.
Qed.

Lemma filter_filter {A : Type} (p : A -> bool) (l : list A) :
  List.filter p (List.filter p l) = List.filter p l.
Proof.
  induction l as [| a l IH]; simpl; [reflexivity |].
  destruct (p a) eqn:Hp; simpl; [rewrite Hp, IH |]; auto.
Qed.

Lemma Forall_filter_keeps {A : Type} (P : A -> Prop) (p : A -> bool)
    (l : list A) :
  Forall P l -> Forall P (List.filter p l).
Proof.
  induction 1 as [| a l Ha _ IH]; simpl; [constructor |].
  destruct (p a); [constructor |]; assumption.
Qed.

Lemma resolve_column (schema : Schema.t) (column table_name : string) (i : nat) :
  Schema.get_column_index schema column = Ok i ->
  try_except query_processor_globals (Schema.get_column_index schema column)
    [(["ValueError"; "ValidationError"],
      fun _ =>
        raise ColumnNotFoundError
          ("Column '" ++ column ++ "' not found in table '" ++ table_name ++ "'"))]
  = Ok i.
Proof. intros ->; reflexivity. Qed.

Lemma filter_execute (w : WhereClause.t) (name : string) (table : Table.t)
    (st : StorageManager.t) (rows : list Row.t) (i : nat) :
  StorageManager.get_table name st = (Ok table, st) ->
  Schema.get_column_index (Table.schema table) (WhereClause.column w) = Ok i ->
  Forall (reaches i) rows ->
  FilterOperation.execute w (Some rows) (Some name) st
  = (Ok (List.filter (satisfies w i) rows), st).
Proof.
  intros Hget Hcol Hrows. unfold FilterOperation.execute.
  destruct rows as [| row rows]; [reflexivity |].
  unfold bindM, lift. rewrite Hget, (resolve_column _ _ _ _ Hcol).
  rewrite (filter_rows_filter _ _ _ Hrows); reflexivity.
Qed.

(** X16. For a table that exists and a WHERE column that the schema has,
    at position [i], the filter operation keeps exactly the rows whose
    value at [i] satisfies the clause, in their order, leaves the registry
    alone, and run again on its own output returns that output. *)
Theorem X16_filter_operation (w : WhereClause.t) (name : string)
    (table : Table.t) (st : StorageManager.t) (rows : list Row.t) (i : nat) :
  StorageManager.get_table name st = (Ok table, st) ->
  Schema.get_column_index (Table.schema table) (WhereClause.column w) = Ok i ->
  Forall (reaches i) rows ->
  let kept := List.filter (satisfies w i) rows in
  FilterOperation.execute w (Some rows) (Some name) st = (Ok kept, st)
  /\ FilterOperation.execute w (Some kept) (Some name) st = (Ok kept, st).
Proof.
  intros Hget Hcol Hrows kept. split.
  - exact (filter_execute _ _ _ _ _ _ Hget Hcol Hrows).
  - unfold kept.
    rewrite (filter_execute _ _ _ _ _ _ Hget Hcol
               (Forall_filter_keeps _ _ _ Hrows)).
    rewrite filter_filter; reflexivity.
Qed.

Lemma X16_filter_operation_witness :
  let rows :=
    [Row.mk [VInt 1; VStr "Alice"; VInt 25]; Row.mk [VInt 2; VStr "Bob"; VInt 30];
     Row.mk [VInt 3; VStr "Carol"; VNone]] in
  FilterOperation.execute (WhereClause.mk "AGE" ">" (VInt 27)) (Some rows)
    (Some "users") Fixtures.with_users
  = (Ok [Row.mk [VInt 2; VStr "Bob"; VInt 30]], Fixtures.with_users).
Proof.
  intros rows.
  apply (proj1 (X16_filter_operation (WhereClause.mk "AGE" ">" (VInt 27)) "users"
                  Fixtures.users_table Fixtures.with_users rows 2
                  eq_refl eq_refl
                  ltac:(repeat constructor))).
Defined.

(** X17. On input that is not empty, an operation that needs the schema
    reports what is missing by kind: [TableNotFoundError] when the table
    does not exist, and [ColumnNotFoundError] naming the column and the
    table when the WHERE column, or the first requested column that is
    missing, is not in the schema. The registry is unchanged. *)
Theorem X17_missing_table_or_column (name : string) (st : StorageManager.t)
    (row : Row.t) (rows : list Row.t) :
  (StorageManager.blank name = false ->
   StorageManager.table_exists name st = false ->
   forall w columns,
     (exists e,
         FilterOperation.execute w (Some (row :: rows)) (Some name) st = (Raise e, st)
         /\ exc_class e = TableNotFoundError)
     /\ (exists e,
            ProjectOperation.execute columns (Some (row :: rows)) (Some name) st
            = (Raise e, st)
            /\ exc_class e = TableNotFoundError))
  /\ (forall table,
         StorageManager.get_table name st = (Ok table, st) ->
         (forall w,
             Dict.get (PyStr.lower (WhereClause.column w))
               (Schema._column_index (Table.schema table)) = None ->
             FilterOperation.execute w (Some (row :: rows)) (Some name) st
             = (raise ColumnNotFoundError
                  ("Column '" ++ WhereClause.column w ++ "' not found in table '"
                     ++ name ++ "'"),
                st))
         /\ (forall present missing rest,
                ProjectOperation.is_star (present ++ missing :: rest) = false ->
                Forall
                  (fun c => exists i,
                       Schema.get_column_index (Table.schema table) c = Ok i)
                  present ->
                Dict.get (PyStr.lower missing)
                  (Schema._column_index (Table.schema table)) = None ->
                ProjectOperation.execute (present ++ missing :: rest)
                  (Some (row :: rows)) (Some name) st
                = (raise ColumnNotFoundError
                     ("Column '" ++ missing ++ "' not found in table '"
                        ++ name ++ "'"),
                   st))).
Proof.
  split.
  - intros Hblank Hmissing w columns.
    unfold StorageManager.table_exists, Dict.mem in Hmissing.
    destruct (Dict.get _ _) eqn:Hget; [discriminate Hmissing |].
    destruct (get_table_missing _ _ Hblank Hget) as [e [Hrun Hclass]].
    split; exists e;
      unfold FilterOperation.execute, ProjectOperation.execute, bindM;
      rewrite Hrun; auto.
  - intros table Hget. split.
    + intros w Hcol. unfold FilterOperation.execute, bindM, lift.
      rewrite Hget. unfold Schema.get_column_index. rewrite Hcol; reflexivity.
    + intros present missing rest Hstar Hpresent Hcol.
      unfold ProjectOperation.execute, bindM, lift.
      rewrite Hget, Hstar.
      rewrite (column_indices_missing _ _ _ _ _ Hpresent Hcol); reflexivity.
Qed.

Lemma X17_missing_table_or_column_witness :
  ProjectOperation.execute ["id"; "email"; "phone"]
    (Some [Row.mk [VInt 1; VStr "Alice"; VInt 25]]) (Some "users")
    Fixtures.with_users
  = (raise ColumnNotFoundError "Column 'email' not found in table 'users'",
     Fixtures.with_users).
Proof.
  apply (proj2 (proj2 (X17_missing_table_or_column "users" Fixtures.with_users
                          (Row.mk [VInt 1; VStr "Alice"; VInt 25]) [])
                  Fixtures.users_table eq_refl)
           ["id"] "email" ["phone"]).
  - reflexivity.
  - repeat constructor. exists 0%nat; reflexivity.
  - reflexivity.
Defined.

(** ** The project operation *)

Lemma project_star (name : string) (table : Table.t) (st : StorageManager.t)
    (rows : list Row.t) :
  StorageManager.get_table name st = (Ok table, st) ->
  ProjectOperation.execute ["*"] (Some rows) (Some name) st = (Ok rows, st).
Proof.
  intros Hget. unfold ProjectOperation.execute.
  destruct rows as [| row rows]; [reflexivity |].
  unfold bindM. rewrite Hget; reflexivity.
Qed.

Lemma column_indices_found (schema : Schema.t) (table_name : string)
    (columns : list string) (indices : list nat) :
  mapM (Schema.get_column_index schema) columns = Ok indices ->
  ProjectOperation.column_indices schema table_name columns = Ok indices.
Proof.
  revert indices. induction columns as [| c columns IH]; intros indices; simpl.
  - auto.
  - destruct (Schema.get_column_index schema c) as [i | e]; simpl; [| discriminate].
    destruct (mapM _ columns) as [found |]; simpl; [| discriminate].
    intros Heq; injection Heq as <-. rewrite (IH found eq_refl); reflexivity.
Qed.

Lemma mapM_ok_map {A B : Type} (f : A -> result B) (g : A -> B) (l : list A) :
  Forall (fun a => f a = Ok (g a)) l -> mapM f l = Ok (List.map g l).
Proof.
  induction 1 as [| a l Ha _ IH]; simpl; [reflexivity |].
  rewrite Ha; simpl. rewrite IH; reflexivity.
Qed.

Lemma getitem_nth (l : list Value) (i : nat) :
  (i < List.length l)%nat -> getitem l i = Ok (nth i l VNone).
Proof.
  intros Hlt. unfold getitem.
  destruct (nth_error l i) as [v |] eqn:Hnth.
  - rewrite (nth_error_nth _ _ VNone Hnth); reflexivity.
  - apply nth_error_None in Hnth; lia.
Qed.

Lemma row_index_nth (l : list Value) (i : nat) :
  (i < List.length l)%nat -> Row.index l (Z.of_nat i) = Ok (nth i l VNone).
Proof.
  intros Hlt. unfold Row.index, len.
  destruct (Z.ltb (Z.of_nat i) 0) eqn:Hneg; [apply Z.ltb_lt in Hneg; lia |].
  rewrite Hneg; simpl.
  destruct (Z.leb _ _) eqn:Hle; [apply Z.leb_le in Hle; lia |].
  rewrite Nat2Z.id.
  destruct (nth_error l i) as [v |] eqn:Hnth.
  - rewrite (nth_error_nth _ _ VNone Hnth); reflexivity.
  - apply nth_error_None in Hnth; lia.
Qed.

Lemma project_rows (indices : list nat) (rows : list Row.t) :
  Forall (fun row => Forall (fun i => reaches i row) indices) rows ->
  mapM
    (fun row =>
       projected_values <- mapM (getitem (Row.values row)) indices ;;
       Ok (Row.init projected_values))
    rows
  = Ok (List.map (pick indices) rows).
Proof.
  intros Hrows. apply mapM_ok_map.
  eapply Forall_impl; [| exact Hrows]. intros row Hrow. simpl in *.
  rewrite (mapM_ok_map _ (fun i => nth i (Row.values row) VNone)); [reflexivity |].
  eapply Forall_impl; [| exact Hrow]. intros i Hi. exact (getitem_nth _ _ Hi).
Qed.

Lemma project_by_names_pick (schema : Schema.t) (columns : list string)
    (indices : list nat) (row : Row.t) :
  mapM (Schema.get_column_index schema) columns = Ok indices ->
  Forall (fun i => reaches i row) indices ->
  Row.project_by_names row columns schema = Ok (pick indices row).
Proof.
  intros Hcols Hrow. unfold Row.project_by_names, Row.project.
  rewrite Hcols; simpl.
  rewrite (mapM_ok_map _ (fun z => nth (Z.to_nat z) (Row.values row) VNone)).
  - simpl. unfold pick. rewrite map_map.
    f_equal. f_equal. apply map_ext. intros i. rewrite Nat2Z.id; reflexivity.
  - apply Forall_map. eapply Forall_impl; [| exact Hrow].
    intros i Hi. simpl. rewrite Nat2Z.id. exact (row_index_nth _ _ Hi).
Qed.

(** X18. For a table that exists, projecting [*] returns the input rows
    themselves, and projecting a list of columns that the schema has
    returns, for each input row in order, a new row with the values of
    those columns in the requested order, which is what
    [Row.project_by_names] gives for that row. The registry is
    unchanged. *)
Theorem X18_project_operation (name : string) (table : Table.t)
    (st : StorageManager.t) (rows : list Row.t) :
  StorageManager.get_table name st = (Ok table, st) ->
  ProjectOperation.execute ["*"] (Some rows) (Some name) st = (Ok rows, st)
  /\ (forall columns indices,
         ProjectOperation.is_star columns = false ->
         Table.project_columns table columns = Ok indices ->
         Forall (fun row => Forall (fun i => reaches i row) indices) rows ->
         ProjectOperation.execute columns (Some rows) (Some name) st
         = (Ok (List.map (pick indices) rows), st)
         /\ Forall (fun row => len (Row.values row) = len columns)
              (List.map (pick indices) rows)
         /\ mapM (fun row => Row.project_by_names row columns (Table.schema table))
              rows
            = Ok (List.map (pick indices) rows)).
Proof.
  intros Hget. split; [exact (project_star _ _ _ _ Hget) |].
  intros columns indices Hstar Hcols Hrows.
  unfold Table.project_columns in Hcols. split; [| split].
  - unfold ProjectOperation.execute.
    destruct rows as [| row rows]; [reflexivity |].
    unfold bindM, lift. rewrite Hget, Hstar.
    rewrite (column_indices_found _ _ _ _ Hcols).
    rewrite (project_rows _ _ Hrows); reflexivity.
  - apply Forall_map. apply Forall_forall. intros row _.
    unfold pick, len; simpl. rewrite length_map.
    rewrite (mapM_length _ _ _ Hcols); reflexivity.
  - apply mapM_ok_map. eapply Forall_impl; [| exact Hrows].
    intros row Hrow. exact (project_by_names_pick _ _ _ _ Hcols Hrow).
Qed.

Lemma X18_project_operation_witness :
  ProjectOperation.execute ["Name"; "id"]
    (Some [Row.mk [VInt 1; VStr "Alice"; VInt 25]; Row.mk [VInt 2; VStr "Bob"; VInt 30]])
    (Some "users") Fixtures.with_users
  = (Ok [Row.mk [VStr "Alice"; VInt 1]; Row.mk [VStr "Bob"; VInt 2]],
     Fixtures.with_users).
Proof.
  apply (proj1 (proj2 (X18_project_operation "users" Fixtures.users_table
                         Fixtures.with_users
                         [Row.mk [VInt 1; VStr "Alice"; VInt 25];
                          Row.mk [VInt 2; VStr "Bob"; VInt 30]]
                         eq_refl)
                  ["Name"; "id"] [1%nat; 0%nat] eq_refl eq_refl
                  ltac:(repeat constructor))).
Defined.

(** * Further properties of the query processor and the engine *)

Lemma process_select (name : string) (columns : list string)
    (where_clause : option WhereClause.t) :
  String.eqb name "" = false ->
  columns <> [] ->
  QueryProcessor.process (SelectNode name columns where_clause)
  = Ok (ExecutionPlan.mk
          (ScanOperation name
             :: match where_clause with
                | Some w => [FilterOperation w; ProjectOperation columns]
                | None => [ProjectOperation columns]
                end)).
Proof.
  intros Hname Hcols. unfold QueryProcessor.process; simpl.
  unfold QueryProcessor.visit_select. rewrite Hname.
  destruct columns as [| c columns]; [contradiction |].
  destruct where_clause; reflexivity.
Qed.

Lemma scan_execute (name : string) (table : Table.t) (st : StorageManager.t) :
  StorageManager.get_table name st = (Ok table, st) ->
  ScanOperation.execute name st = (Ok (Table.rows table), st).
Proof.
  intros Hget. unfold ScanOperation.execute, StorageManager.scan_table, bindM.
  rewrite Hget; reflexivity.
Qed.

(** The SELECT pipeline with a scan, an optional filter and a projection
    of [*], given what its filter stage returns. *)
Lemma select_star_pipeline `{PyBuiltins} (name : string) (table : Table.t)
    (st : StorageManager.t) (where_clause : option WhereClause.t)
    (kept : list Row.t) :
  StorageManager.get_table name st = (Ok table, st) ->
  match where_clause with
  | Some w =>
      FilterOperation.execute w (Some (Table.rows table)) (Some name) st
      = (Ok kept, st)
  | None => kept = Table.rows table
  end ->
  ExecutionEngine.execute
    (ExecutionPlan.mk
       (ScanOperation name
          :: match where_clause with
             | Some w => [FilterOperation w; ProjectOperation ["*"]]
             | None => [ProjectOperation ["*"]]
             end)) st
  = (Ok (QueryResult.of_data (Table.get_column_names table) kept), st).
Proof.
  intros Hget Hfilter.
  unfold ExecutionEngine.execute, try_exceptM, ExecutionEngine.execute_try.
  cbn [ExecutionPlan.get_operations ExecutionPlan.operations].
  destruct where_clause as [w |].
  - change (ExecutionEngine.is_select _) with true; cbv iota.
    unfold ExecutionEngine._execute_select_operations, try_exceptM,
      ExecutionEngine.find.
    cbn [fold_left ExecutionEngine.find_step ExecutionEngine.scan_op
           ExecutionEngine.project_op ExecutionEngine.filter_op].
    unfold bindM at 1. rewrite (scan_execute _ _ _ Hget).
    unfold bindM at 1. rewrite Hfilter.
    unfold bindM at 1. rewrite (project_star _ _ _ kept Hget).
    cbn [ProjectOperation.is_star]. rewrite String.eqb_refl.
    unfold bindM. rewrite Hget. reflexivity.
  - subst kept. change (ExecutionEngine.is_select _) with true; cbv iota.
    unfold ExecutionEngine._execute_select_operations, try_exceptM,
      ExecutionEngine.find.
    cbn [fold_left ExecutionEngine.find_step ExecutionEngine.scan_op
           ExecutionEngine.project_op ExecutionEngine.filter_op].
    unfold bindM at 1. rewrite (scan_execute _ _ _ Hget).
    unfold bindM at 1. unfold ret at 1.
    unfold bindM at 1. rewrite (project_star _ _ _ _ Hget).
    cbn [ProjectOperation.is_star]. rewrite String.eqb_refl.
    unfold bindM. rewrite Hget. reflexivity.
Qed.

(** X19. [SELECT * FROM t], with or without a WHERE clause on a column of
    the table, processed into a plan and executed: the result is a data
    result whose columns are the column names of the schema and whose
    rows are the rows of the table that satisfy the clause (all rows
    without a clause), in the order of insertion; the registry is
    unchanged. *)
Theorem X19_select_star `{PyBuiltins} (name : string) (table : Table.t)
    (st : StorageManager.t) :
  StorageManager.get_table name st = (Ok table, st) ->
  (exists plan,
      QueryProcessor.process (SelectNode name ["*"] None) = Ok plan
      /\ ExecutionEngine.execute plan st
         = (Ok (QueryResult.of_data (Schema.get_column_names (Table.schema table))
                  (Table.rows table)),
            st))
  /\ (forall w i,
         Schema.get_column_index (Table.schema table) (WhereClause.column w) = Ok i ->
         Forall (reaches i) (Table.rows table) ->
         exists plan,
           QueryProcessor.process (SelectNode name ["*"] (Some w)) = Ok plan
           /\ ExecutionEngine.execute plan st
              = (Ok (QueryResult.of_data
                       (Schema.get_column_names (Table.schema table))
                       (List.filter (satisfies w i) (Table.rows table))),
                 st)).
Proof.
  intros Hget.
  destruct (get_table_inv _ _ _ _ Hget) as [Hblank _].
  pose proof (blank_nonempty _ Hblank) as Hname.
  split.
  - eexists. split; [apply process_select; [exact Hname | discriminate] |].
    exact (select_star_pipeline name table st None _ Hget eq_refl).
  - intros w i Hcol Hrows.
    eexists. split; [apply process_select; [exact Hname | discriminate] |].
    apply (select_star_pipeline name table st (Some w) _ Hget).
    exact (filter_execute _ _ _ _ _ _ Hget Hcol Hrows).
Qed.

Lemma X19_select_star_witness :
  let table :=
    Table.mk "users" Fixtures.users_schema
      [Row.mk [VInt 1; VStr "Alice"; VInt 25]; Row.mk [VInt 2; VStr "Bob"; VInt 30]] 2 in
  let st := StorageManager.mk [("users", table)] in
  exists plan,
    QueryProcessor.process
      (SelectNode "users" ["*"] (Some (WhereClause.mk "age" ">" (VInt 27))))
    = Ok plan
    /\ ExecutionEngine.execute plan st
       = (Ok (QueryResult.of_data ["id"; "name"; "age"]
                [Row.mk [VInt 2; VStr "Bob"; VInt 30]]),
          st).
Proof.
  intros table st.
  apply (proj2 (X19_select_star "users" table st eq_refl)
           (WhereClause.mk "age" ">" (VInt 27)) 2%nat eq_refl).
  repeat constructor.
Defined.

Lemma bind_Ok {A B : Type} (r : result A) (k : A -> result B) (b : B) :
  bind r k = Ok b -> exists a, r = Ok a /\ k a = Ok b.
Proof.
  destruct r as [a | e]; simpl; [eauto | discriminate].
Qed.

Lemma process_create_table (name : string) (columns : list Column.t)
    (schema : Schema.t) :
  String.eqb name "" = false ->
  Schema.init columns = Ok schema ->
  QueryProcessor.process (CreateTableNode name columns)
  = Ok (ExecutionPlan.mk [CreateTableOperation name schema]).
Proof.
  intros Hname Hinit. unfold QueryProcessor.process; simpl.
  unfold QueryProcessor.visit_create_table. rewrite Hname.
  destruct columns as [| c columns]; [discriminate Hinit |].
  rewrite Hinit; reflexivity.
Qed.

Lemma process_insert (name : string) (values : list Value) :
  String.eqb name "" = false ->
  values <> [] ->
  QueryProcessor.process (InsertNode name values)
  = Ok (ExecutionPlan.mk [InsertOperation name values]).
Proof.
  intros Hname Hvalues. unfold QueryProcessor.process; simpl.
  unfold QueryProcessor.visit_insert. rewrite Hname.
  destruct values as [| v values]; [contradiction | reflexivity].
Qed.







(** * Further properties of the parser *)

(** ** The errors of the parser *)

Lemma parser_handler_class {A : Type} (r : result A) (prefix : string) (e : Exc) :
  try_except SQLParser.globals r
    [(["ParseError"], reraise); (["Exception"], wrap ParseError prefix)] = Raise e ->
  exc_class e = ParseError.
Proof.
  destruct r as [a | [c m]]; simpl; [discriminate |].
  destruct c; simpl; unfold reraise, wrap, raise; intros Heq;
    injection Heq as <-; reflexivity.
Qed.

Lemma strip_empty : PyStr.strip "" = "".
Proof. reflexivity. Qed.

(** X22. Whatever the text and its tokens, an exception that leaves
    [parse] is a [ParseError], and so is one that leaves the parser of a
    CREATE TABLE, an INSERT or a SELECT statement on any token list. A
    text that is empty or white space is rejected as an empty command
    before it is tokenized, a text without tokens as such, and a first
    token other than CREATE, INSERT or SELECT (in any letter case) as an
    unsupported command named in upper case. *)
Theorem X22_parse_raises_ParseError `{PyBuiltins}
    (tokenize : string -> list string) (sql : string) :
  (forall e, SQLParser.parse tokenize sql = Raise e -> exc_class e = ParseError)
  /\ (forall tokens e,
         SQLParser._parse_create_table tokens = Raise e
         \/ SQLParser._parse_insert tokens = Raise e
         \/ SQLParser._parse_select tokens = Raise e ->
         exc_class e = ParseError)
  /\ (PyStr.strip sql = "" ->
      SQLParser.parse tokenize sql = raise ParseError "Empty SQL command")
  /\ (PyStr.strip sql <> "" -> tokenize sql = [] ->
      SQLParser.parse tokenize sql = raise ParseError "No tokens found in SQL command")
  /\ (forall token rest,
         PyStr.strip sql <> "" -> tokenize sql = token :: rest ->
         PyStr.mem (PyStr.upper token) ["CREATE"; "INSERT"; "SELECT"] = false ->
         SQLParser.parse tokenize sql
         = raise ParseError
             ("Unsupported SQL command: " ++ PyStr.upper token
                ++ ". Supported commands are: CREATE TABLE, INSERT INTO, SELECT")).
Proof.
  assert (Hnonempty : PyStr.strip sql <> "" ->
            String.eqb sql "" || String.eqb (PyStr.strip sql) "" = false).
  { intros Hstrip. apply Bool.orb_false_iff. split; apply String.eqb_neq.
    - intros ->. apply Hstrip, strip_empty.
    - exact Hstrip. }
  split; [| split; [| split; [| split]]].
  - intros e. unfold SQLParser.parse.
    destruct (String.eqb sql "" || String.eqb (PyStr.strip sql) "").
    + intros Heq; injection Heq as <-; reflexivity.
    + apply parser_handler_class.
  - intros tokens e [Hr | [Hr | Hr]]; exact (parser_handler_class _ _ _ Hr).
  - intros Hstrip. unfold SQLParser.parse. rewrite Hstrip.
    rewrite String.eqb_refl, Bool.orb_true_r. reflexivity.
  - intros Hstrip Htokens. unfold SQLParser.parse.
    rewrite (Hnonempty Hstrip), Htokens. reflexivity.
  - intros token rest Hstrip Htokens Hmem. unfold SQLParser.parse.
    rewrite (Hnonempty Hstrip), Htokens.
    cbn [SQLParser.token_at nth].
    unfold PyStr.mem in Hmem. cbn [existsb] in Hmem.
    apply Bool.orb_false_iff in Hmem as [Hc Hmem].
    apply Bool.orb_false_iff in Hmem as [Hi Hmem].
    apply Bool.orb_false_iff in Hmem as [Hs _].
    rewrite Hc, Hi, Hs. reflexivity.
Qed.

Lemma X22_parse_raises_ParseError_witness :
  SQLParser.parse (fun _ => ["DROP"; "TABLE"; "users"]) "DROP TABLE users"
  = raise ParseError
      "Unsupported SQL command: DROP. Supported commands are: CREATE TABLE, INSERT INTO, SELECT"
  /\ exc_class
       (mkExc ParseError
          "Unsupported SQL command: DROP. Supported commands are: CREATE TABLE, INSERT INTO, SELECT")
     = ParseError.
Proof.
  destruct (X22_parse_raises_ParseError (fun _ => ["DROP"; "TABLE"; "users"])
              "DROP TABLE users") as [Hclass [_ [_ [_ Hother]]]].
  assert (Hrun : SQLParser.parse (fun _ => ["DROP"; "TABLE"; "users"]) "DROP TABLE users"
                 = raise ParseError
                     "Unsupported SQL command: DROP. Supported commands are: CREATE TABLE, INSERT INTO, SELECT").
  { apply (Hother "DROP" ["TABLE"; "users"]);
      [vm_compute; discriminate | reflexivity | reflexivity]. }
  split; [exact Hrun | exact (Hclass _ Hrun)].
Defined.

(** ** Values *)

Lemma number_try_handled `{PyBuiltins} (token : string) :
  try_except SQLParser.globals (SQLParser.number_try token)
    [(["ValueError"], fun _ => Ok None);
     (["OverflowError"],
      fun _ => raise ParseError ("Numeric value out of range: " ++ token))]
  = if SQLParser.has_dot token then
      match float_of_str token with
      | Some value =>
          match SFcompare (SFabs value) SQLParser.float_1e308 with
          | Some Gt => raise ParseError ("Float value too large: " ++ token)
          | _ => Ok (Some (VFloat value))
          end
      | None => Ok None
      end
    else
      match int_of_str token with
      | Some value =>
          if Z.gtb (Z.abs value) SQLParser.int_max then
            raise ParseError ("Integer value too large: " ++ token)
          else Ok (Some (VInt value))
      | None => Ok None
      end.
Proof.
  unfold SQLParser.number_try, Py.float, Py.int.
  destruct (SQLParser.has_dot token).
  - destruct (float_of_str token) as [value |]; [| reflexivity]. simpl.
    destruct (SFcompare (SFabs value) SQLParser.float_1e308) as [[| |] |];
      reflexivity.
  - destruct (int_of_str token) as [value |]; [| reflexivity]. simpl.
    destruct (Z.gtb (Z.abs value) SQLParser.int_max); reflexivity.
Qed.

Lemma parse_single_value_class `{PyBuiltins} (tokens : list string) (e : Exc) :
  SQLParser._parse_single_value tokens = Raise e -> exc_class e = ParseError.
Proof.
  unfold SQLParser._parse_single_value.
  destruct tokens as [| token [| second rest]];
    try (intros Heq; injection Heq as <-; reflexivity).
  destruct (String.eqb (PyStr.upper token) "NULL"); [discriminate |].
  destruct (PyStr.mem (PyStr.upper token) ["TRUE"; "FALSE"]); [discriminate |].
  rewrite number_try_handled.
  destruct (SQLParser.has_dot token).
  - destruct (float_of_str token) as [value |]; [| discriminate].
    destruct (SFcompare (SFabs value) SQLParser.float_1e308) as [[| |] |];
      try discriminate.
    intros Heq; injection Heq as <-; reflexivity.
  - destruct (int_of_str token) as [value |]; [| discriminate].
    destruct (Z.gtb (Z.abs value) SQLParser.int_max); [| discriminate].
    intros Heq; injection Heq as <-; reflexivity.
Qed.

(** X23. What [_parse_single_value] returns. The value comes from exactly
    one token: [None] only for NULL and a boolean only for TRUE or FALSE
    (in any letter case); an integer only for a token without a point
    that [int] reads, and then within 64 bits; a float only for a token
    with a point that [float] reads, and then not beyond [1e308]; and the
    token itself, as a string, only when the conversion of its kind
    rejects it. What it raises is a [ParseError]. *)
Theorem X23_parse_single_value `{PyBuiltins} (tokens : list string) :
  (forall v,
      SQLParser._parse_single_value tokens = Ok v ->
      exists token,
        tokens = [token]
        /\ match v with
           | VNone => PyStr.upper token = "NULL"
           | VBool b => PyStr.upper token = if b then "TRUE" else "FALSE"
           | VInt n =>
               SQLParser.has_dot token = false
               /\ int_of_str token = Some n
               /\ - SQLParser.int_max <= n <= SQLParser.int_max
           | VFloat f =>
               SQLParser.has_dot token = true
               /\ float_of_str token = Some f
               /\ SFcompare (SFabs f) SQLParser.float_1e308 <> Some Gt
           | VStr s =>
               s = token
               /\ (if SQLParser.has_dot token then float_of_str token = None
                   else int_of_str token = None)
           end)
  /\ (forall e,
         SQLParser._parse_single_value tokens = Raise e ->
         exc_class e = ParseError)
  /\ (List.length tokens <> 1%nat ->
      SQLParser._parse_single_value tokens
      = raise ParseError
          ("Invalid value: '" ++ PyStr.join " " tokens
             ++ "'. Each value must be a single token")).
Proof.
  split; [| split; [exact (parse_single_value_class tokens) |]].
  - intros v. unfold SQLParser._parse_single_value.
    destruct tokens as [| token [| second rest]]; try discriminate.
    intros Hv. exists token. split; [reflexivity |]. revert Hv.
    destruct (String.eqb (PyStr.upper token) "NULL") eqn:Hnull.
    { intros Heq; injection Heq as <-. apply String.eqb_eq, Hnull. }
    destruct (PyStr.mem (PyStr.upper token) ["TRUE"; "FALSE"]) eqn:Hbool.
    { intros Heq; injection Heq as <-.
      unfold PyStr.mem in Hbool. cbn [existsb] in Hbool.
      destruct (String.eqb (PyStr.upper token) "TRUE") eqn:Htrue.
      - apply String.eqb_eq, Htrue.
      - rewrite Bool.orb_false_r in Hbool. apply String.eqb_eq, Hbool. }
    rewrite number_try_handled.
    destruct (SQLParser.has_dot token).
    + destruct (float_of_str token) as [value |]; cbn [bind].
      * destruct (SFcompare (SFabs value) SQLParser.float_1e308) as [[| |] |] eqn:Hcmp;
          cbn [bind raise]; try discriminate;
          intros Heq; injection Heq as <-;
          (split; [reflexivity | split; [reflexivity | rewrite Hcmp; discriminate]]).
      * intros Heq; injection Heq as <-. split; reflexivity.
    + destruct (int_of_str token) as [value |]; cbn [bind].
      * destruct (Z.gtb (Z.abs value) SQLParser.int_max) eqn:Hbig;
          cbn [bind raise]; [discriminate |].
        intros Heq; injection Heq as <-.
        split; [reflexivity | split; [reflexivity |]].
        rewrite Z.gtb_ltb in Hbig. apply Z.ltb_ge in Hbig.
        unfold SQLParser.int_max in *. lia.
      * intros Heq; injection Heq as <-. split; reflexivity.
  - intros Hlen. unfold SQLParser._parse_single_value.
    destruct tokens as [| token [| second rest]]; try reflexivity.
    contradiction Hlen; reflexivity.
Qed.

Lemma X23_parse_single_value_witness :
  SQLParser._parse_single_value ["-42"] = Ok (VInt (-42))
  /\ SQLParser.has_dot "-42" = false
  /\ - SQLParser.int_max <= -42 <= SQLParser.int_max.
Proof.
  destruct (X23_parse_single_value ["-42"]) as [Hvalue _].
  assert (Hrun : SQLParser._parse_single_value ["-42"] = Ok (VInt (-42))).
  { vm_compute; reflexivity. }
  destruct (Hvalue _ Hrun) as [token [Htoken [Hdot [_ Hrange]]]].
  injection Htoken as <-.
  split; [exact Hrun | split; [exact Hdot | exact Hrange]].
Defined.

Lemma comma_separated_cons (item : string) (items : list string) :
  comma_separated (item :: items)
  = item :: match items with
            | [] => []
            | _ :: _ => "," :: comma_separated items
            end.
Proof. destruct items; reflexivity. Qed.

Lemma mapM_removelast {A B : Type} (f : A -> result B) (d a : A) (l : list A) :
  mapM f (a :: l)
  = bs <- mapM f (removelast (a :: l)) ;;
    b <- f (last (a :: l) d) ;;
    Ok (bs ++ [b])%list.
Proof.
  revert a. induction l as [| a' l IH]; intros a.
  - simpl. destruct (f a); reflexivity.
  - change (removelast (a :: a' :: l)) with (a :: removelast (a' :: l)).
    change (last (a :: a' :: l) d) with (last (a' :: l) d).
    change (mapM f (a :: a' :: l))
      with (b <- f a ;; bs <- mapM f (a' :: l) ;; Ok (b :: bs)).
    rewrite IH.
    change (mapM f (a :: removelast (a' :: l)))
      with (b <- f a ;; bs <- mapM f (removelast (a' :: l)) ;; Ok (b :: bs)).
    destruct (f a) as [b |]; [| reflexivity]. cbn [bind].
    destruct (mapM f (removelast (a' :: l))) as [bs |]; [| reflexivity]. cbn [bind].
    destruct (f (last (a' :: l) d)); reflexivity.
Qed.

(** The loop of [_parse_values] on a list of one-token items: each item
    but the last is converted at the comma that follows it, and the last
    one is left as the value being read. *)
Lemma values_loop_items `{PyBuiltins} (items suffix : list string) (item : string)
    (values : list Value) :
  Forall (fun t => t <> ",") (item :: items) ->
  SQLParser.values_loop (comma_separated (item :: items) ++ suffix) values []
  = vs <- mapM (fun t => SQLParser._parse_single_value [t])
            (removelast (item :: items)) ;;
    SQLParser.values_loop suffix (values ++ vs)%list [last (item :: items) ""].
Proof.
  revert item values. induction items as [| item' items IH]; intros item values Hall.
  - inversion Hall as [| ? ? Hitem _]; subst.
    apply String.eqb_neq in Hitem.
    cbn [comma_separated app removelast last mapM bind SQLParser.values_loop].
    rewrite Hitem, app_nil_r. reflexivity.
  - inversion Hall as [| ? ? Hitem Hrest]; subst.
    apply String.eqb_neq in Hitem.
    change (comma_separated (item :: item' :: items))
      with (item :: "," :: comma_separated (item' :: items)).
    change (removelast (item :: item' :: items))
      with (item :: removelast (item' :: items)).
    change (last (item :: item' :: items) "") with (last (item' :: items) "").
    cbn [app SQLParser.values_loop]. rewrite Hitem.
    cbn [app]. rewrite String.eqb_refl.
    cbn [mapM].
    destruct (SQLParser._parse_single_value [item]) as [v |]; [| reflexivity].
    cbn [bind]. rewrite (IH item' (values ++ [v])%list Hrest).
    destruct (mapM _ (removelast (item' :: items))) as [vs |]; [| reflexivity].
    cbn [bind]. rewrite <- app_assoc. reflexivity.
Qed.

Lemma parse_values_items `{PyBuiltins} (items : list string) :
  Forall (fun t => t <> ",") items ->
  items <> [] ->
  SQLParser._parse_values (comma_separated items)
  = mapM (fun t => SQLParser._parse_single_value [t]) items.
Proof.
  intros Hall Hitems. destruct items as [| item items]; [contradiction |].
  unfold SQLParser._parse_values.
  rewrite (comma_separated_cons item items) at 1.
  cbv beta iota.
  rewrite <- (app_nil_r (comma_separated (item :: items))) at 1.
  rewrite (values_loop_items items [] item [] Hall).
  rewrite (mapM_removelast _ "" item items).
  destruct (mapM _ (removelast (item :: items))) as [vs |]; [| reflexivity].
  cbn [bind SQLParser.values_loop app].
  destruct (SQLParser._parse_single_value [last (item :: items) ""]) as [v |];
    [| reflexivity].
  cbn [bind]. destruct vs; reflexivity.
Qed.

(** X24. [_parse_values] on one-token values separated by commas converts
    each token with [_parse_single_value], in order, and returns the
    values, or raises what the first token that fails raises. A comma
    after the last value, a comma before the first one and an empty token
    list are rejected. *)
Theorem X24_parse_values `{PyBuiltins} (items : list string) :
  Forall (fun t => t <> ",") items ->
  items <> [] ->
  SQLParser._parse_values (comma_separated items)
  = mapM (fun t => SQLParser._parse_single_value [t]) items
  /\ (forall values,
         mapM (fun t => SQLParser._parse_single_value [t]) items = Ok values ->
         values <> []
         /\ SQLParser._parse_values (comma_separated items ++ [","])
            = raise ParseError "Invalid value list: trailing comma")
  /\ SQLParser._parse_values ("," :: comma_separated items)
     = raise ParseError "Invalid value list: empty value after comma"
  /\ SQLParser._parse_values []
     = raise ParseError "No values found in INSERT statement".
Proof.
  intros Hall Hitems.
  split; [exact (parse_values_items items Hall Hitems) |].
  split; [| split; reflexivity].
  intros values Hmap.
  destruct items as [| item items]; [contradiction |].
  split.
  { apply mapM_length in Hmap. destruct values; [discriminate Hmap | discriminate]. }
  rewrite (mapM_removelast _ "" item items) in Hmap.
  remember (comma_separated (item :: items) ++ [","])%list as tokens eqn:Htokens.
  destruct tokens as [| t rest].
  { rewrite comma_separated_cons in Htokens. discriminate Htokens. }
  unfold SQLParser._parse_values. cbv beta iota. rewrite Htokens.
  rewrite (values_loop_items items [","] item [] Hall).
  destruct (mapM _ (removelast (item :: items))) as [vs |]; [| discriminate Hmap].
  cbn [bind] in Hmap. cbn [bind SQLParser.values_loop app].
  rewrite String.eqb_refl.
  destruct (SQLParser._parse_single_value [last (item :: items) ""]) as [v |];
    [| discriminate Hmap].
  cbn [bind SQLParser.values_loop].
  rewrite last_last, String.eqb_refl. reflexivity.
Qed.

Lemma X24_parse_values_witness :
  SQLParser._parse_values (comma_separated ["1"; "Alice"; "NULL"; "2.5"])
  = Ok [VInt 1; VStr "Alice"; VNone;
        VFloat (S754_finite false 5629499534213120 (-51))]
  /\ SQLParser._parse_values ["1"; ","; "Alice"; ","]
     = raise ParseError "Invalid value list: trailing comma".
Proof.
  destruct (X24_parse_values ["1"; "Alice"; "NULL"; "2.5"]) as [Hvalues _];
    [repeat constructor; discriminate | discriminate |].
  destruct (X24_parse_values ["1"; "Alice"]) as [_ [Htrailing _]];
    [repeat constructor; discriminate | discriminate |].
  split.
  - rewrite Hvalues. vm_compute; reflexivity.
  - exact (proj2 (Htrailing [VInt 1; VStr "Alice"] ltac:(vm_compute; reflexivity))).
Defined.

(** ** INSERT statements *)

Lemma parser_reraise {A : Type} (e : Exc) (prefix : string) :
  exc_class e = ParseError ->
  handle SQLParser.globals
    ([(["ParseError"], reraise); (["Exception"], wrap ParseError prefix)]
       : list (clause A)) e
  = Raise e.
Proof.
  intros Hclass. simpl. unfold isinstance. rewrite Hclass. reflexivity.
Qed.

Lemma mapM_Raise {A B : Type} (f : A -> result B) (l : list A) (e : Exc) :
  mapM f l = Raise e -> exists a, In a l /\ f a = Raise e.
Proof.
  induction l as [| a l IH]; simpl; [discriminate |].
  destruct (f a) as [b | e'] eqn:Ha; simpl.
  - destruct (mapM f l) as [bs | e'']; simpl; [discriminate |].
    intros Heq; injection Heq as <-.
    destruct (IH eq_refl) as [a' [Hin Hf]]. eauto.
  - intros Heq; injection Heq as <-. eauto.
Qed.

Lemma closing_paren_found (body rest : list string) (i : nat) :
  Forall (fun t => t <> "(" /\ t <> ")") body ->
  SQLParser.closing_paren (body ++ ")" :: rest) i 1 = Some (i + List.length body)%nat.
Proof.
  intros Hbody. revert i. induction Hbody as [| t body [Hopen Hclose] _ IH]; intros i.
  - simpl. f_equal. lia.
  - apply String.eqb_neq in Hopen, Hclose.
    cbn [app SQLParser.closing_paren List.length]. rewrite Hopen, Hclose, IH.
    f_equal. lia.
Qed.

Lemma comma_separated_plain (items : list string) :
  Forall plain items ->
  Forall (fun t => t <> "(" /\ t <> ")") (comma_separated items)
  /\ Forall (fun t => t <> ",") items.
Proof.
  induction 1 as [| item items [Hcomma [Hopen Hclose]] _ [IHparen IHcomma]].
  - split; constructor.
  - split; [| constructor; assumption].
    rewrite comma_separated_cons. constructor; [split; assumption |].
    destruct items; [constructor |].
    constructor; [split; discriminate | exact IHparen].
Qed.

Lemma firstn_length_app {A : Type} (l r : list A) :
  firstn (List.length l) (l ++ r) = l.
Proof.
  induction l as [| a l IH]; simpl; [destruct r; reflexivity | rewrite IH; reflexivity].
Qed.

(** X25. An INSERT statement with its values between parentheses. For
    tokens [_ INTO name VALUES ( v1 , ... , vn )], with the key words in
    any letter case, a table name of letters, digits, underscores and
    hyphens, and one token for each value, [_parse_insert] returns the
    INSERT node of the table with the values that [_parse_single_value]
    reads, in order, or raises what the first value that fails raises.
    The tokens after the closing parenthesis are not looked at. *)
Theorem X25_parse_insert `{PyBuiltins} (first into name values_kw : string)
    (items rest : list string) :
  PyStr.upper into = "INTO" ->
  SQLParser.bad_name name = false ->
  PyStr.upper values_kw = "VALUES" ->
  items <> [] ->
  Forall plain items ->
  SQLParser._parse_insert
    (first :: into :: name :: values_kw :: "("
       :: (comma_separated items ++ ")" :: rest)%list)
  = values <- mapM (fun t => SQLParser._parse_single_value [t]) items ;;
    Ok (InsertNode name values).
Proof.
  intros Hinto Hname Hvalues Hitems Hplain.
  destruct (comma_separated_plain items Hplain) as [Hparen Hcomma].
  unfold SQLParser._parse_insert.
  assert (Hlen : Z.ltb (len (first :: into :: name :: values_kw :: "("
                               :: (comma_separated items ++ ")" :: rest)%list)) 6
                 = false).
  { apply Z.ltb_ge. unfold len. cbn [List.length].
    rewrite length_app. cbn [List.length]. lia. }
  rewrite Hlen. cbn [SQLParser.token_at nth skipn].
  rewrite Hinto, Hvalues. cbn [String.eqb Ascii.eqb Bool.eqb negb].
  unfold SQLParser.bad_name in Hname. rewrite Hname.
  cbn [SQLParser.closing_paren String.eqb Ascii.eqb Bool.eqb Z.add].
  rewrite (closing_paren_found _ rest 5 Hparen).
  replace (5 + List.length (comma_separated items) - 5)%nat
    with (List.length (comma_separated items)) by lia.
  rewrite firstn_length_app.
  rewrite (parse_values_items items Hcomma Hitems).
  destruct (mapM _ items) as [values | e] eqn:Hmap; cbn [bind].
  - apply Bool.orb_false_iff in Hname as [Hempty _].
    unfold SQLParser.InsertNode_init. rewrite Hempty.
    apply mapM_length in Hmap.
    destruct values as [| v values]; [| reflexivity].
    destruct items; [contradiction | discriminate Hmap].
  - cbn [try_except]. apply parser_reraise.
    destruct (mapM_Raise _ _ _ Hmap) as [t [_ Ht]].
    exact (parse_single_value_class _ _ Ht).
Qed.

Lemma X25_parse_insert_witness :
  SQLParser._parse_insert
    ["insert"; "into"; "users"; "values"; "("; "1"; ","; "Alice"; ")"; "garbage"]
  = Ok (InsertNode "users" [VInt 1; VStr "Alice"]).
Proof.
  rewrite (X25_parse_insert "insert" "into" "users" "values" ["1"; "Alice"] ["garbage"]).
  - vm_compute; reflexivity.
  - reflexivity.
  - reflexivity.
  - reflexivity.
  - discriminate.
  - repeat constructor; discriminate.
Defined.

(** ** From the parser to the query processor *)

Lemma bad_name_nonempty (name : string) :
  SQLParser.bad_name name = false -> String.eqb name "" = false.
Proof.
  unfold SQLParser.bad_name. intros Hname.
  apply Bool.orb_false_iff in Hname as [Hempty _]. exact Hempty.
Qed.

Lemma parse_insert_inv `{PyBuiltins} (tokens : list string) (ast : ASTNode) :
  SQLParser._parse_insert tokens = Ok ast ->
  exists name values,
    ast = InsertNode name values
    /\ SQLParser.bad_name name = false
    /\ values <> [].
Proof.
  unfold SQLParser._parse_insert. intros Hok.
  apply try_except_Ok in Hok; [| apply raising_reraise_wrap].
  destruct (Z.ltb (len tokens) 6); [discriminate Hok |].
  destruct (negb (String.eqb (PyStr.upper (SQLParser.token_at tokens 1)) "INTO"));
    [discriminate Hok |].
  cbv zeta in Hok.
  destruct (String.eqb (SQLParser.token_at tokens 2) ""
            || negb (PyStr.isalnum
                       (PyStr.remove "-"
                          (PyStr.remove "_" (SQLParser.token_at tokens 2)))))
    eqn:Hname; [discriminate Hok |].
  destruct (negb (String.eqb (PyStr.upper (SQLParser.token_at tokens 3)) "VALUES"));
    [discriminate Hok |].
  destruct (negb (String.eqb (SQLParser.token_at tokens 4) "("));
    [discriminate Hok |].
  destruct (SQLParser.closing_paren (skipn 4 tokens) 4 0) as [paren_end |];
    [| discriminate Hok].
  apply bind_Ok in Hok as [values [_ Hnode]].
  unfold SQLParser.InsertNode_init in Hnode.
  assert (Hbad : SQLParser.bad_name (SQLParser.token_at tokens 2) = false)
    by exact Hname.
  rewrite (bad_name_nonempty _ Hbad) in Hnode.
  destruct values as [| v values]; [discriminate Hnode |].
  injection Hnode as <-.
  exists (SQLParser.token_at tokens 2), (v :: values).
  split; [reflexivity | split; [exact Hbad | discriminate]].
Qed.

Lemma parse_column_definitions_inv `{PyBuiltins} (tokens : list string)
    (columns : list Column.t) :
  SQLParser._parse_column_definitions tokens = Ok columns ->
  columns <> []
  /\ Nat.eqb (List.length (List.map (fun col => PyStr.lower (Column.name col)) columns))
       (PyStr.distinct (List.map (fun col => PyStr.lower (Column.name col)) columns))
     = true.
Proof.
  unfold SQLParser._parse_column_definitions.
  destruct tokens as [| token tokens]; [discriminate |].
  intros Hok. apply bind_Ok in Hok as [[parsed current] [_ Hok]].
  apply bind_Ok in Hok as [all [_ Hok]].
  destruct all as [| c all]; [discriminate Hok |].
  cbv zeta in Hok.
  destruct (Nat.eqb _ _) eqn:Hdistinct; [| discriminate Hok].
  injection Hok as <-. split; [discriminate | exact Hdistinct].
Qed.

Lemma parse_create_table_inv `{PyBuiltins} (tokens : list string) (ast : ASTNode) :
  SQLParser._parse_create_table tokens = Ok ast ->
  exists name columns,
    ast = CreateTableNode name columns
    /\ SQLParser.bad_name name = false
    /\ Schema.init columns = Ok (Schema.mk columns (Schema.build_index columns)).
Proof.
  unfold SQLParser._parse_create_table. intros Hok.
  apply try_except_Ok in Hok; [| apply raising_reraise_wrap].
  destruct (Z.ltb (len tokens) 4); [discriminate Hok |].
  destruct (negb (String.eqb (PyStr.upper (SQLParser.token_at tokens 1)) "TABLE"));
    [discriminate Hok |].
  cbv zeta in Hok.
  destruct (SQLParser.bad_name (SQLParser.token_at tokens 2)) eqn:Hname;
    [discriminate Hok |].
  destruct (Z.ltb (len tokens) 5
            || negb (String.eqb (SQLParser.token_at tokens 3) "("));
    [discriminate Hok |].
  destruct (SQLParser.closing_paren (skipn 3 tokens) 3 0) as [paren_end |];
    [| discriminate Hok].
  apply bind_Ok in Hok as [columns [Hcolumns Hnode]].
  apply parse_column_definitions_inv in Hcolumns as [Hnonempty Hdistinct].
  unfold SQLParser.InsertNode_init, SQLParser.CreateTableNode_init in Hnode.
  rewrite (bad_name_nonempty _ Hname) in Hnode.
  destruct columns as [| c columns]; [contradiction |].
  injection Hnode as <-.
  exists (SQLParser.token_at tokens 2), (c :: columns).
  split; [reflexivity | split; [exact Hname |]].
  unfold Schema.init. rewrite Hdistinct. reflexivity.
Qed.

Lemma parse_select_inv `{PyBuiltins} (tokens : list string) (ast : ASTNode) :
  SQLParser._parse_select tokens = Ok ast ->
  exists name columns where_clause,
    ast = SelectNode name columns where_clause
    /\ SQLParser.bad_name name = false
    /\ columns <> [].
Proof.
  unfold SQLParser._parse_select. intros Hok.
  apply try_except_Ok in Hok; [| apply raising_reraise_wrap].
  destruct (Z.ltb (len tokens) 4); [discriminate Hok |].
  destruct (SQLParser.find_keyword "FROM" tokens 0) as [from_index |];
    [| discriminate Hok].
  destruct (Nat.eqb from_index 1); [discriminate Hok |].
  cbv zeta in Hok.
  apply bind_Ok in Hok as [columns [_ Hok]].
  destruct (Nat.leb (List.length tokens) (from_index + 1)); [discriminate Hok |].
  destruct (SQLParser.bad_name (SQLParser.token_at tokens (from_index + 1)))
    eqn:Hname; [discriminate Hok |].
  apply bind_Ok in Hok as [where_clause [_ Hnode]].
  unfold SQLParser.SelectNode_init in Hnode.
  rewrite (bad_name_nonempty _ Hname) in Hnode.
  destruct columns as [| c columns]; [discriminate Hnode |].
  injection Hnode as <-.
  exists (SQLParser.token_at tokens (from_index + 1)), (c :: columns), where_clause.
  split; [reflexivity | split; [exact Hname | discriminate]].
Qed.

Lemma parse_inv `{PyBuiltins} (tokenize : string -> list string) (sql : string)
    (ast : ASTNode) :
  SQLParser.parse tokenize sql = Ok ast ->
  match ast with
  | CreateTableNode name columns =>
      PyStr.upper (SQLParser.token_at (tokenize sql) 0) = "CREATE"
      /\ SQLParser.bad_name name = false
      /\ Schema.init columns = Ok (Schema.mk columns (Schema.build_index columns))
  | InsertNode name values =>
      PyStr.upper (SQLParser.token_at (tokenize sql) 0) = "INSERT"
      /\ SQLParser.bad_name name = false
      /\ values <> []
  | SelectNode name columns _ =>
      PyStr.upper (SQLParser.token_at (tokenize sql) 0) = "SELECT"
      /\ SQLParser.bad_name name = false
      /\ columns <> []
  end.
Proof.
  unfold SQLParser.parse. intros Hok.
  destruct (String.eqb sql "" || String.eqb (PyStr.strip sql) "");
    [discriminate Hok |].
  apply try_except_Ok in Hok; [| apply raising_reraise_wrap].
  cbv zeta in Hok.
  destruct (tokenize sql) as [| token rest]; [discriminate Hok |].
  destruct (String.eqb (PyStr.upper (SQLParser.token_at (token :: rest) 0)) "CREATE")
    eqn:Hcreate.
  { apply String.eqb_eq in Hcreate.
    apply parse_create_table_inv in Hok as [name [columns [-> [Hname Hinit]]]].
    auto. }
  destruct (String.eqb (PyStr.upper (SQLParser.token_at (token :: rest) 0)) "INSERT")
    eqn:Hinsert.
  { apply String.eqb_eq in Hinsert.
    apply parse_insert_inv in Hok as [name [values [-> [Hname Hvalues]]]].
    auto. }
  destruct (String.eqb (PyStr.upper (SQLParser.token_at (token :: rest) 0)) "SELECT")
    eqn:Hselect; [| discriminate Hok].
  apply String.eqb_eq in Hselect.
  apply parse_select_inv in Hok as [name [columns [w [-> [Hname Hcolumns]]]]].
  auto.
Qed.

Lemma parsed_is_processed `{PyBuiltins} (tokenize : string -> list string)
    (sql : string) (ast : ASTNode) :
  SQLParser.parse tokenize sql = Ok ast ->
  exists plan, QueryProcessor.process ast = Ok plan.
Proof.
  intros Hok. apply parse_inv in Hok.
  destruct ast as [name columns | name values | name columns where_clause].
  - destruct Hok as [_ [Hname Hinit]]. eexists.
    exact (process_create_table _ _ _ (bad_name_nonempty _ Hname) Hinit).
  - destruct Hok as [_ [Hname Hvalues]]. eexists.
    exact (process_insert _ _ (bad_name_nonempty _ Hname) Hvalues).
  - destruct Hok as [_ [Hname Hcolumns]]. eexists.
    exact (process_select _ _ _ (bad_name_nonempty _ Hname) Hcolumns).
Qed.

(** X26. A statement that [parse] accepts is one that the query processor
    accepts: [process] returns a plan for every node that the parser
    returns. The kind of the node is that of the first token (CREATE,
    INSERT or SELECT in any letter case), its table name is not empty and
    has only letters, digits, underscores and hyphens, an INSERT node has
    values, a SELECT node has columns, and the columns of a CREATE TABLE
    node make a schema, so their names are distinct up to case. *)
Theorem X26_parsed_statement `{PyBuiltins} (tokenize : string -> list string)
    (sql : string) (ast : ASTNode) :
  SQLParser.parse tokenize sql = Ok ast ->
  (exists plan, QueryProcessor.process ast = Ok plan)
  /\ match ast with
     | CreateTableNode name columns =>
         PyStr.upper (SQLParser.token_at (tokenize sql) 0) = "CREATE"
         /\ SQLParser.bad_name name = false
         /\ Schema.init columns = Ok (Schema.mk columns (Schema.build_index columns))
     | InsertNode name values =>
         PyStr.upper (SQLParser.token_at (tokenize sql) 0) = "INSERT"
         /\ SQLParser.bad_name name = false
         /\ values <> []
     | SelectNode name columns _ =>
         PyStr.upper (SQLParser.token_at (tokenize sql) 0) = "SELECT"
         /\ SQLParser.bad_name name = false
         /\ columns <> []
     end.
Proof.
  intros Hok. split.
  - exact (parsed_is_processed tokenize sql ast Hok).
  - exact (parse_inv tokenize sql ast Hok).
Qed.

Lemma X26_parsed_statement_witness :
  let tokenize :=
    fun _ : string =>
      ["CREATE"; "TABLE"; "users"; "("; "id"; "INT"; ","; "name"; "VARCHAR";
       "("; "50"; ")"; ")"] in
  exists columns plan,
    SQLParser.parse tokenize "CREATE TABLE users (id INT, name VARCHAR(50))"
    = Ok (CreateTableNode "users" columns)
    /\ QueryProcessor.process (CreateTableNode "users" columns) = Ok plan
    /\ List.map Column.name columns = ["id"; "name"].
Proof.
  intros tokenize.
  assert (Hrun : SQLParser.parse tokenize "CREATE TABLE users (id INT, name VARCHAR(50))"
                 = Ok (CreateTableNode "users"
                         [Column.mk "id" "INT" true None;
                          Column.mk "name" "VARCHAR" true (Some 50)])).
  { vm_compute; reflexivity. }
  destruct (X26_parsed_statement tokenize _ _ Hrun) as [[plan Hplan] _].
  exists [Column.mk "id" "INT" true None; Column.mk "name" "VARCHAR" true (Some 50)],
    plan.
  split; [exact Hrun | split; [exact Hplan | reflexivity]].
Defined.

(** ** Statements from their text to their result *)

(** X27. The failures of [execute_sql] with the parser of the package. A
    statement that the parser rejects fails with the parser's
    [ParseError], unchanged. A statement that the parser accepts never
    fails in the query processor, and when its execution fails, whatever
    the cause (a missing table, a rejected row, an existing table), the
    error is the same [SQLEngineError], saying that the name
    [ProcessingError] is not defined. In both cases the registry is as
    the statement found it. *)
Theorem X27_execute_sql_failures `{PyBuiltins} (tokenize : string -> list string)
    (sql : string) (st st' : StorageManager.t) (e : Exc) :
  SQLEngine.execute_sql (SQLParser.parse tokenize) sql st = (Raise e, st') ->
  st' = st
  /\ ((SQLParser.parse tokenize sql = Raise e /\ exc_class e = ParseError)
      \/ (exists ast plan,
             SQLParser.parse tokenize sql = Ok ast
             /\ QueryProcessor.process ast = Ok plan
             /\ ExecutionEngine.execute plan st = (Raise ProcessingError_undefined, st)
             /\ e = mkExc SQLEngineError
                      "Unexpected error executing SQL: name 'ProcessingError' is not defined")).
Proof.
  unfold SQLEngine.execute_sql, try_exceptM, bindM, lift.
  destruct (SQLParser.parse tokenize sql) as [ast | e0] eqn:Hparse.
  - destruct (parsed_is_processed tokenize sql ast Hparse) as [plan Hplan].
    rewrite Hplan.
    destruct (ExecutionEngine.execute plan st) as [[result | e1] st1] eqn:Hrun;
      [discriminate |].
    pose proof (execute_raises_NameError plan st st1 e1 Hrun) as ->.
    assert (Hst : st1 = st).
    { destruct (process_plan _ _ Hplan) as [[operation ->] | Hsel].
      - exact (execute_single_failsafe operation _ _ _ Hrun).
      - exact (execute_select_failsafe plan Hsel _ _ _ Hrun). }
    subst st1. simpl. unfold wrap, raise. simpl.
    intros Heq; injection Heq as <- <-.
    split; [reflexivity | right]. exists ast, plan. auto.
  - assert (Hclass : exc_class e0 = ParseError).
    { revert Hparse. unfold SQLParser.parse.
      destruct (String.eqb sql "" || String.eqb (PyStr.strip sql) "").
      - intros Heq; injection Heq as <-; reflexivity.
      - apply parser_handler_class. }
    simpl. unfold isinstance. rewrite Hclass. simpl. unfold reraise.
    intros Heq; injection Heq as <- <-.
    split; [reflexivity | left; split; [reflexivity | exact Hclass]].
Qed.

Lemma X27_execute_sql_failures_witness :
  let tokenize := fun _ : string => ["SELECT"; "*"; "FROM"; "ghost"] in
  SQLEngine.execute_sql (SQLParser.parse tokenize) "SELECT * FROM ghost"
    Fixtures.no_tables
  = (raise SQLEngineError
       "Unexpected error executing SQL: name 'ProcessingError' is not defined",
     Fixtures.no_tables)
  /\ SQLParser.parse tokenize "SELECT * FROM ghost"
     = Ok (SelectNode "ghost" ["*"] None).
Proof.
  intros tokenize.
  assert (Hrun : exists e st',
             SQLEngine.execute_sql (SQLParser.parse tokenize) "SELECT * FROM ghost"
               Fixtures.no_tables = (Raise e, st')).
  { eexists _, _. vm_compute. reflexivity. }
  destruct Hrun as [e [st' Hrun]].
  destruct (X27_execute_sql_failures tokenize _ _ _ _ Hrun) as [-> Hcases].
  assert (Hparse : SQLParser.parse tokenize "SELECT * FROM ghost"
                   = Ok (SelectNode "ghost" ["*"] None)).
  { vm_compute; reflexivity. }
  split; [| exact Hparse].
  rewrite Hrun. destruct Hcases as [[Hfail _] | [ast [plan [_ [_ [_ ->]]]]]].
  - rewrite Hparse in Hfail. discriminate Hfail.
  - reflexivity.
Defined.

(** ** Column definitions *)




(** ** WHERE clauses *)

Lemma isalnum_nonempty (name : string) :
  PyStr.isalnum (PyStr.remove "-" (PyStr.remove "_" name)) = true ->
  String.eqb name "" = false.
Proof.
  destruct name; [discriminate | reflexivity].
Qed.

Lemma parser_operator_valid (operator : string) :
  PyStr.mem operator ["="; "!="; "<>"; ">"; "<"; ">="; "<="]
  = PyStr.mem operator WhereClause.VALID_OPERATORS.
Proof.
  unfold PyStr.mem, WhereClause.VALID_OPERATORS. cbn [existsb].
  destruct (String.eqb operator "="), (String.eqb operator "!="),
    (String.eqb operator "<>"), (String.eqb operator ">"),
    (String.eqb operator "<"), (String.eqb operator ">="),
    (String.eqb operator "<="); reflexivity.
Qed.

(** A WHERE clause as the parser builds it from its tokens. *)
Lemma parse_where_clause_result `{PyBuiltins} (tokens : list string) :
  match SQLParser._parse_where_clause tokens with
  | Ok w =>
      tokens = [WhereClause.column w; WhereClause.operator w;
                SQLParser.token_at tokens 2]
      /\ PyStr.isalnum
           (PyStr.remove "-" (PyStr.remove "_" (WhereClause.column w))) = true
      /\ PyStr.mem (WhereClause.operator w) WhereClause.VALID_OPERATORS = true
      /\ SQLParser._parse_single_value [SQLParser.token_at tokens 2]
         = Ok (WhereClause.value w)
  | Raise e => exc_class e = ParseError
  end.
Proof.
  unfold SQLParser._parse_where_clause.
  destruct (Z.ltb (len tokens) 3) eqn:Hshort; [reflexivity |].
  cbv zeta.
  destruct (negb (PyStr.isalnum
                    (PyStr.remove "-"
                       (PyStr.remove "_" (SQLParser.token_at tokens 0)))))
    eqn:Hcolumn; [reflexivity |].
  apply Bool.negb_false_iff in Hcolumn.
  destruct (negb (PyStr.mem (SQLParser.token_at tokens 1)
                    ["="; "!="; "<>"; ">"; "<"; ">="; "<="])) eqn:Hoperator;
    [reflexivity |].
  apply Bool.negb_false_iff in Hoperator.
  rewrite parser_operator_valid in Hoperator.
  destruct (SQLParser._parse_single_value [SQLParser.token_at tokens 2])
    as [value | e] eqn:Hvalue.
  - cbn [try_except bind].
    destruct (Z.gtb (len tokens) 3) eqn:Hlong; [reflexivity |].
    unfold WhereClause.init.
    rewrite (isalnum_nonempty _ Hcolumn), Hoperator. cbn [negb].
    cbn [WhereClause.column WhereClause.operator WhereClause.value].
    split; [| auto].
    apply Z.ltb_ge in Hshort. rewrite Z.gtb_ltb in Hlong. apply Z.ltb_ge in Hlong.
    unfold len in Hshort, Hlong.
    destruct tokens as [| t0 [| t1 [| t2 [| t3 rest]]]];
      cbn [List.length] in Hshort, Hlong; try lia.
    reflexivity.
  - pose proof (parse_single_value_class _ _ Hvalue) as Hclass.
    cbn [try_except handle]. cbn [load_names load_name ns_find SQLParser.globals].
    simpl. unfold isinstance. rewrite Hclass. reflexivity.
Qed.

(** X29. A WHERE clause. The clause that [_parse_where_clause] returns
    comes from exactly three tokens: its column is the first, made of
    letters, digits, underscores and hyphens, its operator is the second,
    one of the seven comparison operators, and its value is what
    [_parse_single_value] reads from the third. What the function raises
    is a [ParseError]; in particular a condition with more tokens, such
    as one with AND or OR, is rejected as a complex clause when its first
    three tokens are well formed. *)
Theorem X29_parse_where_clause `{PyBuiltins} (tokens : list string) :
  (forall w,
      SQLParser._parse_where_clause tokens = Ok w ->
      tokens = [WhereClause.column w; WhereClause.operator w;
                SQLParser.token_at tokens 2]
      /\ PyStr.isalnum
           (PyStr.remove "-" (PyStr.remove "_" (WhereClause.column w))) = true
      /\ PyStr.mem (WhereClause.operator w) WhereClause.VALID_OPERATORS = true
      /\ SQLParser._parse_single_value [SQLParser.token_at tokens 2]
         = Ok (WhereClause.value w))
  /\ (forall e,
         SQLParser._parse_where_clause tokens = Raise e ->
         exc_class e = ParseError)
  /\ (forall column operator value_token extra value,
         tokens = column :: operator :: value_token :: extra ->
         extra <> [] ->
         PyStr.isalnum (PyStr.remove "-" (PyStr.remove "_" column)) = true ->
         PyStr.mem operator WhereClause.VALID_OPERATORS = true ->
         SQLParser._parse_single_value [value_token] = Ok value ->
         SQLParser._parse_where_clause tokens
         = raise ParseError
             ("Complex WHERE clauses not yet supported. Found extra tokens: "
                ++ PyStr.join " " extra)).
Proof.
  pose proof (parse_where_clause_result tokens) as Hresult.
  split; [| split].
  - intros w Hok. rewrite Hok in Hresult. exact Hresult.
  - intros e Hraise. rewrite Hraise in Hresult. exact Hresult.
  - intros column operator value_token extra value -> Hextra Hcolumn Hoperator Hvalue.
    unfold SQLParser._parse_where_clause.
    assert (Hshort : Z.ltb (len (column :: operator :: value_token :: extra)) 3
                     = false).
    { apply Z.ltb_ge. unfold len. cbn [List.length]. lia. }
    assert (Hlong : Z.gtb (len (column :: operator :: value_token :: extra)) 3
                    = true).
    { rewrite Z.gtb_ltb. apply Z.ltb_lt. unfold len.
      destruct extra; [contradiction |]. cbn [List.length]. lia. }
    rewrite Hshort, Hlong. cbv zeta. cbn [SQLParser.token_at nth skipn].
    rewrite Hcolumn, parser_operator_valid, Hoperator, Hvalue. reflexivity.
Qed.

Lemma X29_parse_where_clause_witness :
  SQLParser._parse_where_clause ["age"; ">="; "21"]
  = Ok (WhereClause.mk "age" ">=" (VInt 21))
  /\ SQLParser._parse_where_clause ["age"; ">="; "21"; "AND"; "id"; "="; "1"]
     = raise ParseError
         "Complex WHERE clauses not yet supported. Found extra tokens: AND id = 1".
Proof.
  destruct (X29_parse_where_clause ["age"; ">="; "21"]) as [Hclause _].
  destruct (X29_parse_where_clause ["age"; ">="; "21"; "AND"; "id"; "="; "1"])
    as [_ [_ Hextra]].
  assert (Hrun : SQLParser._parse_where_clause ["age"; ">="; "21"]
                 = Ok (WhereClause.mk "age" ">=" (VInt 21))).
  { vm_compute; reflexivity. }
  destruct (Hclause _ Hrun) as [_ [_ [_ Hvalue]]].
  split; [exact Hrun |].
  apply (Hextra "age" ">=" "21" ["AND"; "id"; "="; "1"] (VInt 21));
    [reflexivity | discriminate | reflexivity | reflexivity | exact Hvalue].
Defined.

(** ** Column lists of SELECT statements *)

Lemma all_remove (p : ascii -> bool) (c : ascii) (s : string) :
  PyStr.all p s = true -> PyStr.all p (PyStr.remove c s) = true.
Proof.
  induction s as [| d s IH]; simpl; [reflexivity |].
  intros Hall. apply Bool.andb_true_iff in Hall as [Hd Hs].
  destruct (Ascii.eqb c d); simpl; [auto |]. rewrite Hd; auto.
Qed.

Lemma all_rev_onto (p : ascii -> bool) (s acc : string) :
  PyStr.all p (PyStr.rev_onto s acc) = PyStr.all p s && PyStr.all p acc.
Proof.
  revert acc. induction s as [| c s IH]; intros acc; simpl; [reflexivity |].
  rewrite IH. simpl. destruct (p c), (PyStr.all p s); reflexivity.
Qed.

Lemma rev_onto_empty (s acc : string) :
  PyStr.rev_onto s acc = "" -> s = "" /\ acc = "".
Proof.
  revert acc. induction s as [| c s IH]; intros acc; simpl; [auto |].
  intros Hrev. destruct (IH _ Hrev) as [_ Hacc]. discriminate Hacc.
Qed.

Lemma lstrip_empty (s : string) :
  PyStr.lstrip s = "" -> PyStr.all PyStr.isspace_char s = true.
Proof.
  induction s as [| c s IH]; simpl; [reflexivity |].
  destruct (PyStr.isspace_char c); [exact IH | discriminate].
Qed.

Lemma all_lstrip (s : string) :
  PyStr.all PyStr.isspace_char (PyStr.lstrip s) = true ->
  PyStr.all PyStr.isspace_char s = true.
Proof.
  induction s as [| c s IH]; simpl; [reflexivity |].
  destruct (PyStr.isspace_char c) eqn:Hc; simpl; [exact IH |].
  rewrite Hc. discriminate.
Qed.

Lemma strip_blank (s : string) :
  PyStr.strip s = "" -> PyStr.all PyStr.isspace_char s = true.
Proof.
  unfold PyStr.strip, PyStr.rev. intros Hstrip.
  apply rev_onto_empty in Hstrip as [Hstrip _].
  apply lstrip_empty in Hstrip. rewrite all_rev_onto in Hstrip.
  apply Bool.andb_true_iff in Hstrip as [Hstrip _].
  apply all_lstrip, Hstrip.
Qed.

Lemma isspace_not_isalnum (c : ascii) :
  PyStr.isspace_char c = true -> PyStr.isalnum_char c = false.
Proof.
  destruct c as [[|] [|] [|] [|] [|] [|] [|] [|]]; vm_compute;
    intros Hspace; (reflexivity || discriminate Hspace).
Qed.

(** A name of letters, digits, underscores and hyphens is not blank. *)
Lemma valid_name_strip (name : string) :
  PyStr.isalnum (PyStr.remove "-" (PyStr.remove "_" name)) = true ->
  String.eqb (PyStr.strip name) "" = false.
Proof.
  intros Hvalid. apply String.eqb_neq. intros Hstrip.
  apply strip_blank in Hstrip.
  apply (all_remove _ "_"%char) in Hstrip. apply (all_remove _ "-"%char) in Hstrip.
  destruct (PyStr.remove "-" (PyStr.remove "_" name)) as [| c rest];
    [discriminate Hvalid |].
  simpl in Hvalid, Hstrip.
  apply Bool.andb_true_iff in Hvalid as [Halnum _].
  apply Bool.andb_true_iff in Hstrip as [Hspace _].
  rewrite (isspace_not_isalnum c Hspace) in Halnum. discriminate Halnum.
Qed.

Lemma check_column_names_result (columns : list string) :
  match SQLParser.check_column_names columns with
  | Ok _ =>
      Forall
        (fun col => PyStr.isalnum (PyStr.remove "-" (PyStr.remove "_" col)) = true)
        columns
  | Raise e => exc_class e = ParseError
  end.
Proof.
  induction columns as [| col columns IH]; simpl; [constructor |].
  destruct (PyStr.isalnum (PyStr.remove "-" (PyStr.remove "_" col))) eqn:Hcol;
    simpl; [| reflexivity].
  destruct (SQLParser.check_column_names columns); [| exact IH].
  constructor; assumption.
Qed.

Lemma check_column_names_valid (columns : list string) :
  Forall
    (fun col => PyStr.isalnum (PyStr.remove "-" (PyStr.remove "_" col)) = true)
    columns ->
  SQLParser.check_column_names columns = Ok tt.
Proof.
  induction 1 as [| col columns Hcol _ IH]; simpl; [reflexivity |].
  rewrite Hcol. exact IH.
Qed.

(** The loop of [_parse_select_columns]: what it raises, and that it
    ends with an empty current column only after a comma. *)
Lemma select_columns_loop_result (tokens columns current : list string) :
  match SQLParser.select_columns_loop tokens columns current with
  | Ok (columns', current') =>
      current' = [] -> (tokens = [] /\ current = []) \/ List.last tokens "" = ","
  | Raise e => exc_class e = ParseError
  end.
Proof.
  revert columns current.
  induction tokens as [| token rest IH]; intros columns current.
  - simpl. auto.
  - cbn [SQLParser.select_columns_loop].
    assert (Hlast : forall l current' : list string,
               (l = [] /\ current' = []) \/ List.last l "" = "," ->
               current' <> [] \/ token = "," ->
               (token :: l = [] /\ current = []) \/ List.last (token :: l) "" = ",").
    { intros l current' [[-> ->] | Hl] Hor; right.
      - destruct Hor as [Hor | ->]; [contradiction | reflexivity].
      - destruct l as [| t l]; [simpl in Hl; discriminate Hl | exact Hl]. }
    destruct (String.eqb token ",") eqn:Hcomma.
    + apply String.eqb_eq in Hcomma.
      destruct current as [| c current]; [reflexivity |].
      destruct (String.eqb (PyStr.strip (SQLParser.concat_tokens (c :: current))) "");
        [reflexivity |].
      specialize (IH (columns ++ [SQLParser.concat_tokens (c :: current)])%list []).
      destruct (SQLParser.select_columns_loop rest _ []) as [[columns' current'] |];
        [| exact IH].
      intros Hempty. apply (Hlast rest []); auto.
    + specialize (IH columns (current ++ [token])%list).
      destruct (SQLParser.select_columns_loop rest columns _)
        as [[columns' current'] |]; [| exact IH].
      intros Hempty. apply (Hlast rest (current ++ [token])%list); auto.
      left. destruct current; discriminate.
Qed.

Lemma select_columns_loop_items (items suffix : list string) (item : string)
    (columns : list string) :
  Forall (fun t => t <> "," /\ String.eqb (PyStr.strip t) "" = false)
    (item :: items) ->
  SQLParser.select_columns_loop (comma_separated (item :: items) ++ suffix)
    columns []
  = SQLParser.select_columns_loop suffix
      (columns ++ removelast (item :: items))%list [last (item :: items) ""].
Proof.
  revert item columns. induction items as [| item' items IH]; intros item columns Hall.
  - inversion Hall as [| ? ? [Hitem _] _]; subst.
    apply String.eqb_neq in Hitem.
    cbn [comma_separated app removelast last SQLParser.select_columns_loop].
    rewrite Hitem, app_nil_r. reflexivity.
  - inversion Hall as [| ? ? [Hitem Hstrip] Hrest]; subst.
    apply String.eqb_neq in Hitem.
    change (comma_separated (item :: item' :: items))
      with (item :: "," :: comma_separated (item' :: items)).
    change (removelast (item :: item' :: items))
      with (item :: removelast (item' :: items)).
    change (last (item :: item' :: items) "") with (last (item' :: items) "").
    cbn [app SQLParser.select_columns_loop]. rewrite Hitem.
    cbn [app]. rewrite String.eqb_refl.
    change (SQLParser.concat_tokens [item]) with item. rewrite Hstrip.
    rewrite (IH item' (columns ++ [item])%list Hrest).
    rewrite <- app_assoc. reflexivity.
Qed.

Lemma NoDup_distinct (names : list string) :
  NoDup names -> Nat.eqb (List.length names) (PyStr.distinct names) = true.
Proof.
  intros Hnodup. unfold PyStr.distinct.
  rewrite (nodup_fixed_point string_dec Hnodup). apply Nat.eqb_refl.
Qed.

(** X30. The column list of a SELECT statement. The single token [*]
    gives the list [*]. Any other list that [_parse_select_columns]
    returns is not empty, its names are made of letters, digits,
    underscores and hyphens, and they are distinct up to case. What the
    function raises is a [ParseError]. One-token names that are well
    formed and distinct up to case, separated by commas, are returned as
    they are, in order. *)
Theorem X30_parse_select_columns (tokens : list string) :
  SQLParser._parse_select_columns ["*"] = Ok ["*"]
  /\ (forall columns,
         SQLParser._parse_select_columns tokens = Ok columns ->
         columns <> []
         /\ (columns = ["*"]
             \/ (Forall
                   (fun col =>
                      PyStr.isalnum (PyStr.remove "-" (PyStr.remove "_" col)) = true)
                   columns
                 /\ NoDup (List.map PyStr.lower columns))))
  /\ (forall e,
         SQLParser._parse_select_columns tokens = Raise e ->
         exc_class e = ParseError)
  /\ (forall items,
         tokens = comma_separated items ->
         items <> [] ->
         Forall
           (fun col =>
              PyStr.isalnum (PyStr.remove "-" (PyStr.remove "_" col)) = true)
           items ->
         NoDup (List.map PyStr.lower items) ->
         SQLParser._parse_select_columns tokens = Ok items).
Proof.
  split; [reflexivity |].
  assert (Hresult :
            match SQLParser._parse_select_columns tokens with
            | Ok columns =>
                columns <> []
                /\ (columns = ["*"]
                    \/ (Forall
                          (fun col =>
                             PyStr.isalnum
                               (PyStr.remove "-" (PyStr.remove "_" col)) = true)
                          columns
                        /\ NoDup (List.map PyStr.lower columns)))
            | Raise e => exc_class e = ParseError
            end).
  { unfold SQLParser._parse_select_columns.
    destruct tokens as [| token tokens]; [reflexivity |].
    destruct (Z.eqb (len (token :: tokens)) 1
              && String.eqb (SQLParser.token_at (token :: tokens) 0) "*").
    { split; [discriminate | left; reflexivity]. }
    pose proof (select_columns_loop_result (token :: tokens) [] []) as Hloop.
    destruct (SQLParser.select_columns_loop (token :: tokens) [] [])
      as [[parsed current] |]; [| exact Hloop].
    cbn [bind].
    assert (Hcolumns :
              match
                match current with
                | _ :: _ =>
                    if String.eqb (PyStr.strip (SQLParser.concat_tokens current)) ""
                    then raise ParseError "Invalid column list: empty column name"
                    else Ok (parsed ++ [SQLParser.concat_tokens current])%list
                | [] =>
                    if String.eqb (List.last (token :: tokens) "") ","
                    then raise ParseError "Invalid column list: trailing comma"
                    else Ok parsed
                end
              with
              | Ok columns => columns <> []
              | Raise e => exc_class e = ParseError
              end).
    { destruct current as [| c current].
      - destruct (String.eqb (List.last (token :: tokens) "") ",") eqn:Hcomma;
          [reflexivity |].
        apply String.eqb_neq in Hcomma.
        destruct (Hloop eq_refl) as [[Hnil _] | Hlast];
          [discriminate Hnil | contradiction].
      - destruct (String.eqb (PyStr.strip (SQLParser.concat_tokens (c :: current))) "");
          [reflexivity |].
        destruct parsed; discriminate. }
    destruct (match current with
              | [] => _
              | _ :: _ => _
              end) as [columns |]; [| exact Hcolumns].
    cbn [bind].
    pose proof (check_column_names_result columns) as Hcheck.
    destruct (SQLParser.check_column_names columns); [| exact Hcheck].
    cbn [bind]. cbv zeta.
    destruct (Nat.eqb (List.length (List.map PyStr.lower columns))
                (PyStr.distinct (List.map PyStr.lower columns))) eqn:Hdistinct;
      cbn [negb]; [| reflexivity].
    split; [exact Hcolumns | right; split; [exact Hcheck |]].
    apply nodup_length_NoDup. symmetry. apply Nat.eqb_eq, Hdistinct. }
  split; [| split].
  - intros columns Hok. rewrite Hok in Hresult. exact Hresult.
  - intros e Hraise. rewrite Hraise in Hresult. exact Hresult.
  - intros items -> Hitems Hvalid Hnodup.
    destruct items as [| item items]; [contradiction |].
    assert (Hplain : Forall
                       (fun t => t <> "," /\ String.eqb (PyStr.strip t) "" = false)
                       (item :: items)).
    { eapply Forall_impl; [| exact Hvalid]. intros t Ht. split.
      - intros ->. discriminate Ht.
      - apply valid_name_strip, Ht. }
    remember (comma_separated (item :: items)) as tokens eqn:Htokens.
    destruct tokens as [| t rest].
    { rewrite comma_separated_cons in Htokens. discriminate Htokens. }
    unfold SQLParser._parse_select_columns.
    assert (Hstar : Z.eqb (len (t :: rest)) 1
                    && String.eqb (SQLParser.token_at (t :: rest) 0) "*" = false).
    { apply Bool.andb_false_iff. right. apply String.eqb_neq.
      rewrite comma_separated_cons in Htokens. injection Htokens as -> _.
      cbn [SQLParser.token_at nth]. intros ->.
      inversion Hvalid as [| ? ? Hitem _]. discriminate Hitem. }
    rewrite Hstar, Htokens.
    rewrite <- (app_nil_r (comma_separated (item :: items))) at 1.
    rewrite (select_columns_loop_items items [] item [] Hplain).
    cbn [SQLParser.select_columns_loop bind app].
    change (SQLParser.concat_tokens [last (item :: items) ""])
      with (last (item :: items) "").
    assert (Hlast : In (last (item :: items) "") (item :: items)).
    { destruct (@exists_last _ (item :: items) ltac:(discriminate)) as [l [a Heq]].
      rewrite Heq, last_last. apply in_or_app. right. left. reflexivity. }
    rewrite Forall_forall in Hplain. destruct (Hplain _ Hlast) as [_ Hstrip].
    rewrite Hstrip.
    rewrite <- (app_removelast_last (l := item :: items) "" ltac:(discriminate)).
    cbn [bind]. rewrite (check_column_names_valid _ Hvalid).
    cbn [bind]. cbv zeta. rewrite (NoDup_distinct _ Hnodup). reflexivity.
Qed.

Lemma X30_parse_select_columns_witness :
  SQLParser._parse_select_columns ["name"; ","; "user_id"] = Ok ["name"; "user_id"]
  /\ NoDup (List.map PyStr.lower ["name"; "user_id"]).
Proof.
  destruct (X30_parse_select_columns ["name"; ","; "user_id"])
    as [_ [Hcolumns [_ Hitems]]].
  assert (Hnodup : NoDup (List.map PyStr.lower ["name"; "user_id"])).
  { repeat constructor; simpl; intuition discriminate. }
  assert (Hrun : SQLParser._parse_select_columns ["name"; ","; "user_id"]
                 = Ok ["name"; "user_id"]).
  { apply (Hitems ["name"; "user_id"]);
      [reflexivity | discriminate | repeat constructor | exact Hnodup]. }
  split; [exact Hrun |].
  destruct (Hcolumns _ Hrun) as [_ [Hstar | [_ Hdistinct]]];
    [discriminate Hstar | exact Hdistinct].
Defined.
